(** * scriblleApp: the room / round state machine of [backend/server.py]

    A shallow embedding of the Socket.IO event handlers of the drawing and
    guessing game, together with the properties of the specification that
    concern them.

    Modelling conventions.
    - A Python [str] is a Rocq [string]; its characters are read as the code
      points 0..255, on which [str.lower] and the white space stripped by
      [str.strip] are written out below.
    - Python integers are [Z]; the float timestamps of
      [datetime.now().timestamp()] are rationals ([Q]): doubling a binary
      float is exact and [int] truncates toward zero, which is what
      [py_int] does on [Q].
    - [game_rooms] is an insertion-ordered association list, as a Python
      [dict] is; each room is a record with the keys of the room dict.
    - Every handler runs from one suspension point ([asyncio.sleep]) to the
      next as one step of the cooperative event loop. The calls to [sio] are
      appended to a log, with the payload as it is at the time of the call;
      coroutines put to sleep are kept in the world with their wake-up time.
    - The clock and the draws of [random.choice] are part of the world.
    - Handlers receive the values of the handler's locals read from the
      payload ([room_code] after [.upper()], [username], ...). *)

From Stdlib Require Import ZArith QArith Qround List Bool Ascii String Lia.
From Stdlib Require Import Sorting.Sorted Sorting.Permutation.
Import ListNotations.

Local Open Scope string_scope.
Local Open Scope list_scope.
Local Open Scope Z_scope.

(** ** Python text primitives *)

Module PyStr.

Definition code (c : ascii) : N := N_of_ascii c.

(** Code points with a lowercase mapping inside 0..255: A-Z, and the
    Latin-1 capitals 0xC0-0xDE except the multiplication sign 0xD7. *)
Definition is_upper (c : ascii) : bool :=
  let n := code c in
  ((65 <=? n) && (n <=? 90))%N
  || ((192 <=? n) && (n <=? 222) && negb (n =? 215))%N.

Definition lower_char (c : ascii) : ascii :=
  if is_upper c then ascii_of_N (code c + 32) else c.

(** [str.lower()] *)
Fixpoint lower (s : string) : string :=
  match s with
  | EmptyString => EmptyString
  | String c s' => String (lower_char c) (lower s')
  end.

(** [str.isspace] on one character: TAB..CR, FS..US, space, NEL, NBSP. *)
Definition is_space (c : ascii) : bool :=
  let n := code c in
  ((9 <=? n) && (n <=? 13))%N || ((28 <=? n) && (n <=? 32))%N
  || (n =? 133)%N || (n =? 160)%N.

Fixpoint lstrip (s : string) : string :=
  match s with
  | EmptyString => EmptyString
  | String c s' => if is_space c then lstrip s' else s
  end.

(** Drops the trailing white space: a character is kept when something
    that is kept follows it, or when it is not white space. *)
Fixpoint rstrip (s : string) : string :=
  match s with
  | EmptyString => EmptyString
  | String c s' =>
      match rstrip s' with
      | EmptyString => if is_space c then EmptyString else String c EmptyString
      | t => String c t
      end
  end.

(** [str.strip()] *)
Definition strip (s : string) : string := rstrip (lstrip s).

(** [c * n] for a one-character string [c] *)
Fixpoint repeat_char (c : ascii) (n : nat) : string :=
  match n with
  | O => EmptyString
  | S n' => String c (repeat_char c n')
  end.

(** [len(s)] *)
Definition len (s : string) : Z := Z.of_nat (String.length s).

End PyStr.

(** ** Python numeric and sequence primitives *)

(** [int(x)] on a float: truncation toward zero. *)
Definition py_int (x : Q) : Z := Z.quot (Qnum x) (Zpos (Qden x)).

Inductive Exn : Type :=
| IndexError
| ZeroDivisionError
| AttributeError
| TypeError
| KeyError.

(** [l[i]] on a list: negative indices count from the end, anything outside
    [-len(l), len(l)) raises [IndexError]. *)
Definition py_getitem {A : Type} (l : list A) (i : Z) : option A :=
  let n := Z.of_nat (List.length l) in
  if (0 <=? i) && (i <? n) then nth_error l (Z.to_nat i)
  else if (- n <=? i) && (i <? 0) then nth_error l (Z.to_nat (n + i))
  else None.

(** [a % b] for integers: the sign follows the divisor; [b = 0] raises. *)
Definition py_mod (a b : Z) : option Z :=
  if b =? 0 then None else Some (a mod b).

(** ** Data model *)

Record Player : Type := mkPlayer {
  sid : string;
  username : string;
  score : Z;
  is_host : bool
}.

Record Stroke : Type := mkStroke {
  points : list (Z * Z);
  color : string;
  width : Z
}.

Record Room : Type := mkRoom {
  room_code : string;
  players : list Player;
  max_players : Z;
  game_started : bool;
  current_round : Z;
  max_rounds : Z;
  current_drawer_index : Z;
  current_drawer_sid : option string;
  current_word : option string;
  strokes : list Stroke;
  guessed_players : list string;
  round_start_time : option Q
}.

Definition WORD_BANK : list string := [
  "cat"; "dog"; "house"; "tree"; "car"; "sun"; "moon"; "star"; "flower"; "bird";
  "fish"; "book"; "phone"; "computer"; "guitar"; "piano"; "camera"; "bicycle";
  "umbrella"; "chair"; "table"; "cup"; "bottle"; "shoe"; "hat"; "clock";
  "butterfly"; "rainbow"; "mountain"; "beach"; "ocean"; "river"; "bridge";
  "castle"; "rocket"; "airplane"; "boat"; "train"; "pizza"; "burger"; "ice cream";
  "cake"; "apple"; "banana"; "carrot"; "elephant"; "giraffe"; "lion"; "tiger";
  "penguin"; "dolphin"; "whale"; "octopus"; "spider"; "butterfly"; "snowman";
  "campfire"; "tent"; "backpack"; "glasses"; "crown"; "sword"; "shield"
].

(** Field assignments [room['k'] = v] and [player['score'] = v]. *)
Module Upd.

Definition set_score (v : Z) (p : Player) : Player :=
  mkPlayer (sid p) (username p) v (is_host p).

Definition set_players (v : list Player) (r : Room) : Room :=
  mkRoom (room_code r) v (max_players r) (game_started r) (current_round r)
         (max_rounds r) (current_drawer_index r) (current_drawer_sid r)
         (current_word r) (strokes r) (guessed_players r) (round_start_time r).

Definition set_game_started (v : bool) (r : Room) : Room :=
  mkRoom (room_code r) (players r) (max_players r) v (current_round r)
         (max_rounds r) (current_drawer_index r) (current_drawer_sid r)
         (current_word r) (strokes r) (guessed_players r) (round_start_time r).

Definition set_current_round (v : Z) (r : Room) : Room :=
  mkRoom (room_code r) (players r) (max_players r) (game_started r) v
         (max_rounds r) (current_drawer_index r) (current_drawer_sid r)
         (current_word r) (strokes r) (guessed_players r) (round_start_time r).

Definition set_current_drawer_index (v : Z) (r : Room) : Room :=
  mkRoom (room_code r) (players r) (max_players r) (game_started r)
         (current_round r) (max_rounds r) v (current_drawer_sid r)
         (current_word r) (strokes r) (guessed_players r) (round_start_time r).

Definition set_current_drawer_sid (v : option string) (r : Room) : Room :=
  mkRoom (room_code r) (players r) (max_players r) (game_started r)
         (current_round r) (max_rounds r) (current_drawer_index r) v
         (current_word r) (strokes r) (guessed_players r) (round_start_time r).

Definition set_current_word (v : option string) (r : Room) : Room :=
  mkRoom (room_code r) (players r) (max_players r) (game_started r)
         (current_round r) (max_rounds r) (current_drawer_index r)
         (current_drawer_sid r) v (strokes r) (guessed_players r)
         (round_start_time r).

Definition set_strokes (v : list Stroke) (r : Room) : Room :=
  mkRoom (room_code r) (players r) (max_players r) (game_started r)
         (current_round r) (max_rounds r) (current_drawer_index r)
         (current_drawer_sid r) (current_word r) v (guessed_players r)
         (round_start_time r).

Definition set_guessed_players (v : list string) (r : Room) : Room :=
  mkRoom (room_code r) (players r) (max_players r) (game_started r)
         (current_round r) (max_rounds r) (current_drawer_index r)
         (current_drawer_sid r) (current_word r) (strokes r) v
         (round_start_time r).

Definition set_round_start_time (v : option Q) (r : Room) : Room :=
  mkRoom (room_code r) (players r) (max_players r) (game_started r)
         (current_round r) (max_rounds r) (current_drawer_index r)
         (current_drawer_sid r) (current_word r) (strokes r)
         (guessed_players r) v.

End Upd.

(** ** The [dict] of rooms *)

Module Dict.

Definition t : Type := list (string * Room).

(** [d[k]] / [k in d] *)
Fixpoint get (k : string) (d : t) : option Room :=
  match d with
  | [] => None
  | (k', r) :: d' => if String.eqb k k' then Some r else get k d'
  end.

Definition mem (k : string) (d : t) : bool :=
  match get k d with Some _ => true | None => false end.

(** [d[k] = r]: an existing key keeps its place, a new one goes last. *)
Fixpoint set (k : string) (r : Room) (d : t) : t :=
  match d with
  | [] => [(k, r)]
  | (k', r') :: d' =>
      if String.eqb k k' then (k', r) :: d' else (k', r') :: set k r d'
  end.

(** [del d[k]] *)
Fixpoint del (k : string) (d : t) : t :=
  match d with
  | [] => []
  | (k', r') :: d' => if String.eqb k k' then d' else (k', r') :: del k d'
  end.

Definition keys (d : t) : list string := map fst d.
Definition values (d : t) : list Room := map snd d.

End Dict.

(** ** Calls to the Socket.IO server *)

Module Ev.

(** The named events of the server, with their payloads. *)
Inductive t : Type :=
| connected (sid' : string)
| error (message : string)
| room_created (code : string) (ps : list Player)
| room_joined (code : string) (ps : list Player)
| player_joined (ps : list Player)
| player_left (code : string) (ps : list Player)
| game_started
| new_round (round : Z) (drawer drawer_sid word : string) (word_length : Z)
| round_end (word : option string) (ps : list Player)
| game_end (ps : list Player)
| stroke_drawn (s : Stroke)
| canvas_cleared
| correct_guess (player : string) (pts : Z)
| guess_result (correct : bool) (pts : option Z)
| chat_message (username' message : string).

End Ev.

(** [to=sid] or [room=room_code] *)
Inductive Target : Type :=
| ToSid (s : string)
| ToRoom (code : string).

Inductive SioCall : Type :=
| Emit (e : Ev.t) (dest : Target)
| EnterRoom (sid' code : string).

(** A coroutine suspended in [asyncio.sleep], with the time it wakes up at:
    [round_timer] before its check, or [end_round] before the next round. *)
Inductive Task : Type :=
| RoundTimer (code : string) (wake : Q)
| NextRound (code : string) (wake : Q).

(** ** The world and the handler monad *)

Record World : Type := mkWorld {
  game_rooms : Dict.t;
  sio_log : list SioCall;      (* calls to [sio], oldest first *)
  tasks : list Task;           (* sleeping coroutines, oldest first *)
  clock : Q;                   (* [datetime.now().timestamp()] *)
  rng : nat -> nat;            (* the draws of [random] to come *)
  draws : nat                  (* how many were consumed *)
}.

Inductive Result (A : Type) : Type :=
| Ok (a : A) (w : World)
| Raise (e : Exn) (w : World).
Arguments Ok {A} a w.
Arguments Raise {A} e w.

Definition world_of {A : Type} (r : Result A) : World :=
  match r with Ok _ w => w | Raise _ w => w end.

Definition M (A : Type) : Type := World -> Result A.

Definition ret {A : Type} (a : A) : M A := fun w => Ok a w.

Definition bind {A B : Type} (m : M A) (f : A -> M B) : M B :=
  fun w => match m w with
           | Ok a w' => f a w'
           | Raise e w' => Raise e w'
           end.

Definition raise {A : Type} (e : Exn) : M A := fun w => Raise e w.

Declare Scope handler_scope.
Delimit Scope handler_scope with handler.
Notation "x <- c1 ;; c2" := (bind c1 (fun x => c2))
  (at level 61, c1 at next level, right associativity) : handler_scope.
Notation "c1 ;; c2" := (bind c1 (fun _ => c2))
  (at level 61, right associativity) : handler_scope.
Local Open Scope handler_scope.

Definition or_raise {A : Type} (e : Exn) (o : option A) : M A :=
  match o with Some a => ret a | None => raise e end.

Definition get_rooms : M Dict.t := fun w => Ok (game_rooms w) w.

Definition put_rooms (d : Dict.t) : M unit :=
  fun w => Ok tt (mkWorld d (sio_log w) (tasks w) (clock w) (rng w) (draws w)).

(** Writes the room registered under [code] back after its fields changed. *)
Definition store (code : string) (r : Room) : M unit :=
  fun w => put_rooms (Dict.set code r (game_rooms w)) w.

Definition del_room (code : string) : M unit :=
  fun w => put_rooms (Dict.del code (game_rooms w)) w.

Definition sio (c : SioCall) : M unit :=
  fun w => Ok tt (mkWorld (game_rooms w) (sio_log w ++ [c]) (tasks w)
                          (clock w) (rng w) (draws w)).

Definition emit (e : Ev.t) (dest : Target) : M unit := sio (Emit e dest).
Definition enter_room (sid' code : string) : M unit := sio (EnterRoom sid' code).

Definition now : M Q := fun w => Ok (clock w) w.

(** [random.choice(l)] *)
Definition random_choice (l : list string) : M string :=
  fun w =>
    match l with
    | [] => Raise IndexError w
    | x :: _ =>
        Ok (nth (rng w (draws w) mod List.length l)%nat l x)
           (mkWorld (game_rooms w) (sio_log w) (tasks w) (clock w) (rng w)
                    (S (draws w)))
    end.

Definition spawn (t : Task) : M unit :=
  fun w => Ok tt (mkWorld (game_rooms w) (sio_log w) (tasks w ++ [t])
                          (clock w) (rng w) (draws w)).

(** [for x in l: body(x)] *)
Fixpoint for_each {A : Type} (l : list A) (body : A -> M unit) : M unit :=
  match l with
  | [] => ret tt
  | x :: l' => body x ;; for_each l' body
  end.

(** ** List helpers of the handlers *)

Definition len {A : Type} (l : list A) : Z := Z.of_nat (List.length l).

Definition has_sid (s : string) (p : Player) : bool := String.eqb (sid p) s.

(** [player = next((p for p in ps if p['sid'] == s), None)] followed by
    [player['score'] += n] when a player was found: the first match changes. *)
Fixpoint add_score (s : string) (n : Z) (ps : list Player) : list Player :=
  match ps with
  | [] => []
  | p :: ps' =>
      if has_sid s p then Upd.set_score (score p + n) p :: ps'
      else p :: add_score s n ps'
  end.

Section Sorting.

Context {A : Type} (key : A -> Z).

Fixpoint insert_by (x : A) (l : list A) : list A :=
  match l with
  | [] => [x]
  | y :: l' => if key x <=? key y then x :: l else y :: insert_by x l'
  end.

(** A stable ascending sort; it stands for the stable sort of [list.sort],
    whose result is determined by stability. *)
Fixpoint sort_by (l : list A) : list A :=
  match l with
  | [] => []
  | x :: l' => insert_by x (sort_by l')
  end.

(** [sorted(l, key=key, reverse=reverse)]: with [reverse] the list is
    reversed, sorted, and reversed again. *)
Definition py_sorted (reverse : bool) (l : list A) : list A :=
  if reverse then rev (sort_by (rev l)) else sort_by l.

End Sorting.

Definition opt_is (o : option string) (s : string) : bool :=
  match o with Some x => String.eqb x s | None => false end.

Definition mem_sid (s : string) (l : list string) : bool :=
  existsb (String.eqb s) l.

(** ** The handlers of [server.py] *)

Definition connect (sid' : string) : M unit :=
  emit (Ev.connected sid') (ToSid sid').

Definition create_room (sid' code username' : string) : M unit :=
  d <- get_rooms ;;
  if Dict.mem code d then
    emit (Ev.error "Room already exists") (ToSid sid')
  else
    let room :=
      mkRoom code [mkPlayer sid' username' 0 true] 8 false 0 3 0 None None
             [] [] None in
    store code room ;;
    enter_room sid' code ;;
    emit (Ev.room_created code (players room)) (ToSid sid').

Definition join_room (sid' code username' : string) : M unit :=
  d <- get_rooms ;;
  match Dict.get code d with
  | None => emit (Ev.error "Room not found") (ToSid sid')
  | Some room =>
      if len (players room) >=? max_players room then
        emit (Ev.error "Room is full") (ToSid sid')
      else if game_started room then
        emit (Ev.error "Game already started") (ToSid sid')
      else
        let room :=
          Upd.set_players (players room ++ [mkPlayer sid' username' 0 false])
                          room in
        store code room ;;
        enter_room sid' code ;;
        emit (Ev.room_joined code (players room)) (ToSid sid') ;;
        emit (Ev.player_joined (players room)) (ToRoom code)
  end.

(** The masked word [ '_' * len(word) ]. *)
Definition masked (word : string) : string :=
  PyStr.repeat_char "_"%char (Z.to_nat (PyStr.len word)).

Definition start_new_round (code : string) : M unit :=
  d <- get_rooms ;;
  match Dict.get code d with
  | None => ret tt
  | Some room =>
      (* Select next drawer *)
      drawer <- or_raise IndexError
                  (py_getitem (players room) (current_drawer_index room)) ;;
      let room := Upd.set_current_drawer_sid (Some (sid drawer)) room in
      (* Select random word *)
      word <- random_choice WORD_BANK ;;
      t <- now ;;
      let room :=
        Upd.set_round_start_time (Some t)
          (Upd.set_guessed_players []
             (Upd.set_strokes [] (Upd.set_current_word (Some word) room))) in
      store code room ;;
      (* Send word to drawer *)
      emit (Ev.new_round (current_round room) (username drawer) (sid drawer)
                         word (PyStr.len word))
           (ToSid (sid drawer)) ;;
      (* Send round info to other players (without word) *)
      for_each (players room) (fun player =>
        if negb (String.eqb (sid player) (sid drawer)) then
          emit (Ev.new_round (current_round room) (username drawer)
                             (sid drawer) (masked word) (PyStr.len word))
               (ToSid (sid player))
        else ret tt) ;;
      (* Start 60 second timer *)
      t <- now ;;
      spawn (RoundTimer code (t + 60))
  end.

Definition end_game (code : string) : M unit :=
  d <- get_rooms ;;
  match Dict.get code d with
  | None => ret tt
  | Some room =>
      (* Sort players by score *)
      let sorted_players := py_sorted score true (players room) in
      emit (Ev.game_end sorted_players) (ToRoom code) ;;
      (* Reset game state *)
      let room :=
        Upd.set_current_drawer_index 0
          (Upd.set_current_round 0 (Upd.set_game_started false room)) in
      let room := Upd.set_players (map (Upd.set_score 0) (players room)) room in
      store code room
  end.

(** The first loop of [end_round], "award points to players who guessed":
    for each sid of [guessed_players], the first player with that sid gets
    100 points. *)
Definition award_guessers (room : Room) : list Player :=
  fold_left (fun ps player_sid => add_score player_sid 100 ps)
            (guessed_players room) (players room).

(** "Award points to drawer if anyone guessed": the first player whose sid
    is [current_drawer_sid] gets 50 points; no player's sid is [None]. *)
Definition award_drawer (room : Room) (ps : list Player) : list Player :=
  if len (guessed_players room) >? 0 then
    match current_drawer_sid room with
    | Some drawer_sid => add_score drawer_sid 50 ps
    | None => ps
    end
  else ps.

(** [end_round] up to its [asyncio.sleep(5)]; the rest of the coroutine is
    the task [NextRound], see [resume]. *)
Definition end_round (code : string) : M unit :=
  d <- get_rooms ;;
  match Dict.get code d with
  | None => ret tt
  | Some room =>
      let room := Upd.set_players (award_drawer room (award_guessers room))
                                  room in
      store code room ;;
      emit (Ev.round_end (current_word room) (players room)) (ToRoom code) ;;
      (* Move to next round or end game *)
      idx <- or_raise ZeroDivisionError
               (py_mod (current_drawer_index room + 1) (len (players room))) ;;
      let room := Upd.set_current_drawer_index idx room in
      let room :=
        if current_drawer_index room =? 0 then
          Upd.set_current_round (current_round room + 1) room
        else room in
      store code room ;;
      if current_round room >? max_rounds room then end_game code
      else
        (* Wait 5 seconds before next round *)
        t <- now ;;
        spawn (NextRound code (t + 5))
  end.

(** [round_timer] after its [asyncio.sleep(duration)]. *)
Definition round_timer (code : string) : M unit :=
  d <- get_rooms ;;
  if Dict.mem code d then end_round code else ret tt.

(** [end_round] after its [asyncio.sleep(5)]. *)
Definition end_round_resumed (code : string) : M unit :=
  d <- get_rooms ;;
  if Dict.mem code d then start_new_round code else ret tt.

Definition start_game (sid' code : string) : M unit :=
  d <- get_rooms ;;
  match Dict.get code d with
  | None => emit (Ev.error "Room not found") (ToSid sid')
  | Some room =>
      (* Check if sender is host *)
      let is_host' :=
        existsb (fun p => String.eqb (sid p) sid' && is_host p) (players room) in
      if negb is_host' then
        emit (Ev.error "Only host can start game") (ToSid sid')
      else if len (players room) <? 2 then
        emit (Ev.error "Need at least 2 players") (ToSid sid')
      else
        let room := Upd.set_current_round 1 (Upd.set_game_started true room) in
        store code room ;;
        emit Ev.game_started (ToRoom code) ;;
        start_new_round code
  end.

(** The body of the loop of [disconnect] for one entry of the snapshot
    [list(game_rooms.items())]. Nothing in the loop removes or replaces the
    entry of another room, so the room object of the snapshot is the one
    registered under [code]. *)
Definition disconnect_room (sid' code : string) : M unit :=
  d <- get_rooms ;;
  match Dict.get code d with
  | None => ret tt
  | Some room =>
      let players_before := len (players room) in
      let room :=
        Upd.set_players (filter (fun p => negb (String.eqb (sid p) sid'))
                                (players room)) room in
      store code room ;;
      if len (players room) <? players_before then
        if len (players room) =? 0 then
          (* Remove empty room *)
          del_room code
        else
          (* Notify other players *)
          emit (Ev.player_left code (players room)) (ToRoom code) ;;
          (* If drawer left, start new round *)
          if opt_is (current_drawer_sid room) sid' && game_started room then
            start_new_round code
          else ret tt
      else ret tt
  end.

Definition disconnect (sid' : string) : M unit :=
  d <- get_rooms ;;
  for_each (Dict.keys d) (disconnect_room sid').

Definition draw_stroke (sid' code : string) (stroke_data : Stroke) : M unit :=
  d <- get_rooms ;;
  match Dict.get code d with
  | None => ret tt
  | Some room =>
      (* Only drawer can draw *)
      if negb (opt_is (current_drawer_sid room) sid') then ret tt
      else
        store code (Upd.set_strokes (strokes room ++ [stroke_data]) room) ;;
        for_each (players room) (fun player =>
          if negb (String.eqb (sid player) sid') then
            emit (Ev.stroke_drawn stroke_data) (ToSid (sid player))
          else ret tt)
  end.

Definition clear_canvas (sid' code : string) : M unit :=
  d <- get_rooms ;;
  match Dict.get code d with
  | None => ret tt
  | Some room =>
      if negb (opt_is (current_drawer_sid room) sid') then ret tt
      else
        store code (Upd.set_strokes [] room) ;;
        emit Ev.canvas_cleared (ToRoom code)
  end.

(** [guess == room['current_word'].lower()] for a guess already normalised. *)
Definition is_correct (guess word : string) : bool :=
  String.eqb guess (PyStr.lower word).

(** [max(50, 200 - int(time_elapsed * 2))] *)
Definition guess_points (time_elapsed : Q) : Z :=
  Z.max 50 (200 - py_int (time_elapsed * 2)).

Definition send_guess (sid' code text : string) : M unit :=
  let guess := PyStr.strip (PyStr.lower text) in
  d <- get_rooms ;;
  match Dict.get code d with
  | None => ret tt
  | Some room =>
      (* Can't guess if you're the drawer *)
      if opt_is (current_drawer_sid room) sid' then ret tt
      (* Already guessed *)
      else if mem_sid sid' (guessed_players room) then ret tt
      else
        match find (has_sid sid') (players room) with
        | None => ret tt
        | Some player =>
            word <- or_raise AttributeError (current_word room) ;;
            (* Check if guess is correct *)
            if is_correct guess word then
              let room :=
                Upd.set_guessed_players (guessed_players room ++ [sid']) room in
              store code room ;;
              (* Award points based on how fast they guessed *)
              t <- now ;;
              start <- or_raise TypeError (round_start_time room) ;;
              let time_elapsed := (t - start)%Q in
              let pts := guess_points time_elapsed in
              let room :=
                Upd.set_players (add_score sid' pts (players room)) room in
              store code room ;;
              emit (Ev.correct_guess (username player) pts) (ToRoom code) ;;
              emit (Ev.guess_result true (Some pts)) (ToSid sid') ;;
              (* If all players guessed, end round early *)
              if len (guessed_players room) =? len (players room) - 1 then
                end_round code
              else ret tt
            else
              (* Broadcast guess to all players *)
              emit (Ev.chat_message (username player) guess) (ToRoom code) ;;
              emit (Ev.guess_result false None) (ToSid sid')
        end
  end.

Definition send_message (sid' code message : string) : M unit :=
  d <- get_rooms ;;
  if negb (Dict.mem code d) then ret tt
  else
    match find (has_sid sid') (flat_map players (Dict.values d)) with
    | None => ret tt
    | Some player =>
        emit (Ev.chat_message (username player) message) (ToRoom code)
    end.

(** ** The event loop *)

(** An inbound event, or the wake-up of the [n]-th sleeping coroutine. *)
Inductive Input : Type :=
| InConnect (sid' : string)
| InDisconnect (sid' : string)
| InCreateRoom (sid' code username' : string)
| InJoinRoom (sid' code username' : string)
| InStartGame (sid' code : string)
| InDrawStroke (sid' code : string) (s : Stroke)
| InClearCanvas (sid' code : string)
| InSendGuess (sid' code text : string)
| InSendMessage (sid' code message : string)
| Wake (n : nat).

Definition set_clock (t : Q) : M unit :=
  fun w => Ok tt (mkWorld (game_rooms w) (sio_log w) (tasks w) t (rng w) (draws w)).

Fixpoint remove_nth {A : Type} (n : nat) (l : list A) : list A :=
  match l, n with
  | [], _ => []
  | _ :: l', O => l'
  | x :: l', S n' => x :: remove_nth n' l'
  end.

Definition wake_time (t : Task) : Q :=
  match t with RoundTimer _ t' => t' | NextRound _ t' => t' end.

(** Takes the [n]-th sleeping coroutine off the list when its sleep is over. *)
Definition take_task (n : nat) : M (option Task) :=
  fun w =>
    match nth_error (tasks w) n with
    | Some t =>
        if Qle_bool (wake_time t) (clock w) then
          Ok (Some t)
             (mkWorld (game_rooms w) (sio_log w) (remove_nth n (tasks w))
                      (clock w) (rng w) (draws w))
        else Ok None w
    | None => Ok None w
    end.

Definition resume (t : Task) : M unit :=
  match t with
  | RoundTimer code _ => round_timer code
  | NextRound code _ => end_round_resumed code
  end.

Definition handle (i : Input) : M unit :=
  match i with
  | InConnect s => connect s
  | InDisconnect s => disconnect s
  | InCreateRoom s c u => create_room s c u
  | InJoinRoom s c u => join_room s c u
  | InStartGame s c => start_game s c
  | InDrawStroke s c k => draw_stroke s c k
  | InClearCanvas s c => clear_canvas s c
  | InSendGuess s c g => send_guess s c g
  | InSendMessage s c m => send_message s c m
  | Wake n => t <- take_task n ;;
              match t with Some t => resume t | None => ret tt end
  end.

(** One step of the loop at time [t]. An exception ends the handler that
    raised it; what it did to the world before stays. *)
Definition step (w : World) (ti : Q * Input) : World :=
  world_of ((set_clock (fst ti) ;; handle (snd ti)) w).

Definition run (w : World) (trace : list (Q * Input)) : World :=
  fold_left step trace w.

(** The state of a process that just started. *)
Definition boot (r : nat -> nat) : World := mkWorld [] [] [] 0 r 0.

(** ** Vocabulary of the properties *)

(** [w] after more calls to [sio], more sleeping coroutines, and draws. *)
Definition extend (w : World) (d : Dict.t) (calls : list SioCall)
    (ts : list Task) (k : nat) : World :=
  mkWorld d (sio_log w ++ calls) (tasks w ++ ts) (clock w) (rng w)
          (k + draws w).

(** [normalize(text) = trim(lowercase(text))], in the words of the
    specification. *)
Definition normalize (text : string) : string :=
  PyStr.strip (PyStr.lower text).

Definition is_round_end (c : SioCall) : bool :=
  match c with Emit (Ev.round_end _ _) _ => true | _ => false end.

Definition is_error (c : SioCall) : bool :=
  match c with Emit (Ev.error _) _ => true | _ => false end.

(** The word [random.choice(WORD_BANK)] returns in world [w]. *)
Definition next_word (w : World) : string :=
  nth (rng w (draws w) mod List.length WORD_BANK)%nat WORD_BANK "cat".

(** The [new_round] events of a round drawn by [drawer] with secret [word]. *)
Definition new_round_for_drawer (r : Room) (drawer : Player) (word : string)
    : SioCall :=
  Emit (Ev.new_round (current_round r) (username drawer) (sid drawer) word
                     (PyStr.len word))
       (ToSid (sid drawer)).

Definition new_round_for_other (r : Room) (drawer : Player) (word : string)
    (p : Player) : SioCall :=
  Emit (Ev.new_round (current_round r) (username drawer) (sid drawer)
                     (masked word) (PyStr.len word))
       (ToSid (sid p)).

Definition is_other (drawer p : Player) : bool :=
  negb (String.eqb (sid p) (sid drawer)).

(** The room after [start_new_round] chose [drawer] and [word] at time [t]. *)
Definition round_opened (r : Room) (drawer : Player) (word : string) (t : Q)
    : Room :=
  Upd.set_round_start_time (Some t)
    (Upd.set_guessed_players []
       (Upd.set_strokes []
          (Upd.set_current_word (Some word)
             (Upd.set_current_drawer_sid (Some (sid drawer)) r)))).

(** ** Concrete runs *)

Module Scenario.

(** [random.choice] picks the first word of the bank, "cat", every time. *)
Definition first_word : nat -> nat := fun _ => 0%nat.

Definition alice : Player := mkPlayer "sidA" "Alice" 0 true.
Definition bob : Player := mkPlayer "sidB" "Bob" 0 false.
Definition carol : Player := mkPlayer "sidC" "Carol" 0 false.

(** Alice creates room ABCD and Bob joins. *)
Definition lobby : World :=
  run (boot first_word)
      [ (0, InCreateRoom "sidA" "ABCD" "Alice");
        (1, InJoinRoom "sidB" "ABCD" "Bob") ]%Q.

Definition room_lobby : Room :=
  mkRoom "ABCD" [alice; bob] 8 false 0 3 0 None None [] [] None.

(** Alice starts the game at time 2: Alice draws "cat", the deadline
    timer of the round is due at 62. *)
Definition playing : World := run lobby [ (2, InStartGame "sidA" "ABCD") ]%Q.

Definition room_playing : Room :=
  mkRoom "ABCD" [alice; bob] 8 true 1 3 0 (Some "sidA") (Some "cat") [] []
         (Some 2%Q).

(** The same world when the clock shows 60. *)
Definition playing_at_60 : World := world_of (set_clock 60%Q playing).

(** Bob, the only other player, guesses the word at time 60: the round
    ends at once; the next round is due at 65. *)
Definition ended_early : World :=
  run playing [ (60, InSendGuess "sidB" "ABCD" "  CAT ") ]%Q.

Definition room_ended_early : Room :=
  mkRoom "ABCD"
         [mkPlayer "sidA" "Alice" 50 true; mkPlayer "sidB" "Bob" 184 false]
         8 true 1 3 1 (Some "sidA") (Some "cat") [] ["sidB"] (Some 2%Q).

(** The deadline timer of the round that ended wakes up at 62. *)
Definition stale_timer_fired : World := run ended_early [ (62, Wake 0) ]%Q.

(** Bob guesses half a second after the start of the round. *)
Definition quick_guess : World :=
  run playing [ (5 # 2, InSendGuess "sidB" "ABCD" "cat") ]%Q.

(** Nobody guesses: the timer ends the first round at 62, and at 67 the
    second round starts, drawn by Bob (drawer index 1). *)
Definition bob_draws : World :=
  run playing [ (62, Wake 0); (67, Wake 0) ]%Q.

(** Bob's round times out at 127; at 132 round 2 starts, drawn by Alice. *)
Definition round_two : World :=
  run bob_draws [ (127, Wake 0); (132, Wake 0) ]%Q.

(** Alice, the host, sends [start_game] again at 140, during round 2. *)
Definition started_twice : World :=
  run round_two [ (140, InStartGame "sidA" "ABCD") ]%Q.

(** Three players; Alice draws, Bob guesses the word at time 4. *)
Definition three_playing : World :=
  run lobby [ (1, InJoinRoom "sidC" "ABCD" "Carol");
              (2, InStartGame "sidA" "ABCD");
              (4, InSendGuess "sidB" "ABCD" "cat") ]%Q.

Definition room_three_playing : Room :=
  mkRoom "ABCD" [alice; mkPlayer "sidB" "Bob" 196 false; carol]
         8 true 1 3 0 (Some "sidA") (Some "cat") [] ["sidB"] (Some 2%Q).

(** Alice, who is drawing, disconnects at time 10. *)
Definition drawer_left : World :=
  run three_playing [ (10, InDisconnect "sidA") ]%Q.

(** Dave sits alone in room WXYZ, next to the lobby of ABCD. *)
Definition two_rooms : World :=
  run lobby [ (2, InCreateRoom "sidD" "WXYZ" "Dave") ]%Q.

(** Nobody ever guesses: the timers carry the game to its last round,
    round 3 drawn by Bob, whose deadline is due at 387. *)
Definition last_round : World :=
  run round_two [ (192, Wake 0); (197, Wake 0); (257, Wake 0); (262, Wake 0);
                  (322, Wake 0); (327, Wake 0) ]%Q.

Definition room_last_round : Room :=
  mkRoom "ABCD" [alice; bob] 8 true 3 3 1 (Some "sidB") (Some "cat") [] []
         (Some 327%Q).

(** Three players, Alice draws, nobody has guessed yet. *)
Definition three_started : World :=
  run lobby [ (1, InJoinRoom "sidC" "ABCD" "Carol");
              (2, InStartGame "sidA" "ABCD") ]%Q.

Definition room_three_started : Room :=
  mkRoom "ABCD" [alice; bob; carol] 8 true 1 3 0 (Some "sidA") (Some "cat")
         [] [] (Some 2%Q).

(** Nobody guesses: the pen goes from Alice to Bob and to Carol, seat 2;
    then Bob disconnects, and seat 2 is past the two players left. *)
Definition bob_left_carol_draws : World :=
  run three_started [ (62, Wake 0); (67, Wake 0); (127, Wake 0);
                      (132, Wake 0); (140, InDisconnect "sidB") ]%Q.

Definition room_bob_left_carol_draws : Room :=
  mkRoom "ABCD" [alice; carol] 8 true 1 3 2 (Some "sidC") (Some "cat") [] []
         (Some 132%Q).

(** Three rooms: Dave alone in WXYZ, the game of Alice, Bob and Carol in
    ABCD, where Alice draws and Bob has guessed, and Erin alone in MNOP. *)
Definition three_rooms : World :=
  run (boot first_word)
      [ (0, InCreateRoom "sidD" "WXYZ" "Dave");
        (0, InCreateRoom "sidA" "ABCD" "Alice");
        (1, InJoinRoom "sidB" "ABCD" "Bob");
        (1, InJoinRoom "sidC" "ABCD" "Carol");
        (1, InCreateRoom "sidE" "MNOP" "Erin");
        (2, InStartGame "sidA" "ABCD");
        (4, InSendGuess "sidB" "ABCD" "cat") ]%Q.

(** Xena plays in two rooms: in ABCD, after Alice, where she draws the
    second round on seat 1, and in WXYZ, her own room, where she draws the
    first round on seat 0. *)
Definition xena_draws_twice : World :=
  run (boot first_word)
      [ (0, InCreateRoom "sidA" "ABCD" "Alice");
        (1, InJoinRoom "sidX" "ABCD" "Xena");
        (2, InCreateRoom "sidX" "WXYZ" "Xena");
        (3, InJoinRoom "sidY" "WXYZ" "Yuri");
        (4, InStartGame "sidA" "ABCD");
        (64, Wake 0); (69, Wake 0);
        (70, InStartGame "sidX" "WXYZ") ]%Q.

(** Xena disconnects at time 80. *)
Definition xena_left : World :=
  run xena_draws_twice [ (80, InDisconnect "sidX") ]%Q.

(** Bob, who has guessed, disconnects at time 5; Carol guesses at time 6.
    Every player but the drawer has guessed now, and Bob is still counted. *)
Definition guesser_left : World :=
  run three_playing [ (5, InDisconnect "sidB");
                      (6, InSendGuess "sidC" "ABCD" "cat") ]%Q.

(** Four players; Alice draws, Bob guesses and leaves, Carol guesses; Dan
    never guesses. *)
Definition four_playing : World :=
  run lobby [ (1, InJoinRoom "sidC" "ABCD" "Carol");
              (1, InJoinRoom "sidD" "ABCD" "Dan");
              (2, InStartGame "sidA" "ABCD");
              (4, InSendGuess "sidB" "ABCD" "cat");
              (5, InDisconnect "sidB") ]%Q.

Definition dan_never_guessed : World :=
  run four_playing [ (6, InSendGuess "sidC" "ABCD" "cat") ]%Q.

End Scenario.

(** The secret of a room, when there is one, is a word of the bank. *)
Definition bank_word (r : Room) : Prop :=
  forall word, current_word r = Some word -> In word WORD_BANK.

Definition words_from_bank (w : World) : Prop :=
  Forall (fun kr => bank_word (snd kr)) (game_rooms w).

(** A handler keeps the secrets inside the bank. *)
Definition keeps_words {A : Type} (m : M A) : Prop :=
  forall w, words_from_bank w -> words_from_bank (world_of (m w)).

(** [current_drawer_index] selects a player of the roster. *)
Definition index_in_roster (r : Room) : Prop :=
  0 <= current_drawer_index r < len (players r).

(** The two orders of [sorted] on a key. *)
Definition ascending {A : Type} (key : A -> Z) (a b : A) : Prop :=
  key a <= key b.

Definition descending {A : Type} (key : A -> Z) (a b : A) : Prop :=
  key b <= key a.

(** ** The REST routes *)

Module Api.

(** One entry of the listing of [GET /api/rooms]. *)
Record RoomInfo : Type := mkRoomInfo {
  info_room_code : string;
  info_players : Z;
  info_max_players : Z;
  info_game_started : bool
}.

(** [GET /api/]: the greeting under the key [message]. *)
Definition root : M string := ret "Scribble Game API".

(** [GET /api/rooms]: one entry for each item of [game_rooms], in the order
    of the dict; the key is reported as [room_code]. *)
Definition get_rooms : M (list RoomInfo) :=
  fun w =>
    Ok (map (fun cr : string * Room =>
               let (code, room) := cr in
               mkRoomInfo code (len (players room)) (max_players room)
                          (game_started room))
            (game_rooms w))
       w.

End Api.

(** ** What every room of a run satisfies *)

(** The room registered under [k]: it carries its own code, has a player
    and no more than [max_players], the limits are the ones [create_room]
    wrote, at most one player is host, nobody is recorded twice as a
    guesser, the drawer is not among the guessers, a room with a secret has
    a start time, and the drawer index and the round are not negative. *)
Record room_inv (k : string) (r : Room) : Prop := mkRoomInv {
  inv_code : room_code r = k;
  inv_nonempty : players r <> [];
  inv_capacity : len (players r) <= max_players r;
  inv_max_players : max_players r = 8;
  inv_max_rounds : max_rounds r = 3;
  inv_hosts : (List.length (filter is_host (players r)) <= 1)%nat;
  inv_guessed_nodup : NoDup (guessed_players r);
  inv_drawer_no_guess :
    forall s, current_drawer_sid r = Some s -> ~ In s (guessed_players r);
  inv_word_timed :
    current_word r <> None -> round_start_time r <> None;
  inv_index : 0 <= current_drawer_index r;
  inv_round : 0 <= current_round r
}.

Definition sound_rooms (d : Dict.t) : Prop :=
  NoDup (Dict.keys d) /\ Forall (fun kr => room_inv (fst kr) (snd kr)) d.

Definition sound (w : World) : Prop := sound_rooms (game_rooms w).

(** A handler keeps the rooms sound. *)
Definition keeps_sound {A : Type} (m : M A) : Prop :=
  forall w, sound w -> sound (world_of (m w)).

(** [r'] is [r] with other scores, another round or another drawer index:
    what [end_round] and [end_game] may change. *)
Record same_seats (r r' : Room) : Prop := mkSameSeats {
  seats_code : room_code r' = room_code r;
  seats_max_players : max_players r' = max_players r;
  seats_max_rounds : max_rounds r' = max_rounds r;
  seats_sids : map sid (players r') = map sid (players r);
  seats_names : map username (players r') = map username (players r);
  seats_hosts : map is_host (players r') = map is_host (players r);
  seats_drawer : current_drawer_sid r' = current_drawer_sid r;
  seats_word : current_word r' = current_word r;
  seats_strokes : strokes r' = strokes r;
  seats_guessed : guessed_players r' = guessed_players r;
  seats_start : round_start_time r' = round_start_time r
}.


(** The drawer index [end_round] moves to. *)
Definition next_index (r : Room) : Z :=
  (current_drawer_index r + 1) mod len (players r).

(** The room when [end_round] has awarded the round and moved on: the round
    counts one more when the index is back at 0. *)
Definition round_closed (r : Room) : Room :=
  let r1 :=
    Upd.set_current_drawer_index (next_index r)
      (Upd.set_players (award_drawer r (award_guessers r)) r) in
  if next_index r =? 0 then Upd.set_current_round (current_round r + 1) r1
  else r1.

(** The room when [end_game] has reset it. *)
Definition game_reset (r : Room) : Room :=
  Upd.set_players (map (Upd.set_score 0) (players r))
    (Upd.set_current_drawer_index 0
       (Upd.set_current_round 0 (Upd.set_game_started false r))).

(** No player of the rooms has the sid [s]. *)
Definition absent_from (s : string) (d : Dict.t) : Prop :=
  forall c r p, In (c, r) d -> In p (players r) -> sid p <> s.

(** * Properties *)

(** ** The dict of rooms *)

Lemma get_set_same (k : string) (r : Room) (d : Dict.t) :
  Dict.get k (Dict.set k r d) = Some r.
Proof.
  induction d as [|[k' r'] d IH]; cbn.
  - now rewrite String.eqb_refl.
  - destruct (String.eqb k k') eqn:E; cbn; rewrite E; auto.
Qed.

Lemma get_set_other (k k' : string) (r : Room) (d : Dict.t) :
  k <> k' -> Dict.get k' (Dict.set k r d) = Dict.get k' d.
Proof.
  intros Hne. induction d as [|[k0 r0] d IH]; cbn.
  - destruct (String.eqb_spec k' k); congruence.
  - destruct (String.eqb_spec k k0) as [->|]; cbn.
    + destruct (String.eqb_spec k' k0); congruence.
    + now rewrite IH.
Qed.

Lemma set_get_id (k : string) (r : Room) (d : Dict.t) :
  Dict.get k d = Some r -> Dict.set k r d = d.
Proof.
  induction d as [|[k' r'] d IH]; cbn; [discriminate|].
  destruct (String.eqb_spec k k') as [->|]; intros H.
  - congruence.
  - now rewrite IH.
Qed.

Lemma mem_get (k : string) (d : Dict.t) :
  Dict.mem k d = true <-> exists r, Dict.get k d = Some r.
Proof.
  unfold Dict.mem. destruct (Dict.get k d); split; eauto; try discriminate.
  intros [? ?]; discriminate.
Qed.

Lemma get_In (k : string) (r : Room) (d : Dict.t) :
  Dict.get k d = Some r -> In (k, r) d.
Proof.
  induction d as [|[k' r'] d IH]; cbn; [discriminate|].
  destruct (String.eqb_spec k k') as [->|]; intros H.
  - left; congruence.
  - right; auto.
Qed.

(** ** The monad *)

Lemma extend_nil (w : World) : extend w (game_rooms w) [] [] 0 = w.
Proof. destruct w; unfold extend; cbn. now rewrite !app_nil_r. Qed.

Lemma for_each_emit {A : Type} (keep : A -> bool) (call : A -> SioCall)
    (l : list A) (w : World) :
  for_each l (fun x => if keep x then sio (call x) else ret tt) w
  = Ok tt (extend w (game_rooms w) (map call (filter keep l)) [] 0).
Proof.
  revert w. induction l as [|x l IH]; intros w; cbn.
  - unfold ret. now rewrite extend_nil.
  - unfold bind. destruct (keep x); cbn.
    + rewrite IH. unfold extend; cbn. now rewrite <- app_assoc, app_nil_r.
    + now rewrite IH.
Qed.

Lemma random_choice_word_bank (w : World) :
  random_choice WORD_BANK w
  = Ok (next_word w)
       (mkWorld (game_rooms w) (sio_log w) (tasks w) (clock w) (rng w)
                (S (draws w))).
Proof. reflexivity. Qed.

Lemma next_word_in_bank (w : World) : In (next_word w) WORD_BANK.
Proof.
  unfold next_word. apply nth_In. apply Nat.mod_upper_bound.
  vm_compute; discriminate.
Qed.

(** ** Starting a round *)

(** What [start_new_round] does when the drawer index selects a player. *)
Lemma start_new_round_ok (w : World) (code : string) (room : Room)
    (drawer : Player) :
  Dict.get code (game_rooms w) = Some room ->
  py_getitem (players room) (current_drawer_index room) = Some drawer ->
  start_new_round code w
  = Ok tt
       (extend w
          (Dict.set code (round_opened room drawer (next_word w) (clock w))
                    (game_rooms w))
          (new_round_for_drawer room drawer (next_word w)
           :: map (new_round_for_other room drawer (next_word w))
                  (filter (is_other drawer) (players room)))
          [RoundTimer code (clock w + 60)] 1).
Proof.
  intros Hget Hidx.
  unfold start_new_round, bind at 1, get_rooms. rewrite Hget.
  unfold bind at 1. rewrite Hidx. unfold or_raise, ret.
  unfold bind at 1. rewrite random_choice_word_bank.
  unfold bind at 1, now. cbn [clock game_rooms sio_log tasks rng draws].
  unfold bind at 1, store, put_rooms.
  cbn [clock game_rooms sio_log tasks rng draws].
  unfold bind at 1, emit, sio at 1.
  cbn [clock game_rooms sio_log tasks rng draws].
  unfold bind at 1.
  rewrite (for_each_emit (is_other drawer)
             (new_round_for_other room drawer (next_word w))).
  unfold bind, spawn, extend.
  cbn [clock game_rooms sio_log tasks rng draws Upd.set_round_start_time
       Upd.set_guessed_players Upd.set_strokes Upd.set_current_word
       Upd.set_current_drawer_sid players current_round].
  unfold round_opened, new_round_for_drawer.
  rewrite <- ?app_assoc, ?app_nil_r. reflexivity.
Qed.

(** [start_new_round] raises when the drawer index selects nobody, and
    leaves the world as it was. *)
Lemma start_new_round_raises (w : World) (code : string) (room : Room) :
  Dict.get code (game_rooms w) = Some room ->
  py_getitem (players room) (current_drawer_index room) = None ->
  start_new_round code w = Raise IndexError w.
Proof.
  intros Hget Hidx.
  unfold start_new_round, bind at 1, get_rooms. rewrite Hget.
  unfold bind at 1. now rewrite Hidx.
Qed.

Lemma start_new_round_absent (w : World) (code : string) :
  Dict.get code (game_rooms w) = None -> start_new_round code w = Ok tt w.
Proof.
  intros Hget. unfold start_new_round, bind, get_rooms. now rewrite Hget.
Qed.

Lemma repeat_char_length (c : ascii) (n : nat) :
  String.length (PyStr.repeat_char c n) = n.
Proof. induction n; cbn; congruence. Qed.

Lemma repeat_char_get (c c' : ascii) (n i : nat) :
  String.get i (PyStr.repeat_char c n) = Some c' -> c' = c.
Proof.
  revert i. induction n as [|n IH]; intros i; cbn; [discriminate|].
  destruct i; [congruence | apply IH].
Qed.

Lemma masked_length (word : string) :
  String.length (masked word) = String.length word.
Proof.
  unfold masked, PyStr.len. now rewrite repeat_char_length, Nat2Z.id.
Qed.

Lemma is_other_true (drawer p : Player) :
  is_other drawer p = true <-> sid p <> sid drawer.
Proof.
  unfold is_other. destruct (String.eqb_spec (sid p) (sid drawer)); cbn;
    split; congruence.
Qed.

(** C8. At a round start the drawer is sent [new_round] with the secret
    word, which comes from the word bank; every player with another sid is
    sent [new_round] with a mask made of underscores only, as long as the
    secret; nobody else is sent anything, and all these events carry the
    length of the secret as [word_length]. *)
Theorem new_round_masks_word (w : World) (code : string) (room : Room)
    (drawer : Player) :
  Dict.get code (game_rooms w) = Some room ->
  py_getitem (players room) (current_drawer_index room) = Some drawer ->
  exists (w' : World) (word : string) (others : list SioCall),
    start_new_round code w = Ok tt w'
    /\ In word WORD_BANK
    /\ (exists room', Dict.get code (game_rooms w') = Some room'
                      /\ current_word room' = Some word)
    /\ sio_log w'
       = sio_log w
         ++ Emit (Ev.new_round (current_round room) (username drawer)
                               (sid drawer) word (PyStr.len word))
                 (ToSid (sid drawer))
            :: others
    /\ (forall p, In p (players room) -> sid p <> sid drawer ->
          In (Emit (Ev.new_round (current_round room) (username drawer)
                                 (sid drawer) (masked word) (PyStr.len word))
                   (ToSid (sid p)))
             others)
    /\ (forall c, In c others ->
          exists p, In p (players room) /\ sid p <> sid drawer
            /\ c = Emit (Ev.new_round (current_round room) (username drawer)
                                      (sid drawer) (masked word)
                                      (PyStr.len word))
                        (ToSid (sid p)))
    /\ String.length (masked word) = String.length word
    /\ (forall i c, String.get i (masked word) = Some c -> c = "_"%char).
Proof.
  intros Hget Hidx.
  eexists _, (next_word w), _. split; [apply (start_new_round_ok _ _ _ _ Hget Hidx)|].
  split; [apply next_word_in_bank|].
  split; [eexists; split; [cbn; apply get_set_same | reflexivity]|].
  split; [reflexivity|].
  split.
  { intros p Hp Hne.
    apply (in_map (new_round_for_other room drawer (next_word w))).
    apply filter_In. split; [exact Hp | now apply is_other_true]. }
  split.
  { intros c Hc. apply in_map_iff in Hc. destruct Hc as (p & <- & Hp).
    apply filter_In in Hp. destruct Hp as [Hp Ho].
    exists p. split; [exact Hp|]. split; [now apply is_other_true | reflexivity]. }
  split; [apply masked_length|].
  intros i c. unfold masked. apply repeat_char_get.
Qed.

(** ** [sorted] *)

Section SortFacts.

Context {A : Type} (key : A -> Z).

Lemma insert_by_perm (x : A) (l : list A) :
  Permutation (insert_by key x l) (x :: l).
Proof.
  induction l as [|y l IH]; cbn; [reflexivity|].
  destruct (key x <=? key y); [reflexivity|].
  rewrite IH. apply perm_swap.
Qed.

Lemma sort_by_perm (l : list A) : Permutation (sort_by key l) l.
Proof.
  induction l as [|x l IH]; cbn; [reflexivity|].
  rewrite insert_by_perm. now constructor.
Qed.

Lemma insert_by_sorted (x : A) (l : list A) :
  StronglySorted (ascending key) l -> StronglySorted (ascending key) (insert_by key x l).
Proof.
  induction 1 as [|y l Hs IH Hy]; cbn.
  - repeat constructor.
  - destruct (Z.leb_spec (key x) (key y)) as [Hle|Hlt].
    + constructor; [now constructor|].
      constructor; [exact Hle|].
      eapply Forall_impl; [|exact Hy]. unfold ascending; intros; lia.
    + constructor; [exact IH|].
      eapply Permutation_Forall; [symmetry; apply insert_by_perm|].
      constructor; [unfold ascending; lia | exact Hy].
Qed.

Lemma sort_by_sorted (l : list A) : StronglySorted (ascending key) (sort_by key l).
Proof.
  induction l; cbn; [constructor | now apply insert_by_sorted].
Qed.

(** The inserted element goes before the elements of its own key: the
    ones it passes have a smaller key. *)
Lemma insert_by_stable (k : Z) (x : A) (l : list A) :
  filter (fun a => key a =? k) (insert_by key x l)
  = filter (fun a => key a =? k) (x :: l).
Proof.
  induction l as [|y l IH]; [reflexivity|].
  cbn [insert_by]. destruct (Z.leb_spec (key x) (key y)); [reflexivity|].
  cbn [filter] in *. rewrite IH.
  destruct (Z.eqb_spec (key x) k), (Z.eqb_spec (key y) k);
    try reflexivity; lia.
Qed.

Lemma sort_by_stable (k : Z) (l : list A) :
  filter (fun a => key a =? k) (sort_by key l)
  = filter (fun a => key a =? k) l.
Proof.
  induction l as [|x l IH]; [reflexivity|].
  cbn [sort_by]. rewrite insert_by_stable. cbn [filter]. now rewrite IH.
Qed.

Lemma filter_rev (f : A -> bool) (l : list A) :
  filter f (rev l) = rev (filter f l).
Proof.
  induction l as [|x l IH]; [reflexivity|].
  cbn. rewrite filter_app, IH. cbn. destruct (f x); cbn.
  - reflexivity.
  - now rewrite app_nil_r.
Qed.

Lemma sorted_snoc (R : A -> A -> Prop) (l : list A) (x : A) :
  StronglySorted R l -> Forall (fun a => R a x) l ->
  StronglySorted R (l ++ [x]).
Proof.
  induction 1 as [|y l Hs IH Hy]; intros Hx; cbn.
  - repeat constructor.
  - inversion Hx; subst. constructor; [now apply IH|].
    apply Forall_app. split; [exact Hy | now repeat constructor].
Qed.

Lemma sorted_rev (l : list A) :
  StronglySorted (ascending key) l -> StronglySorted (descending key) (rev l).
Proof.
  induction 1 as [|y l Hs IH Hy]; cbn; [constructor|].
  apply sorted_snoc; [exact IH|].
  apply Forall_rev. exact Hy.
Qed.

(** [sorted(l, key=key, reverse=True)] holds the elements of [l], in
    descending order of key, elements of equal key in the order they
    have in [l]. *)
Lemma py_sorted_reverse (l : list A) :
  Permutation (py_sorted key true l) l
  /\ StronglySorted (descending key) (py_sorted key true l)
  /\ forall k, filter (fun a => key a =? k) (py_sorted key true l)
               = filter (fun a => key a =? k) l.
Proof.
  unfold py_sorted. split; [|split].
  - rewrite <- Permutation_rev, sort_by_perm. symmetry. apply Permutation_rev.
  - apply sorted_rev, sort_by_sorted.
  - intros k. now rewrite filter_rev, sort_by_stable, filter_rev, rev_involutive.
Qed.

End SortFacts.

(** ** Ending a game *)

Lemma end_game_ok (w : World) (code : string) (room : Room) :
  Dict.get code (game_rooms w) = Some room ->
  end_game code w
  = Ok tt
       (extend w
          (Dict.set code
             (Upd.set_players (map (Upd.set_score 0) (players room))
                (Upd.set_current_drawer_index 0
                   (Upd.set_current_round 0 (Upd.set_game_started false room))))
             (game_rooms w))
          [Emit (Ev.game_end (py_sorted score true (players room)))
                (ToRoom code)]
          [] 0).
Proof.
  intros Hget. unfold end_game, bind at 1, get_rooms. rewrite Hget.
  unfold bind, emit, sio, store, put_rooms, extend. cbn.
  now rewrite app_nil_r.
Qed.

Lemma end_game_absent (w : World) (code : string) :
  Dict.get code (game_rooms w) = None -> end_game code w = Ok tt w.
Proof. intros Hget. unfold end_game, bind, get_rooms. now rewrite Hget. Qed.

(** C7. [end_game] emits one [game_end] to the room, whose scoreboard holds
    the players of the roster, by descending score, players of equal score
    in their order of the roster; then the room is back in the lobby:
    not started, round 0, drawer index 0, the same players in the same
    order with score 0, and the other rooms are as they were. *)
Theorem end_game_scoreboard_then_reset (w : World) (code : string)
    (room : Room) :
  Dict.get code (game_rooms w) = Some room ->
  exists (w' : World) (board : list Player) (room' : Room),
    end_game code w = Ok tt w'
    /\ sio_log w' = sio_log w ++ [Emit (Ev.game_end board) (ToRoom code)]
    /\ Permutation board (players room)
    /\ StronglySorted (fun a b => score b <= score a) board
    /\ (forall k, filter (fun p => score p =? k) board
                  = filter (fun p => score p =? k) (players room))
    /\ Dict.get code (game_rooms w') = Some room'
    /\ game_started room' = false
    /\ current_round room' = 0
    /\ current_drawer_index room' = 0
    /\ players room' = map (Upd.set_score 0) (players room)
    /\ map sid (players room') = map sid (players room)
    /\ Forall (fun p => score p = 0) (players room')
    /\ (forall c, c <> code ->
          Dict.get c (game_rooms w') = Dict.get c (game_rooms w)).
Proof.
  intros Hget.
  destruct (py_sorted_reverse score (players room)) as (Hperm & Hsort & Hstab).
  eexists _, _, _. split; [apply (end_game_ok _ _ _ Hget)|].
  split; [reflexivity|].
  split; [exact Hperm|]. split; [exact Hsort|]. split; [exact Hstab|].
  split; [cbn; apply get_set_same|].
  repeat (split; [reflexivity|]).
  split; [cbn; rewrite map_map; reflexivity|].
  split; [cbn; apply Forall_map, Forall_forall; reflexivity|].
  intros c Hc. cbn. apply get_set_other. congruence.
Qed.

(** ** Joining a room *)

(** C6. A join of an existing room succeeds exactly when the roster is
    shorter than [max_players] and the game has not started: then the new
    player, not host and with score 0, is appended to the roster and nothing
    else of the room changes. A join that fails (room full, game started,
    room not found) leaves every room as it was and sends one [error] to the
    caller. *)
Theorem join_room_succeeds_iff (w : World) (sid' code username' : string) :
  exists (w' : World) (calls : list SioCall),
    join_room sid' code username' w = Ok tt w'
    /\ sio_log w' = sio_log w ++ calls
    /\ tasks w' = tasks w
    /\ (forall room, Dict.get code (game_rooms w) = Some room ->
          (len (players room) < max_players room /\ game_started room = false ->
             game_rooms w'
             = Dict.set code
                 (Upd.set_players
                    (players room ++ [mkPlayer sid' username' 0 false]) room)
                 (game_rooms w)
             /\ calls
                = [EnterRoom sid' code;
                   Emit (Ev.room_joined code
                           (players room ++ [mkPlayer sid' username' 0 false]))
                        (ToSid sid');
                   Emit (Ev.player_joined
                           (players room ++ [mkPlayer sid' username' 0 false]))
                        (ToRoom code)])
          /\ (~ (len (players room) < max_players room
                 /\ game_started room = false) ->
                game_rooms w' = game_rooms w
                /\ exists msg, calls = [Emit (Ev.error msg) (ToSid sid')]))
    /\ (Dict.get code (game_rooms w) = None ->
          game_rooms w' = game_rooms w
          /\ calls = [Emit (Ev.error "Room not found") (ToSid sid')]).
Proof.
  unfold join_room, bind at 1, get_rooms.
  destruct (Dict.get code (game_rooms w)) as [room|] eqn:Hget.
  - destruct (Z.geb_spec (len (players room)) (max_players room)) as [Hfull|Hroom].
    + eexists _, _. split; [reflexivity|]. cbn.
      split; [reflexivity|]. split; [reflexivity|].
      split; [|discriminate].
      intros r [= <-]. split.
      * intros [Hlt _]. lia.
      * intros _. eauto.
    + destruct (game_started room) eqn:Hst.
      * eexists _, _. split; [reflexivity|]. cbn.
        split; [reflexivity|]. split; [reflexivity|].
        split; [|discriminate].
        intros r [= <-]. split.
        -- intros [_ Hns]. congruence.
        -- intros _. eauto.
      * eexists _, _. split; [reflexivity|]. cbn.
        split; [rewrite <- !app_assoc; reflexivity|]. split; [reflexivity|].
        split; [|discriminate].
        intros r [= <-]. split.
        -- intros _. split; reflexivity.
        -- intros Hn. exfalso. apply Hn. split; [lia | exact Hst].
  - eexists _, _. split; [reflexivity|]. cbn.
    split; [reflexivity|]. split; [reflexivity|].
    split; [discriminate|]. intros _. split; reflexivity.
Qed.

(** ** Ending a round *)

Lemma add_score_length (s : string) (n : Z) (ps : list Player) :
  List.length (add_score s n ps) = List.length ps.
Proof.
  induction ps as [|p ps IH]; cbn; [reflexivity|].
  destruct (has_sid s p); cbn; congruence.
Qed.

Lemma add_score_sids (s : string) (n : Z) (ps : list Player) :
  map sid (add_score s n ps) = map sid ps.
Proof.
  induction ps as [|p ps IH]; cbn; [reflexivity|].
  destruct (has_sid s p); cbn; congruence.
Qed.

Lemma award_guessers_length (room : Room) :
  List.length (award_guessers room) = List.length (players room).
Proof.
  unfold award_guessers. generalize (players room) as ps.
  induction (guessed_players room) as [|g gs IH]; intros ps; cbn.
  - reflexivity.
  - now rewrite IH, add_score_length.
Qed.

Lemma award_drawer_length (room : Room) (ps : list Player) :
  List.length (award_drawer room ps) = List.length ps.
Proof.
  unfold award_drawer. destruct (len (guessed_players room) >? 0); auto.
  destruct (current_drawer_sid room); auto using add_score_length.
Qed.

(** Whenever the room exists, [end_round] sends [round_end] to the room with
    the scores after the awards, whatever else it goes on to do; the
    sleeping coroutines stay. *)
Lemma end_round_emits (w : World) (code : string) (room : Room) :
  Dict.get code (game_rooms w) = Some room ->
  exists (rest : list SioCall) (ts : list Task),
    sio_log (world_of (end_round code w))
    = sio_log w
      ++ Emit (Ev.round_end (current_word room)
                            (award_drawer room (award_guessers room)))
              (ToRoom code)
         :: rest
    /\ tasks (world_of (end_round code w)) = tasks w ++ ts.
Proof.
  intros Hget.
  cbv beta iota delta [end_round bind get_rooms store put_rooms emit sio now
                       spawn or_raise ret raise].
  rewrite Hget.
  cbn [clock game_rooms sio_log tasks rng draws Upd.set_players players
       current_word current_drawer_index].
  destruct (py_mod (current_drawer_index room + 1)
                   (len (award_drawer room (award_guessers room)))) as [idx|];
    cbn [world_of sio_log tasks].
  2:{ exists [], []. now rewrite app_nil_r. }
  match goal with
  | |- context [if ?c >? ?m then end_game code else _] => destruct (c >? m)
  end.
  - erewrite end_game_ok by (cbn; apply get_set_same).
    cbn. eexists _, []. rewrite <- !app_assoc, app_nil_r. split; reflexivity.
  - cbn. exists [], [NextRound code (clock w + 5)]. split; reflexivity.
Qed.

Lemma round_timer_absent (w : World) (code : string) :
  Dict.get code (game_rooms w) = None -> round_timer code w = Ok tt w.
Proof.
  intros Hget. unfold round_timer, bind, get_rooms, Dict.mem.
  now rewrite Hget.
Qed.

Lemma round_timer_present (w : World) (code : string) (room : Room) :
  Dict.get code (game_rooms w) = Some room ->
  round_timer code w = end_round code w.
Proof.
  intros Hget. unfold round_timer, bind, get_rooms, Dict.mem.
  now rewrite Hget.
Qed.

(** ** Truncation and the points of a guess *)

Lemma py_int_nonneg (x : Q) : (0 <= x)%Q -> py_int x = Qfloor x.
Proof.
  destruct x as [n d]. unfold Qle, py_int; cbn. intros Hn.
  apply Z.quot_div_nonneg; lia.
Qed.

Lemma py_int_nonpos (x : Q) : (x <= 0)%Q -> py_int x = Qceiling x.
Proof.
  destruct x as [n d]. unfold Qle, py_int, Qceiling; cbn. intros Hn.
  rewrite <- (Z.opp_involutive n) at 1.
  rewrite Z.quot_opp_l by lia. f_equal.
  apply Z.quot_div_nonneg; lia.
Qed.

Lemma py_int_mono (x y : Q) : (x <= y)%Q -> py_int x <= py_int y.
Proof.
  intros Hxy.
  destruct (Qlt_le_dec x 0) as [Hx|Hx].
  - destruct (Qlt_le_dec y 0) as [Hy|Hy].
    + rewrite !py_int_nonpos by now apply Qlt_le_weak.
      now apply Qceiling_resp_le.
    + rewrite (py_int_nonpos x) by now apply Qlt_le_weak.
      rewrite (py_int_nonneg y) by assumption.
      transitivity 0.
      * change 0 with (Qceiling 0). apply Qceiling_resp_le.
        now apply Qlt_le_weak.
      * change 0 with (Qfloor 0). now apply Qfloor_resp_le.
  - rewrite !py_int_nonneg; [now apply Qfloor_resp_le | | assumption].
    eapply Qle_trans; eassumption.
Qed.

Lemma guess_points_mono (e1 e2 : Q) :
  (e1 <= e2)%Q -> guess_points e2 <= guess_points e1.
Proof.
  intros He. unfold guess_points.
  assert (py_int (e1 * 2) <= py_int (e2 * 2)).
  { apply py_int_mono. apply Qmult_le_compat_r; [exact He | discriminate]. }
  lia.
Qed.

Lemma guess_points_whole (n : Z) :
  guess_points (inject_Z n) = Z.max 50 (200 - 2 * n).
Proof.
  unfold guess_points, py_int.
  change (Qnum (inject_Z n * 2)) with (n * 2).
  change (Zpos (Qden (inject_Z n * 2))) with 1.
  rewrite Z.quot_1_r. f_equal. lia.
Qed.

(** ** Guessing *)

Lemma set_set (k : string) (r r0 : Room) (d : Dict.t) :
  Dict.set k r (Dict.set k r0 d) = Dict.set k r d.
Proof.
  induction d as [|[k' r'] d IH]; cbn.
  - now rewrite String.eqb_refl.
  - destruct (String.eqb k k') eqn:E; cbn; rewrite E; congruence.
Qed.

Lemma normalize_word_bank (word : string) :
  In word WORD_BANK -> normalize word = PyStr.lower word.
Proof.
  intros Hin.
  assert (H : forallb (fun s => String.eqb (normalize s) (PyStr.lower s))
                      WORD_BANK = true) by (vm_compute; reflexivity).
  rewrite forallb_forall in H. now apply String.eqb_eq, H.
Qed.

Section Guess.

Variables (w : World) (sid' code text : string).
Variables (room : Room) (player : Player) (word : string).

Hypothesis Hroom : Dict.get code (game_rooms w) = Some room.
Hypothesis Hnot_drawer : opt_is (current_drawer_sid room) sid' = false.
Hypothesis Hnot_guessed : mem_sid sid' (guessed_players room) = false.
Hypothesis Hplayer : find (has_sid sid') (players room) = Some player.
Hypothesis Hword : current_word room = Some word.

(** A guess that does not match is relayed as chat; the rooms stay. *)
Lemma send_guess_wrong :
  is_correct (normalize text) word = false ->
  send_guess sid' code text w
  = Ok tt
       (extend w (game_rooms w)
          [Emit (Ev.chat_message (username player) (normalize text))
                (ToRoom code);
           Emit (Ev.guess_result false None) (ToSid sid')]
          [] 0).
Proof.
  intros Hno.
  cbv beta iota zeta delta [send_guess bind get_rooms store put_rooms emit
                            sio now or_raise ret raise].
  rewrite Hroom, Hnot_drawer, Hnot_guessed, Hplayer, Hword.
  fold (normalize text). rewrite Hno.
  unfold extend. cbn. now rewrite <- app_assoc, app_nil_r.
Qed.

(** A guess that matches: the guesser is recorded and awarded
    [guess_points] of the time elapsed, both events go out, and the round
    ends at once when the guessers are all the players but one. *)
Lemma send_guess_right (start : Q) :
  round_start_time room = Some start ->
  is_correct (normalize text) word = true ->
  let pts := guess_points (clock w - start) in
  let room1 :=
    Upd.set_players (add_score sid' pts (players room))
      (Upd.set_guessed_players (guessed_players room ++ [sid']) room) in
  let w1 :=
    extend w (Dict.set code room1 (game_rooms w))
      [Emit (Ev.correct_guess (username player) pts) (ToRoom code);
       Emit (Ev.guess_result true (Some pts)) (ToSid sid')]
      [] 0 in
  send_guess sid' code text w
  = if len (guessed_players room ++ [sid']) =? len (players room) - 1
    then end_round code w1 else Ok tt w1.
Proof.
  intros Hstart Hyes pts room1 w1.
  cbv beta iota zeta delta [send_guess bind get_rooms store put_rooms emit
                            sio now or_raise ret raise].
  rewrite Hroom, Hnot_drawer, Hnot_guessed, Hplayer, Hword.
  fold (normalize text). rewrite Hyes.
  cbn [clock game_rooms sio_log tasks rng draws Upd.set_players players
       Upd.set_guessed_players guessed_players round_start_time].
  rewrite Hstart. fold pts.
  cbn [clock game_rooms sio_log tasks rng draws Upd.set_players players
       Upd.set_guessed_players guessed_players round_start_time].
  rewrite set_set.
  replace (len (add_score sid' pts (players room))) with (len (players room))
    by (unfold len; now rewrite add_score_length).
  assert (Hw1 : w1 = mkWorld (Dict.set code room1 (game_rooms w))
                       ((sio_log w
                         ++ [Emit (Ev.correct_guess (username player) pts)
                                  (ToRoom code)])
                        ++ [Emit (Ev.guess_result true (Some pts))
                                 (ToSid sid')])
                       (tasks w) (clock w) (rng w) (draws w)).
  { unfold w1, extend. cbn. now rewrite <- app_assoc, app_nil_r. }
  rewrite Hw1.
  destruct (len (guessed_players room ++ [sid']) =? len (players room) - 1);
    reflexivity.
Qed.

End Guess.

(** ** The deadline timer *)

Lemma filter_all {A : Type} (f : A -> bool) (l : list A) :
  (forall x, In x l -> f x = true) -> filter f l = l.
Proof.
  induction l as [|x l IH]; intros Hall; cbn; [reflexivity|].
  rewrite (Hall x) by now left. f_equal. apply IH. intros y Hy.
  apply Hall. now right.
Qed.

Lemma filter_none {A : Type} (f : A -> bool) (l : list A) :
  (forall x, In x l -> f x = false) -> filter f l = [].
Proof.
  induction l as [|x l IH]; intros Hall; cbn; [reflexivity|].
  rewrite (Hall x) by now left. apply IH. intros y Hy. apply Hall. now right.
Qed.

Lemma filter_out_one (d : string) (l : list string) :
  NoDup l -> In d l ->
  S (List.length (filter (fun s => negb (String.eqb s d)) l)) = List.length l.
Proof.
  induction l as [|x l IH]; intros Hnd Hin; [contradiction|].
  inversion Hnd as [|? ? Hnotin Hrest]; subst. cbn [filter].
  destruct (String.eqb_spec x d) as [->|Hne]; cbn [negb List.length].
  - f_equal. f_equal. apply filter_all. intros y Hy.
    apply negb_true_iff, String.eqb_neq. intros ->. contradiction.
  - f_equal. apply IH; [exact Hrest|]. destruct Hin; [contradiction | assumption].
Qed.

(** In a room whose players have different sids, whose drawer is a player
    and whose guessers are players other than the drawer, each recorded
    once, the guessers number one less than the players exactly when every
    player but the drawer is among them. *)
Lemma all_but_drawer_counted (sids guessers : list string) (d : string) :
  NoDup sids -> In d sids -> NoDup guessers -> ~ In d guessers ->
  incl guessers sids ->
  Z.of_nat (List.length guessers) = Z.of_nat (List.length sids) - 1
  <-> forall s, In s sids -> s <> d -> In s guessers.
Proof.
  intros Hnd Hd Hg Hdg Hsub.
  set (others := filter (fun s => negb (String.eqb s d)) sids).
  pose proof (filter_out_one d sids Hnd Hd) as Hlen. fold others in Hlen.
  assert (Hothers : forall s, In s others <-> In s sids /\ s <> d).
  { intros s. unfold others. rewrite filter_In, negb_true_iff, String.eqb_neq.
    tauto. }
  assert (Hin : incl guessers others).
  { intros s Hs. apply Hothers. split; [now apply Hsub|]. now intros ->. }
  split.
  - intros Hcount s Hs Hne.
    assert (Hback : incl others guessers)
      by (apply (NoDup_length_incl Hg); [lia | exact Hin]).
    apply Hback, Hothers. now split.
  - intros Hall.
    assert (Hback : incl others guessers).
    { intros s Hs. apply Hothers in Hs. now apply Hall. }
    pose proof (NoDup_incl_length Hg Hin).
    pose proof (NoDup_incl_length (NoDup_filter _ Hnd) Hback).
    fold others in H0. lia.
Qed.

(** C1, as amended. The deadline timer knows the room code only. When it
    wakes up and the room is gone, nothing happens. When the room exists it
    runs [end_round] on the room as it then is, so [round_end] goes out with
    the awards of the guessers recorded at that time. When a correct guess
    brings the number of recorded guessers to one less than the number of
    players, the round ends inside [send_guess], and every sleeping
    coroutine, the deadline timer of that round included, stays scheduled;
    when it does not, [send_guess] reports the guess and the round goes on.
    That count is reached exactly when every player but the drawer has
    guessed, in a room whose players have different sids, whose drawer is a
    player, and whose guessers are players recorded once each. *)
Theorem round_timer_checks_room_only :
  (forall w code,
      Dict.get code (game_rooms w) = None -> round_timer code w = Ok tt w)
  /\ (forall w code room,
        Dict.get code (game_rooms w) = Some room ->
        round_timer code w = end_round code w
        /\ exists rest ts,
             sio_log (world_of (round_timer code w))
             = sio_log w
               ++ Emit (Ev.round_end (current_word room)
                          (award_drawer room (award_guessers room)))
                       (ToRoom code)
                  :: rest
             /\ tasks (world_of (round_timer code w)) = tasks w ++ ts)
  /\ (forall w sid' code text room player word start,
        Dict.get code (game_rooms w) = Some room ->
        opt_is (current_drawer_sid room) sid' = false ->
        mem_sid sid' (guessed_players room) = false ->
        find (has_sid sid') (players room) = Some player ->
        current_word room = Some word ->
        round_start_time room = Some start ->
        is_correct (normalize text) word = true ->
        len (guessed_players room) + 1 = len (players room) - 1 ->
        exists ps rest ts,
          sio_log (world_of (send_guess sid' code text w))
          = sio_log w
            ++ Emit (Ev.correct_guess (username player)
                       (guess_points (clock w - start)))
                    (ToRoom code)
               :: Emit (Ev.guess_result true
                          (Some (guess_points (clock w - start))))
                       (ToSid sid')
               :: Emit (Ev.round_end (Some word) ps) (ToRoom code)
               :: rest
          /\ tasks (world_of (send_guess sid' code text w)) = tasks w ++ ts)
  /\ (forall w sid' code text room player word start,
        Dict.get code (game_rooms w) = Some room ->
        opt_is (current_drawer_sid room) sid' = false ->
        mem_sid sid' (guessed_players room) = false ->
        find (has_sid sid') (players room) = Some player ->
        current_word room = Some word ->
        round_start_time room = Some start ->
        is_correct (normalize text) word = true ->
        len (guessed_players room) + 1 <> len (players room) - 1 ->
        sio_log (world_of (send_guess sid' code text w))
        = sio_log w
          ++ [Emit (Ev.correct_guess (username player)
                      (guess_points (clock w - start)))
                   (ToRoom code);
              Emit (Ev.guess_result true
                      (Some (guess_points (clock w - start))))
                   (ToSid sid')]
        /\ tasks (world_of (send_guess sid' code text w)) = tasks w)
  /\ (forall room sid' d,
        NoDup (map sid (players room)) ->
        current_drawer_sid room = Some d ->
        In d (map sid (players room)) ->
        NoDup (guessed_players room ++ [sid']) ->
        ~ In d (guessed_players room ++ [sid']) ->
        incl (guessed_players room ++ [sid']) (map sid (players room)) ->
        len (guessed_players room) + 1 = len (players room) - 1
        <-> forall p, In p (players room) -> sid p <> d ->
              In (sid p) (guessed_players room ++ [sid'])).
Proof.
  split; [exact round_timer_absent|]. split; [|split; [|split]].
  - intros w code room Hget.
    rewrite (round_timer_present _ _ _ Hget).
    split; [reflexivity | now apply end_round_emits].
  - intros w sid' code text room player word start
           Hget Hnd Hng Hpl Hword Hstart Hyes Hall.
    rewrite (send_guess_right w sid' code text room player word
               Hget Hnd Hng Hpl Hword start Hstart Hyes).
    replace (len (guessed_players room ++ [sid']))
      with (len (guessed_players room) + 1)
      by (unfold len; rewrite length_app; cbn; lia).
    rewrite Hall, Z.eqb_refl.
    match goal with |- context [end_round code ?w1] => set (w1' := w1) end.
    destruct (end_round_emits w1' code
                (Upd.set_players
                   (add_score sid' (guess_points (clock w - start))
                              (players room))
                   (Upd.set_guessed_players (guessed_players room ++ [sid'])
                                            room)))
      as (rest & ts & Hlog & Htasks).
    { subst w1'. cbn. apply get_set_same. }
    eexists _, rest, ts. rewrite Hlog, Htasks. subst w1'. cbn.
    rewrite Hword, <- !app_assoc, ?app_nil_r. split; reflexivity.
  - intros w sid' code text room player word start
           Hget Hnd Hng Hpl Hword Hstart Hyes Hfew.
    rewrite (send_guess_right w sid' code text room player word
               Hget Hnd Hng Hpl Hword start Hstart Hyes).
    replace (len (guessed_players room ++ [sid']))
      with (len (guessed_players room) + 1)
      by (unfold len; rewrite length_app; cbn; lia).
    apply Z.eqb_neq in Hfew. rewrite Hfew. cbn.
    now rewrite app_nil_r.
  - intros room sid' d Hnd Hdrawer Hd Hg Hdg Hsub.
    pose proof (all_but_drawer_counted _ _ d Hnd Hd Hg Hdg Hsub) as Hcount.
    rewrite length_app, length_map in Hcount. cbn [List.length] in Hcount.
    unfold len. split.
    + intros Hlen p Hp Hne. apply Hcount; [lia | now apply in_map | exact Hne].
    + intros Hall.
      assert (Hz : Z.of_nat (List.length (guessed_players room) + 1)
                   = Z.of_nat (List.length (players room)) - 1).
      { apply Hcount. intros s Hs Hne. apply in_map_iff in Hs.
        destruct Hs as (p & <- & Hp). now apply Hall. }
      lia.
Qed.

(** The timer that wakes up after the early end of the round of Alice, and
    the guess of Bob that ended it. *)
Lemma round_timer_checks_room_only_witness :
  (Dict.get "ABCD" (game_rooms Scenario.ended_early)
   = Some Scenario.room_ended_early
   /\ exists rest ts,
        sio_log (world_of (round_timer "ABCD" Scenario.ended_early))
        = sio_log Scenario.ended_early
          ++ Emit (Ev.round_end (Some "cat")
                     [mkPlayer "sidA" "Alice" 100 true;
                      mkPlayer "sidB" "Bob" 284 false])
                  (ToRoom "ABCD")
             :: rest
        /\ tasks (world_of (round_timer "ABCD" Scenario.ended_early))
           = tasks Scenario.ended_early ++ ts)
  /\ (Dict.get "ABCD" (game_rooms Scenario.playing_at_60)
      = Some Scenario.room_playing
      /\ exists ps rest ts,
           sio_log (world_of (send_guess "sidB" "ABCD" "  CAT "
                                         Scenario.playing_at_60))
           = sio_log Scenario.playing_at_60
             ++ Emit (Ev.correct_guess "Bob" 84) (ToRoom "ABCD")
                :: Emit (Ev.guess_result true (Some 84)) (ToSid "sidB")
                :: Emit (Ev.round_end (Some "cat") ps) (ToRoom "ABCD")
                :: rest
           /\ tasks (world_of (send_guess "sidB" "ABCD" "  CAT "
                                          Scenario.playing_at_60))
              = RoundTimer "ABCD" 62 :: ts)
  /\ (Dict.get "ABCD" (game_rooms Scenario.three_started)
      = Some Scenario.room_three_started
      /\ sio_log (world_of (send_guess "sidB" "ABCD" "cat"
                                       Scenario.three_started))
         = sio_log Scenario.three_started
           ++ [Emit (Ev.correct_guess "Bob" 200) (ToRoom "ABCD");
               Emit (Ev.guess_result true (Some 200)) (ToSid "sidB")]
      /\ tasks (world_of (send_guess "sidB" "ABCD" "cat"
                                     Scenario.three_started))
         = [RoundTimer "ABCD" 62])
  /\ (len (guessed_players Scenario.room_playing) + 1
      = len (players Scenario.room_playing) - 1
      <-> forall p, In p (players Scenario.room_playing) ->
            sid p <> "sidA" ->
            In (sid p) (guessed_players Scenario.room_playing ++ ["sidB"])).
Proof.
  destruct round_timer_checks_room_only
    as (_ & Hpresent & Hearly & Hgoes_on & Hcount).
  split; [|split; [|split]].
  - split; [reflexivity|].
    destruct (Hpresent Scenario.ended_early "ABCD" Scenario.room_ended_early
                       eq_refl) as [_ Hfires].
    exact Hfires.
  - split; [reflexivity|].
    apply (Hearly Scenario.playing_at_60 "sidB" "ABCD" "  CAT "
                  Scenario.room_playing Scenario.bob "cat" 2%Q);
      reflexivity.
  - split; [reflexivity|].
    apply (Hgoes_on Scenario.three_started "sidB" "ABCD" "cat"
                    Scenario.room_three_started Scenario.bob "cat" 2%Q);
      try reflexivity.
    vm_compute. discriminate.
  - apply (Hcount Scenario.room_playing "sidB" "sidA").
    + cbn. repeat constructor; cbn; intuition discriminate.
    + reflexivity.
    + cbn. now left.
    + cbn. repeat constructor; cbn; intuition discriminate.
    + cbn. intuition discriminate.
    + intros s Hs. cbn in Hs |- *. intuition.
Defined.

(** C1, as stated, fails. Bob guesses the word at time 60, two seconds
    before the deadline: the round ends at once (one [round_end], scores 50
    and 184), and the deadline timer due at 62 is still scheduled, ahead of
    the next round due at 65. When it wakes up, [end_round] runs a second
    time for the same round: a second [round_end], and the guesser and the
    drawer are awarded again. *)
Lemma stale_timer_ends_round_again :
  tasks Scenario.ended_early = [RoundTimer "ABCD" 62; NextRound "ABCD" 65]
  /\ List.length (filter is_round_end (sio_log Scenario.ended_early)) = 1%nat
  /\ option_map (fun r => (map score (players r), current_drawer_index r,
                           current_round r))
                (Dict.get "ABCD" (game_rooms Scenario.ended_early))
     = Some ([50; 184], 1, 1)
  /\ List.length (filter is_round_end (sio_log Scenario.stale_timer_fired))
     = 2%nat
  /\ option_map (fun r => (map score (players r), current_drawer_index r,
                           current_round r))
                (Dict.get "ABCD" (game_rooms Scenario.stale_timer_fired))
     = Some ([100; 284], 0, 2)
  /\ tasks Scenario.stale_timer_fired
     = [NextRound "ABCD" 65; NextRound "ABCD" 67].
Proof. vm_compute. repeat split; reflexivity. Qed.

(** A guesser who disconnects stays among the recorded guessers, so the
    count and the players differ. With three players, Bob guesses and
    leaves: the guess of Carol, the only player left besides the drawer,
    does not end the round. With four players it ends the round, and Dan
    has not guessed. *)
Lemma left_guesser_still_counts :
  option_map (fun r => (map sid (players r), current_drawer_sid r,
                        guessed_players r))
             (Dict.get "ABCD" (game_rooms Scenario.guesser_left))
  = Some (["sidA"; "sidC"], Some "sidA", ["sidB"; "sidC"])
  /\ filter is_round_end (sio_log Scenario.guesser_left) = []
  /\ option_map (fun r => (map sid (players r), current_drawer_sid r,
                           guessed_players r))
                (Dict.get "ABCD" (game_rooms Scenario.four_playing))
     = Some (["sidA"; "sidC"; "sidD"], Some "sidA", ["sidB"])
  /\ filter is_round_end (sio_log Scenario.four_playing) = []
  /\ option_map guessed_players
                (Dict.get "ABCD" (game_rooms Scenario.dan_never_guessed))
     = Some ["sidB"; "sidC"]
  /\ List.length (filter is_round_end
                         (sio_log Scenario.dan_never_guessed)) = 1%nat.
Proof. vm_compute. repeat split; reflexivity. Qed.

(** ** The points of a correct guess *)

(** C4, as amended. The points of a correct guess are
    [max(50, 200 - int(2 * e))] for the elapsed time [e]: the doubled time
    is truncated, which for [e >= 0] is [floor(2 * e)]; at a whole number of
    seconds this is [max(50, 200 - 2 * floor(e))]. The value is 200 at 0, 50
    at 75, never below 50 and non-increasing in [e]. [send_guess] adds it to
    the score of the guesser and reports it in both events, before the round
    is ended if all have guessed. *)
Theorem guess_points_law :
  (forall e : Q, (0 <= e)%Q ->
     guess_points e = Z.max 50 (200 - Qfloor (e * 2)))
  /\ (forall n : Z,
        guess_points (inject_Z n) = Z.max 50 (200 - 2 * Qfloor (inject_Z n)))
  /\ guess_points 0%Q = 200
  /\ guess_points 75%Q = 50
  /\ (forall e : Q, 50 <= guess_points e)
  /\ (forall e1 e2 : Q, (e1 <= e2)%Q -> guess_points e2 <= guess_points e1)
  /\ (forall w sid' code text room player word start,
        Dict.get code (game_rooms w) = Some room ->
        opt_is (current_drawer_sid room) sid' = false ->
        mem_sid sid' (guessed_players room) = false ->
        find (has_sid sid') (players room) = Some player ->
        current_word room = Some word ->
        round_start_time room = Some start ->
        is_correct (normalize text) word = true ->
        exists w1 room1,
          (send_guess sid' code text w = Ok tt w1
           \/ send_guess sid' code text w = end_round code w1)
          /\ Dict.get code (game_rooms w1) = Some room1
          /\ players room1
             = add_score sid' (guess_points (clock w - start)) (players room)
          /\ sio_log w1
             = sio_log w
               ++ [Emit (Ev.correct_guess (username player)
                           (guess_points (clock w - start)))
                        (ToRoom code);
                   Emit (Ev.guess_result true
                           (Some (guess_points (clock w - start))))
                        (ToSid sid')]).
Proof.
  split.
  { intros e He. unfold guess_points. rewrite py_int_nonneg; [reflexivity|].
    apply Qmult_le_0_compat; [exact He | discriminate]. }
  split.
  { intros n. now rewrite guess_points_whole, Qfloor_Z. }
  split; [reflexivity|]. split; [reflexivity|].
  split; [intros e; unfold guess_points; lia|].
  split; [exact guess_points_mono|].
  intros w sid' code text room player word start
         Hget Hnd Hng Hpl Hword Hstart Hyes.
  pose proof (send_guess_right w sid' code text room player word
                Hget Hnd Hng Hpl Hword start Hstart Hyes) as Hrun.
  cbv zeta in Hrun.
  eexists _, _. split.
  { destruct (len (guessed_players room ++ [sid']) =? len (players room) - 1);
      [right | left]; exact Hrun. }
  split; [cbn; apply get_set_same|].
  split; reflexivity.
Qed.

(** A guess after a second and a half, a later guess against an earlier
    one, and the guess of Bob 58 seconds into the round. *)
Lemma guess_points_law_witness :
  ((0 <= 3 # 2)%Q /\ guess_points (3 # 2) = 197)
  /\ ((1 # 2 <= 3 # 2)%Q /\ guess_points (3 # 2) <= guess_points (1 # 2))
  /\ (Dict.get "ABCD" (game_rooms Scenario.playing_at_60)
      = Some Scenario.room_playing
      /\ exists w1 room1,
           (send_guess "sidB" "ABCD" "  CAT " Scenario.playing_at_60 = Ok tt w1
            \/ send_guess "sidB" "ABCD" "  CAT " Scenario.playing_at_60
               = end_round "ABCD" w1)
           /\ Dict.get "ABCD" (game_rooms w1) = Some room1
           /\ players room1
              = [Scenario.alice; mkPlayer "sidB" "Bob" 84 false]
           /\ sio_log w1
              = sio_log Scenario.playing_at_60
                ++ [Emit (Ev.correct_guess "Bob" 84) (ToRoom "ABCD");
                    Emit (Ev.guess_result true (Some 84)) (ToSid "sidB")]).
Proof.
  destruct guess_points_law as (Hfloor & _ & _ & _ & _ & Hmono & Hsend).
  assert (H0 : (0 <= 3 # 2)%Q) by (unfold Qle; cbn; lia).
  assert (H1 : (1 # 2 <= 3 # 2)%Q) by (unfold Qle; cbn; lia).
  split; [split; [exact H0 | exact (Hfloor (3 # 2)%Q H0)]|].
  split; [split; [exact H1 | exact (Hmono _ _ H1)]|].
  split; [reflexivity|].
  apply (Hsend Scenario.playing_at_60 "sidB" "ABCD" "  CAT "
               Scenario.room_playing Scenario.bob "cat" 2%Q);
    reflexivity.
Defined.

(** C4, as stated, fails. The round starts at time 2 and Bob guesses the
    word at 2.5: the elapsed time is half a second, [2 * floor(e)] is 0 and
    the stated law gives 200, while [int(e * 2)] is 1 and Bob is awarded
    199. *)
Lemma half_second_guess_scores_199 :
  let e := ((5 # 2) - 2)%Q in
  (e == 1 # 2)%Q
  /\ Z.max 50 (200 - 2 * Qfloor e) = 200
  /\ guess_points e = 199
  /\ In (Emit (Ev.correct_guess "Bob" 199) (ToRoom "ABCD"))
        (sio_log Scenario.quick_guess)
  /\ In (Emit (Ev.guess_result true (Some 199)) (ToSid "sidB"))
        (sio_log Scenario.quick_guess).
Proof.
  cbv zeta. split; [reflexivity|]. split; [reflexivity|].
  split; [reflexivity|].
  split; vm_compute; tauto.
Qed.

(** ** Judging a guess *)

Lemma is_correct_word_bank (text word : string) :
  In word WORD_BANK ->
  is_correct (normalize text) word = true <-> normalize text = normalize word.
Proof.
  intros Hin. unfold is_correct.
  rewrite (normalize_word_bank word Hin). apply String.eqb_eq.
Qed.

(** After a matching guess both events of a correct guess follow the log,
    and the sleeping coroutines stay. *)
Lemma send_guess_right_log (w : World) (sid' code text : string)
    (room : Room) (player : Player) (word : string) (start : Q) :
  Dict.get code (game_rooms w) = Some room ->
  opt_is (current_drawer_sid room) sid' = false ->
  mem_sid sid' (guessed_players room) = false ->
  find (has_sid sid') (players room) = Some player ->
  current_word room = Some word ->
  round_start_time room = Some start ->
  is_correct (normalize text) word = true ->
  exists rest ts,
    sio_log (world_of (send_guess sid' code text w))
    = sio_log w
      ++ Emit (Ev.correct_guess (username player)
                 (guess_points (clock w - start)))
              (ToRoom code)
         :: Emit (Ev.guess_result true (Some (guess_points (clock w - start))))
                 (ToSid sid')
         :: rest
    /\ tasks (world_of (send_guess sid' code text w)) = tasks w ++ ts.
Proof.
  intros Hget Hnd Hng Hpl Hword Hstart Hyes.
  rewrite (send_guess_right w sid' code text room player word
             Hget Hnd Hng Hpl Hword start Hstart Hyes).
  destruct (len (guessed_players room ++ [sid']) =? len (players room) - 1).
  - match goal with |- context [end_round code ?w1] => set (w1' := w1) end.
    destruct (end_round_emits w1' code
                (Upd.set_players
                   (add_score sid' (guess_points (clock w - start))
                              (players room))
                   (Upd.set_guessed_players (guessed_players room ++ [sid'])
                                            room)))
      as (rest & ts & Hlog & Htasks).
    { subst w1'. cbn. apply get_set_same. }
    eexists _, ts. rewrite Hlog, Htasks. subst w1'. cbn.
    rewrite <- !app_assoc, ?app_nil_r. split; reflexivity.
  - exists [], []. cbn. rewrite ?app_nil_r. split; reflexivity.
Qed.

(** C9. With a secret of the word bank, a guess of a player who may guess
    is judged correct exactly when [normalize(guess)] equals
    [normalize(secret)]: then [correct_guess] and a positive [guess_result]
    go out; otherwise the normalised guess is relayed as chat with a
    negative [guess_result] and no room changes. The guess "  CAT " matches
    the secret "cat". *)
Theorem guess_matches_iff_normalized_equal (w : World)
    (sid' code text : string) (room : Room) (player : Player)
    (word : string) (start : Q) :
  Dict.get code (game_rooms w) = Some room ->
  opt_is (current_drawer_sid room) sid' = false ->
  mem_sid sid' (guessed_players room) = false ->
  find (has_sid sid') (players room) = Some player ->
  current_word room = Some word ->
  round_start_time room = Some start ->
  In word WORD_BANK ->
  (is_correct (PyStr.strip (PyStr.lower text)) word = true
   <-> normalize text = normalize word)
  /\ (normalize text = normalize word ->
        exists pts rest,
          sio_log (world_of (send_guess sid' code text w))
          = sio_log w
            ++ Emit (Ev.correct_guess (username player) pts) (ToRoom code)
               :: Emit (Ev.guess_result true (Some pts)) (ToSid sid')
               :: rest)
  /\ (normalize text <> normalize word ->
        send_guess sid' code text w
        = Ok tt
             (extend w (game_rooms w)
                [Emit (Ev.chat_message (username player) (normalize text))
                      (ToRoom code);
                 Emit (Ev.guess_result false None) (ToSid sid')]
                [] 0))
  /\ normalize "  CAT " = normalize "cat".
Proof.
  intros Hget Hnd Hng Hpl Hword Hstart Hin.
  pose proof (is_correct_word_bank text word Hin) as Hiff.
  split; [exact Hiff|]. split; [|split; [|reflexivity]].
  - intros Heq. apply Hiff in Heq.
    destruct (send_guess_right_log w sid' code text room player word start
                Hget Hnd Hng Hpl Hword Hstart Heq) as (rest & ts & Hlog & _).
    eauto.
  - intros Hne.
    apply (send_guess_wrong w sid' code text room player word
             Hget Hnd Hng Hpl Hword).
    destruct (is_correct (normalize text) word); [|reflexivity].
    exfalso. apply Hne, Hiff. reflexivity.
Qed.

(** Bob's guess "  CAT " against the secret "cat". *)
Lemma guess_matches_iff_normalized_equal_witness :
  Dict.get "ABCD" (game_rooms Scenario.playing_at_60)
  = Some Scenario.room_playing
  /\ In "cat" WORD_BANK
  /\ normalize "  CAT " = normalize "cat"
  /\ exists pts rest,
       sio_log (world_of (send_guess "sidB" "ABCD" "  CAT "
                                     Scenario.playing_at_60))
       = sio_log Scenario.playing_at_60
         ++ Emit (Ev.correct_guess "Bob" pts) (ToRoom "ABCD")
            :: Emit (Ev.guess_result true (Some pts)) (ToSid "sidB")
            :: rest.
Proof.
  assert (Hin : In "cat" WORD_BANK) by (left; reflexivity).
  destruct (guess_matches_iff_normalized_equal
              Scenario.playing_at_60 "sidB" "ABCD" "  CAT "
              Scenario.room_playing Scenario.bob "cat" 2%Q
              eq_refl eq_refl eq_refl eq_refl eq_refl eq_refl Hin)
    as (_ & Hyes & _ & Hcat).
  split; [reflexivity|]. split; [exact Hin|]. split; [exact Hcat|].
  exact (Hyes Hcat).
Defined.

(** ** Starting a game *)

(** C5, as amended. [start_game] checks that the room exists, that the
    caller is its host and that the roster has two players or more, and
    nothing else: whether the game has started already plays no part. When
    one of the three checks fails the rooms and the sleeping coroutines stay
    as they were and one [error] goes to the caller. Otherwise the room gets
    [game_started = True] and [current_round = 1], [game_started] goes to
    the room, whatever follows, and [start_new_round] runs; when the drawer
    index selects a player, [start_game] returns and the round is open with
    that player drawing. *)
Theorem start_game_guards (w : World) (sid' code : string) :
  let host_calls (room : Room) :=
    existsb (fun p => String.eqb (sid p) sid' && is_host p) (players room) in
  ((Dict.get code (game_rooms w) = None
    \/ exists room, Dict.get code (game_rooms w) = Some room
                    /\ (host_calls room = false \/ len (players room) < 2)) ->
   exists msg,
     start_game sid' code w
     = Ok tt (extend w (game_rooms w) [Emit (Ev.error msg) (ToSid sid')] [] 0))
  /\ (forall room,
        Dict.get code (game_rooms w) = Some room ->
        host_calls room = true ->
        2 <= len (players room) ->
        let room1 := Upd.set_current_round 1 (Upd.set_game_started true room) in
        start_game sid' code w
        = start_new_round code
            (extend w (Dict.set code room1 (game_rooms w))
                    [Emit Ev.game_started (ToRoom code)] [] 0)
        /\ (exists room' rest,
              Dict.get code (game_rooms (world_of (start_game sid' code w)))
              = Some room'
              /\ game_started room' = true
              /\ current_round room' = 1
              /\ players room' = players room
              /\ sio_log (world_of (start_game sid' code w))
                 = sio_log w ++ Emit Ev.game_started (ToRoom code) :: rest)
        /\ forall drawer,
             py_getitem (players room) (current_drawer_index room)
             = Some drawer ->
             exists w' room' rest,
               start_game sid' code w = Ok tt w'
               /\ Dict.get code (game_rooms w') = Some room'
               /\ game_started room' = true
               /\ current_round room' = 1
               /\ current_drawer_sid room' = Some (sid drawer)
               /\ players room' = players room
               /\ sio_log w'
                  = sio_log w
                    ++ Emit Ev.game_started (ToRoom code)
                       :: Emit (Ev.new_round 1 (username drawer) (sid drawer)
                                  (next_word w) (PyStr.len (next_word w)))
                               (ToSid (sid drawer))
                       :: rest
               /\ tasks w' = tasks w ++ [RoundTimer code (clock w + 60)]).
Proof.
  intros host_calls. split.
  - intros Hfail.
    cbv beta iota zeta delta [start_game bind get_rooms emit sio].
    unfold extend. rewrite app_nil_r.
    destruct Hfail as [Hnone | (room & Hget & Hbad)].
    + rewrite Hnone. eauto.
    + rewrite Hget. fold (host_calls room).
      destruct (host_calls room); cbn [negb]; [|eauto].
      destruct Hbad as [Hh | Hlen]; [discriminate|].
      destruct (Z.ltb_spec (len (players room)) 2); [eauto | lia].
  - intros room Hget Hhost Hlen room1.
    assert (Hrun : start_game sid' code w
                   = start_new_round code
                       (extend w (Dict.set code room1 (game_rooms w))
                               [Emit Ev.game_started (ToRoom code)] [] 0)).
    { cbv beta iota zeta delta [start_game bind get_rooms emit sio store
                                put_rooms].
      rewrite Hget. fold (host_calls room). rewrite Hhost. cbn [negb].
      destruct (Z.ltb_spec (len (players room)) 2); [lia|].
      unfold extend. now rewrite app_nil_r. }
    split; [exact Hrun|]. split.
    { rewrite Hrun.
      destruct (py_getitem (players room) (current_drawer_index room))
        as [drawer|] eqn:Hidx.
      - erewrite start_new_round_ok;
          [| cbn; apply get_set_same | exact Hidx].
        eexists _, _. split; [cbn; apply get_set_same|].
        repeat (split; [reflexivity|]).
        cbn. rewrite <- !app_assoc. reflexivity.
      - erewrite start_new_round_raises;
          [| cbn; apply get_set_same | exact Hidx].
        exists room1, []. split; [cbn; apply get_set_same|].
        repeat (split; [reflexivity|]). reflexivity. }
    intros drawer Hidx. rewrite Hrun.
    erewrite start_new_round_ok;
      [| cbn; apply get_set_same | exact Hidx].
    eexists _, _, _. split; [reflexivity|].
    split; [cbn; apply get_set_same|].
    repeat (split; [reflexivity|]).
    split.
    + cbn. rewrite <- !app_assoc. reflexivity.
    + cbn. now rewrite app_nil_r.
Qed.

(** In the lobby of ABCD Bob, who is not the host, is refused, and Alice
    starts the game. *)
Lemma start_game_guards_witness :
  (Dict.get "ABCD" (game_rooms Scenario.lobby) = Some Scenario.room_lobby
   /\ exists msg,
        start_game "sidB" "ABCD" Scenario.lobby
        = Ok tt (extend Scenario.lobby (game_rooms Scenario.lobby)
                        [Emit (Ev.error msg) (ToSid "sidB")] [] 0))
  /\ (2 <= len (players Scenario.room_lobby)
      /\ exists w' room' rest,
           start_game "sidA" "ABCD" Scenario.lobby = Ok tt w'
           /\ Dict.get "ABCD" (game_rooms w') = Some room'
           /\ game_started room' = true
           /\ current_round room' = 1
           /\ current_drawer_sid room' = Some "sidA"
           /\ players room' = [Scenario.alice; Scenario.bob]
           /\ sio_log w'
              = sio_log Scenario.lobby
                ++ Emit Ev.game_started (ToRoom "ABCD")
                   :: Emit (Ev.new_round 1 "Alice" "sidA" "cat" 3)
                           (ToSid "sidA")
                   :: rest
           /\ tasks w' = tasks Scenario.lobby ++ [RoundTimer "ABCD" (1 + 60)])
  /\ (Dict.get "ABCD" (game_rooms Scenario.bob_left_carol_draws)
      = Some Scenario.room_bob_left_carol_draws
      /\ exists room' rest,
           Dict.get "ABCD"
             (game_rooms (world_of (start_game "sidA" "ABCD"
                                      Scenario.bob_left_carol_draws)))
           = Some room'
           /\ game_started room' = true
           /\ current_round room' = 1
           /\ players room' = [Scenario.alice; Scenario.carol]
           /\ sio_log (world_of (start_game "sidA" "ABCD"
                                   Scenario.bob_left_carol_draws))
              = sio_log Scenario.bob_left_carol_draws
                ++ Emit Ev.game_started (ToRoom "ABCD") :: rest).
Proof.
  split; [|split];
    (split; [first [reflexivity | vm_compute; discriminate]|]);
    [| |assert (Hlen : 2 <= len (players Scenario.room_bob_left_carol_draws))
          by (vm_compute; discriminate);
        destruct (start_game_guards Scenario.bob_left_carol_draws
                    "sidA" "ABCD") as [_ Hok];
        destruct (Hok Scenario.room_bob_left_carol_draws
                      eq_refl eq_refl Hlen) as (_ & Hstate & _);
        exact Hstate].
  - apply (start_game_guards Scenario.lobby "sidB" "ABCD").
    right. exists Scenario.room_lobby. split; [reflexivity|].
    left. reflexivity.
  - assert (Hlen : 2 <= len (players Scenario.room_lobby))
      by (vm_compute; discriminate).
    destruct (start_game_guards Scenario.lobby "sidA" "ABCD") as [_ Hok].
    destruct (Hok Scenario.room_lobby eq_refl eq_refl Hlen)
      as (_ & _ & Hround).
    exact (Hround Scenario.alice eq_refl).
Defined.

(** C5, as stated, fails. In round 2 of a game in progress the host sends
    [start_game] again: no error is reported; [game_started] goes to the
    room, [current_round] falls back from 2 to 1, a new round opens and a
    second deadline timer is scheduled next to the first. *)
Lemma started_game_is_started_again :
  option_map (fun r => (game_started r, current_round r))
             (Dict.get "ABCD" (game_rooms Scenario.round_two))
  = Some (true, 2)
  /\ option_map (fun r => (game_started r, current_round r))
                (Dict.get "ABCD" (game_rooms Scenario.started_twice))
     = Some (true, 1)
  /\ skipn (List.length (sio_log Scenario.round_two))
           (sio_log Scenario.started_twice)
     = [Emit Ev.game_started (ToRoom "ABCD");
        Emit (Ev.new_round 1 "Alice" "sidA" "cat" 3) (ToSid "sidA");
        Emit (Ev.new_round 1 "Alice" "sidA" "___" 3) (ToSid "sidB")]
  /\ tasks Scenario.round_two = [RoundTimer "ABCD" 192]
  /\ tasks Scenario.started_twice
     = [RoundTimer "ABCD" 192; RoundTimer "ABCD" 200].
Proof. vm_compute. repeat split; reflexivity. Qed.

(** Carol draws on seat 2 and Bob has left: the host passes the three
    checks of [start_game], [game_started] goes to the room, and
    [start_new_round] raises [IndexError] before any round opens. *)
Lemma start_game_past_roster :
  exists w',
    start_game "sidA" "ABCD" Scenario.bob_left_carol_draws
    = Raise IndexError w'
    /\ skipn (List.length (sio_log Scenario.bob_left_carol_draws))
             (sio_log w')
       = [Emit Ev.game_started (ToRoom "ABCD")]
    /\ tasks w' = tasks Scenario.bob_left_carol_draws.
Proof. eexists. vm_compute. repeat split; reflexivity. Qed.

(** ** Disconnecting *)

Lemma filter_drops {A : Type} (f : A -> bool) (l : list A) :
  (exists x, In x l /\ f x = false) ->
  (List.length (filter f l) < List.length l)%nat.
Proof.
  intros (x & Hin & Hx). induction l as [|y l IH]; [contradiction|].
  cbn. destruct Hin as [->|Hin].
  - rewrite Hx. pose proof (filter_length_le f l). lia.
  - specialize (IH Hin). destruct (f y); cbn; lia.
Qed.

(** The turn of the loop of [disconnect] for a started room whose drawer
    disconnects, when other players remain and the drawer index selects one
    of them: [player_left], then [start_new_round]. *)
Lemma disconnect_room_drawer (w : World) (sid' code : string)
    (room : Room) (drawer : Player) :
  let remaining :=
    filter (fun p => negb (String.eqb (sid p) sid')) (players room) in
  Dict.get code (game_rooms w) = Some room ->
  game_started room = true ->
  current_drawer_sid room = Some sid' ->
  (exists p, In p (players room) /\ sid p = sid') ->
  remaining <> [] ->
  py_getitem remaining (current_drawer_index room) = Some drawer ->
  exists w' room' rest,
    disconnect_room sid' code w = Ok tt w'
    /\ Dict.get code (game_rooms w') = Some room'
    /\ players room' = remaining
    /\ current_drawer_index room' = current_drawer_index room
    /\ current_round room' = current_round room
    /\ current_drawer_sid room' = Some (sid drawer)
    /\ guessed_players room' = []
    /\ sio_log w'
       = sio_log w
         ++ Emit (Ev.player_left code remaining) (ToRoom code)
            :: Emit (Ev.new_round (current_round room) (username drawer)
                       (sid drawer) (next_word w) (PyStr.len (next_word w)))
                    (ToSid (sid drawer))
            :: rest
    /\ Forall (fun c => is_round_end c = false) rest
    /\ tasks w' = tasks w ++ [RoundTimer code (clock w + 60)].
Proof.
  intros remaining Hget Hstarted Hdrawer Hmember Hsome Hidx.
  assert (Hless : (len remaining <? len (players room)) = true).
  { apply Z.ltb_lt. unfold len. apply Nat2Z.inj_lt. apply filter_drops.
    destruct Hmember as (p & Hp & Hsid). exists p. split; [exact Hp|].
    rewrite Hsid, String.eqb_refl. reflexivity. }
  assert (Hnonempty : (len remaining =? 0) = false).
  { apply Z.eqb_neq. unfold len. destruct remaining; [congruence | cbn; lia]. }
  assert (Hrun : disconnect_room sid' code w
                 = start_new_round code
                     (extend w
                        (Dict.set code (Upd.set_players remaining room)
                                  (game_rooms w))
                        [Emit (Ev.player_left code remaining) (ToRoom code)]
                        [] 0)).
  { cbv beta iota zeta delta [disconnect_room bind get_rooms emit sio store
                              put_rooms del_room].
    rewrite Hget.
    cbn [players Upd.set_players current_drawer_sid game_started].
    fold remaining. rewrite Hless, Hnonempty, Hdrawer, Hstarted.
    cbn [opt_is]. rewrite String.eqb_refl. cbn [andb].
    unfold extend. now rewrite app_nil_r. }
  rewrite Hrun.
  erewrite start_new_round_ok; [| cbn; apply get_set_same | exact Hidx].
  eexists _, _, _. split; [reflexivity|].
  split; [cbn; apply get_set_same|].
  repeat (split; [reflexivity|]).
  split; [cbn; rewrite <- !app_assoc; reflexivity|].
  split; [|cbn; now rewrite app_nil_r].
  apply Forall_forall. intros c Hc. apply in_map_iff in Hc.
  destruct Hc as (p & <- & _). reflexivity.
Qed.

(** C2, as stated, fails. Alice draws and Bob has guessed the word (score
    196) when Alice disconnects. [end_round] would award Bob 100 points and
    send [round_end]; instead no [round_end] is ever sent, Bob stays at 196,
    the drawer index stays 0, and a new round opens with Bob drawing. *)
Lemma drawer_disconnect_skips_end_round :
  option_map (fun r => (map sid (players r), map score (players r),
                        guessed_players r, current_drawer_sid r,
                        current_drawer_index r))
             (Dict.get "ABCD" (game_rooms Scenario.three_playing))
  = Some (["sidA"; "sidB"; "sidC"], [0; 196; 0], ["sidB"], Some "sidA", 0)
  /\ filter is_round_end (sio_log Scenario.drawer_left) = []
  /\ option_map (fun r => (map sid (players r), map score (players r),
                           guessed_players r, current_drawer_sid r,
                           current_drawer_index r))
                (Dict.get "ABCD" (game_rooms Scenario.drawer_left))
     = Some (["sidB"; "sidC"], [196; 0], [], Some "sidB", 0)
  /\ skipn (List.length (sio_log Scenario.three_playing))
           (sio_log Scenario.drawer_left)
     = [Emit (Ev.player_left "ABCD"
                [mkPlayer "sidB" "Bob" 196 false; Scenario.carol])
             (ToRoom "ABCD");
        Emit (Ev.new_round 1 "Bob" "sidB" "cat" 3) (ToSid "sidB");
        Emit (Ev.new_round 1 "Bob" "sidB" "___" 3) (ToSid "sidC")].
Proof. vm_compute. repeat split; reflexivity. Qed.

(** C3: the drawer index is not kept inside the roster. In the second round
    of a game of two, Bob draws with drawer index 1 and disconnects.
    [disconnect] removes him and leaves the index at 1 for a roster of one,
    and [start_new_round], called because the drawer left, raises
    [IndexError] at [players[current_drawer_index]]. *)
Lemma disconnect_leaves_index_past_roster :
  option_map (fun r => (map sid (players r), current_drawer_index r,
                        current_drawer_sid r))
             (Dict.get "ABCD" (game_rooms Scenario.bob_draws))
  = Some (["sidA"; "sidB"], 1, Some "sidB")
  /\ exists w',
       (set_clock 70%Q ;; disconnect "sidB") Scenario.bob_draws
       = Raise IndexError w'
       /\ option_map (fun r => (map sid (players r), current_drawer_index r,
                                py_getitem (players r) (current_drawer_index r)))
                     (Dict.get "ABCD" (game_rooms w'))
          = Some (["sidA"], 1, None).
Proof.
  split; [reflexivity|].
  exists (world_of ((set_clock 70%Q ;; disconnect "sidB") Scenario.bob_draws)).
  split; vm_compute; reflexivity.
Qed.

(** ** Chat *)

(** C10. When the named room exists and the sender is a player of some
    room, whichever it is, [send_message] sends [chat_message] to the named
    room, under the name of the first player with the sender's sid found
    going through all rooms in the order of the dict; nothing else
    changes. *)
Theorem send_message_checks_any_room (w : World) (sid' code message : string) :
  Dict.mem code (game_rooms w) = true ->
  (exists c r p, In (c, r) (game_rooms w) /\ In p (players r) /\ sid p = sid') ->
  exists player,
    find (has_sid sid') (flat_map players (Dict.values (game_rooms w)))
    = Some player
    /\ sid player = sid'
    /\ send_message sid' code message w
       = Ok tt
            (extend w (game_rooms w)
               [Emit (Ev.chat_message (username player) message) (ToRoom code)]
               [] 0).
Proof.
  intros Hmem (c & r & p & Hr & Hp & Hsid).
  destruct (find (has_sid sid') (flat_map players (Dict.values (game_rooms w))))
    as [player|] eqn:Hfind.
  - exists player. split; [reflexivity|].
    pose proof (find_some _ _ Hfind) as [_ Hhas].
    split; [now apply String.eqb_eq|].
    cbv beta iota zeta delta [send_message bind get_rooms emit sio ret].
    rewrite Hmem, Hfind. cbn [negb]. unfold extend. now rewrite app_nil_r.
  - exfalso.
    assert (Hin : In p (flat_map players (Dict.values (game_rooms w)))).
    { apply in_flat_map. exists r. split; [|exact Hp].
      unfold Dict.values. apply (in_map snd) in Hr. exact Hr. }
    pose proof (find_none _ _ Hfind p Hin) as Hno.
    unfold has_sid in Hno. rewrite Hsid, String.eqb_refl in Hno. discriminate.
Qed.

(** Dave, alone in room WXYZ and not a player of ABCD, writes to ABCD. *)
Lemma send_message_checks_any_room_witness :
  Dict.mem "ABCD" (game_rooms Scenario.two_rooms) = true
  /\ option_map (fun r => existsb (has_sid "sidD") (players r))
                (Dict.get "ABCD" (game_rooms Scenario.two_rooms))
     = Some false
  /\ exists player,
       find (has_sid "sidD")
            (flat_map players (Dict.values (game_rooms Scenario.two_rooms)))
       = Some player
       /\ sid player = "sidD"
       /\ send_message "sidD" "ABCD" "hello" Scenario.two_rooms
          = Ok tt
               (extend Scenario.two_rooms (game_rooms Scenario.two_rooms)
                  [Emit (Ev.chat_message (username player) "hello")
                        (ToRoom "ABCD")]
                  [] 0).
Proof.
  split; [reflexivity|]. split; [reflexivity|].
  apply (send_message_checks_any_room Scenario.two_rooms "sidD" "ABCD" "hello").
  - reflexivity.
  - exists "WXYZ",
      (mkRoom "WXYZ" [mkPlayer "sidD" "Dave" 0 true] 8 false 0 3 0 None None
              [] [] None),
      (mkPlayer "sidD" "Dave" 0 true).
    split; [right; left; reflexivity|]. split; [left|]; reflexivity.
Defined.

(** ** The properties at work on the concrete runs *)

(** The round drawn by Bob is started once more. *)
Lemma new_round_masks_word_witness :
  Dict.get "ABCD" (game_rooms Scenario.bob_draws)
  = Some (mkRoom "ABCD" [Scenario.alice; Scenario.bob] 8 true 1 3 1
                 (Some "sidB") (Some "cat") [] [] (Some 67%Q))
  /\ exists w' word others,
       start_new_round "ABCD" Scenario.bob_draws = Ok tt w'
       /\ In word WORD_BANK
       /\ sio_log w'
          = sio_log Scenario.bob_draws
            ++ Emit (Ev.new_round 1 "Bob" "sidB" word (PyStr.len word))
                    (ToSid "sidB")
               :: others
       /\ In (Emit (Ev.new_round 1 "Bob" "sidB" (masked word) (PyStr.len word))
                   (ToSid "sidA"))
             others
       /\ String.length (masked word) = String.length word.
Proof.
  split; [reflexivity|].
  destruct (new_round_masks_word Scenario.bob_draws "ABCD"
              (mkRoom "ABCD" [Scenario.alice; Scenario.bob] 8 true 1 3 1
                      (Some "sidB") (Some "cat") [] [] (Some 67%Q))
              Scenario.bob eq_refl eq_refl)
    as (w' & word & others & Hrun & Hin & _ & Hlog & Hsent & _ & Hlen & _).
  exists w', word, others.
  split; [exact Hrun|]. split; [exact Hin|]. split; [exact Hlog|].
  split; [|exact Hlen].
  apply (Hsent Scenario.alice); [left; reflexivity | discriminate].
Defined.

(** The game of three is ended while Bob leads: Alice and Carol, both at 0,
    keep their order on the board. *)
Lemma end_game_scoreboard_then_reset_witness :
  Dict.get "ABCD" (game_rooms Scenario.three_playing)
  = Some Scenario.room_three_playing
  /\ exists w' board room',
       end_game "ABCD" Scenario.three_playing = Ok tt w'
       /\ sio_log w'
          = sio_log Scenario.three_playing
            ++ [Emit (Ev.game_end board) (ToRoom "ABCD")]
       /\ filter (fun p => score p =? 0) board
          = [Scenario.alice; Scenario.carol]
       /\ Dict.get "ABCD" (game_rooms w') = Some room'
       /\ game_started room' = false
       /\ current_round room' = 0
       /\ current_drawer_index room' = 0
       /\ players room' = [Scenario.alice; Scenario.bob; Scenario.carol].
Proof.
  split; [reflexivity|].
  destruct (end_game_scoreboard_then_reset Scenario.three_playing "ABCD"
              Scenario.room_three_playing eq_refl)
    as (w' & board & room' & Hrun & Hlog & _ & _ & Hstable & Hget & Hst & Hrd
        & Hidx & Hps & _).
  exists w', board, room'.
  split; [exact Hrun|]. split; [exact Hlog|].
  split; [exact (Hstable 0)|]. split; [exact Hget|].
  split; [exact Hst|]. split; [exact Hrd|]. split; [exact Hidx|].
  exact Hps.
Defined.

(** Carol joins the lobby of ABCD. *)
Lemma join_room_succeeds_iff_witness :
  Dict.get "ABCD" (game_rooms Scenario.lobby) = Some Scenario.room_lobby
  /\ (len (players Scenario.room_lobby) < max_players Scenario.room_lobby
      /\ game_started Scenario.room_lobby = false)
  /\ exists w' calls,
       join_room "sidC" "ABCD" "Carol" Scenario.lobby = Ok tt w'
       /\ sio_log w' = sio_log Scenario.lobby ++ calls
       /\ game_rooms w'
          = [("ABCD",
              mkRoom "ABCD" [Scenario.alice; Scenario.bob; Scenario.carol]
                     8 false 0 3 0 None None [] [] None)]
       /\ calls
          = [EnterRoom "sidC" "ABCD";
             Emit (Ev.room_joined "ABCD"
                     [Scenario.alice; Scenario.bob; Scenario.carol])
                  (ToSid "sidC");
             Emit (Ev.player_joined
                     [Scenario.alice; Scenario.bob; Scenario.carol])
                  (ToRoom "ABCD")].
Proof.
  assert (Hfree : len (players Scenario.room_lobby)
                  < max_players Scenario.room_lobby
                  /\ game_started Scenario.room_lobby = false)
    by (split; reflexivity).
  split; [reflexivity|]. split; [exact Hfree|].
  destruct (join_room_succeeds_iff Scenario.lobby "sidC" "ABCD" "Carol")
    as (w' & calls & Hrun & Hlog & _ & Hsome & _).
  destruct (Hsome Scenario.room_lobby eq_refl) as [Hok _].
  destruct (Hok Hfree) as [Hrooms Hcalls].
  exists w', calls.
  split; [exact Hrun|]. split; [exact Hlog|].
  split; [exact Hrooms | exact Hcalls].
Defined.

(** ** What the rounds keep true *)

(** [end_round] writes the room back with the same secret and the same
    players; when it returns, the drawer index selects a player. *)
Lemma end_round_result (w : World) (code : string) (room : Room) :
  Dict.get code (game_rooms w) = Some room ->
  exists room',
    game_rooms (world_of (end_round code w))
    = Dict.set code room' (game_rooms w)
    /\ current_word room' = current_word room
    /\ map sid (players room') = map sid (players room)
    /\ (forall w', end_round code w = Ok tt w' -> index_in_roster room').
Proof.
  intros Hget.
  cbv beta iota delta [end_round bind get_rooms store put_rooms emit sio now
                       spawn or_raise ret raise].
  rewrite Hget.
  cbn [clock game_rooms sio_log tasks rng draws Upd.set_players players
       current_word current_drawer_index].
  set (ps := award_drawer room (award_guessers room)).
  assert (Hsids : map sid ps = map sid (players room)).
  { subst ps. unfold award_drawer, award_guessers.
    assert (Hfold : forall gs l,
               map sid (fold_left (fun ps s => add_score s 100 ps) gs l)
               = map sid l).
    { induction gs as [|g gs IH]; intros l; cbn; [reflexivity|].
      now rewrite IH, add_score_sids. }
    destruct (len (guessed_players room) >? 0); [|apply Hfold].
    destruct (current_drawer_sid room); [|apply Hfold].
    now rewrite add_score_sids, Hfold. }
  unfold py_mod. destruct (Z.eqb_spec (len ps) 0) as [Hempty|Hsome].
  { eexists. cbn. split; [reflexivity|]. split; [reflexivity|].
    split; [exact Hsids | discriminate]. }
  cbn [world_of].
  assert (Hrange : 0 <= (current_drawer_index room + 1) mod len ps < len ps).
  { apply Z.mod_pos_bound. unfold len in Hsome |- *. lia. }
  cbn [Upd.set_current_drawer_index current_drawer_index].
  destruct ((current_drawer_index room + 1) mod len ps =? 0);
    match goal with
    | |- context [if ?c >? ?m then end_game code else _] => destruct (c >? m)
    end;
    try (erewrite end_game_ok by (cbn; apply get_set_same));
    eexists; cbn; rewrite !set_set;
    (split; [reflexivity|]); (split; [reflexivity|]);
    (split; [cbn; rewrite ?map_map; exact Hsids|]);
    intros ? _; unfold index_in_roster, len in Hrange, Hsome |- *; cbn;
    rewrite ?length_map; lia.
Qed.

Section RoomsInvariant.

Variable P : Room -> Prop.

Lemma rooms_set (k : string) (r : Room) (d : Dict.t) :
  Forall (fun kr => P (snd kr)) d -> P r ->
  Forall (fun kr => P (snd kr)) (Dict.set k r d).
Proof.
  intros Hd Hr. induction Hd as [|[k' r'] d Hr' Hd IH]; cbn.
  - now repeat constructor.
  - destruct (String.eqb k k'); constructor; auto.
Qed.

Lemma rooms_del (k : string) (d : Dict.t) :
  Forall (fun kr => P (snd kr)) d ->
  Forall (fun kr => P (snd kr)) (Dict.del k d).
Proof.
  intros Hd. induction Hd as [|[k' r'] d Hr' Hd IH]; cbn.
  - constructor.
  - destruct (String.eqb k k'); [exact Hd | constructor; auto].
Qed.

Lemma rooms_get (k : string) (r : Room) (d : Dict.t) :
  Forall (fun kr => P (snd kr)) d -> Dict.get k d = Some r -> P r.
Proof.
  intros Hd Hget. apply get_In in Hget.
  rewrite Forall_forall in Hd. exact (Hd _ Hget).
Qed.

End RoomsInvariant.

Lemma start_new_round_keeps (code : string) :
  keeps_words (start_new_round code).
Proof.
  intros w Hw.
  destruct (Dict.get code (game_rooms w)) as [room|] eqn:Hget.
  - destruct (py_getitem (players room) (current_drawer_index room))
      as [drawer|] eqn:Hidx.
    + rewrite (start_new_round_ok _ _ _ _ Hget Hidx). cbn.
      apply rooms_set; [exact Hw|].
      intros word [= <-]. apply next_word_in_bank.
    + now rewrite (start_new_round_raises _ _ _ Hget Hidx).
  - now rewrite (start_new_round_absent _ _ Hget).
Qed.

Lemma end_game_keeps (code : string) : keeps_words (end_game code).
Proof.
  intros w Hw.
  destruct (Dict.get code (game_rooms w)) as [room|] eqn:Hget.
  - rewrite (end_game_ok _ _ _ Hget). cbn.
    apply rooms_set; [exact Hw|]. exact (rooms_get _ _ _ _ Hw Hget).
  - now rewrite (end_game_absent _ _ Hget).
Qed.

Lemma end_round_keeps (code : string) : keeps_words (end_round code).
Proof.
  intros w Hw.
  destruct (Dict.get code (game_rooms w)) as [room|] eqn:Hget.
  - destruct (end_round_result w code room Hget) as (room' & Hrooms & Hword & _).
    unfold words_from_bank. rewrite Hrooms.
    apply rooms_set; [exact Hw|].
    unfold bank_word. rewrite Hword. exact (rooms_get _ _ _ _ Hw Hget).
  - unfold end_round, bind, get_rooms. now rewrite Hget.
Qed.

Lemma round_timer_keeps (code : string) : keeps_words (round_timer code).
Proof.
  intros w Hw. unfold round_timer, bind, get_rooms.
  destruct (Dict.mem code (game_rooms w)); [now apply end_round_keeps | exact Hw].
Qed.

Lemma end_round_resumed_keeps (code : string) :
  keeps_words (end_round_resumed code).
Proof.
  intros w Hw. unfold end_round_resumed, bind, get_rooms.
  destruct (Dict.mem code (game_rooms w));
    [now apply start_new_round_keeps | exact Hw].
Qed.

(** Closes the goals left once a handler is unfolded and its tests are
    split: the rooms are the old ones with some rooms written back, each
    of them a room read from the dict with its secret untouched. *)
Ltac keep_rooms Hw :=
  cbn;
  repeat first [ apply rooms_set | apply rooms_del ];
  first [ exact Hw
        | match goal with
          | Hget : Dict.get _ _ = Some ?r |- bank_word _ =>
              exact (rooms_get _ _ _ _ Hw Hget)
          end
        | intros ? ?; discriminate ].

Lemma connect_keeps (sid' : string) : keeps_words (connect sid').
Proof. intros w Hw. exact Hw. Qed.

Lemma create_room_keeps (sid' code username' : string) :
  keeps_words (create_room sid' code username').
Proof.
  intros w Hw. unfold create_room, bind at 1, get_rooms.
  destruct (Dict.mem code (game_rooms w)); keep_rooms Hw.
Qed.

Lemma join_room_keeps (sid' code username' : string) :
  keeps_words (join_room sid' code username').
Proof.
  intros w Hw. unfold join_room, bind at 1, get_rooms.
  destruct (Dict.get code (game_rooms w)) as [room|] eqn:Hget;
    [|keep_rooms Hw].
  destruct (len (players room) >=? max_players room); [keep_rooms Hw|].
  destruct (game_started room); keep_rooms Hw.
Qed.

Lemma start_game_keeps (sid' code : string) :
  keeps_words (start_game sid' code).
Proof.
  intros w Hw. unfold start_game, bind at 1, get_rooms.
  destruct (Dict.get code (game_rooms w)) as [room|] eqn:Hget;
    [|keep_rooms Hw].
  destruct (negb _); [keep_rooms Hw|].
  destruct (len (players room) <? 2); [keep_rooms Hw|].
  cbv beta iota delta [bind store put_rooms emit sio].
  apply start_new_round_keeps. keep_rooms Hw.
Qed.

Lemma disconnect_room_keeps (sid' code : string) :
  keeps_words (disconnect_room sid' code).
Proof.
  intros w Hw. unfold disconnect_room, bind at 1, get_rooms.
  destruct (Dict.get code (game_rooms w)) as [room|] eqn:Hget;
    [|keep_rooms Hw].
  cbv beta iota zeta delta [bind store put_rooms emit sio del_room ret].
  cbn [players Upd.set_players current_drawer_sid game_started].
  destruct (_ <? _); [|keep_rooms Hw].
  destruct (_ =? 0); [keep_rooms Hw|].
  destruct (_ && _); [|keep_rooms Hw].
  apply start_new_round_keeps. keep_rooms Hw.
Qed.

Lemma for_each_keeps {A : Type} (l : list A) (body : A -> M unit) :
  (forall x, keeps_words (body x)) -> keeps_words (for_each l body).
Proof.
  intros Hbody. induction l as [|x l IH]; intros w Hw; cbn; [exact Hw|].
  unfold bind. specialize (Hbody x w Hw).
  destruct (body x w) as [[] w'|e w']; cbn in Hbody; [now apply IH | exact Hbody].
Qed.

Lemma disconnect_keeps (sid' : string) : keeps_words (disconnect sid').
Proof.
  intros w Hw. unfold disconnect, bind at 1, get_rooms.
  apply for_each_keeps; [|exact Hw].
  intros code. apply disconnect_room_keeps.
Qed.

Lemma draw_stroke_keeps (sid' code : string) (stroke_data : Stroke) :
  keeps_words (draw_stroke sid' code stroke_data).
Proof.
  intros w Hw. unfold draw_stroke, bind at 1, get_rooms.
  destruct (Dict.get code (game_rooms w)) as [room|] eqn:Hget;
    [|keep_rooms Hw].
  destruct (negb _); [keep_rooms Hw|].
  unfold bind, store, put_rooms.
  apply for_each_keeps.
  - intros p w' Hw'. destruct (negb _); exact Hw'.
  - keep_rooms Hw.
Qed.

Lemma clear_canvas_keeps (sid' code : string) :
  keeps_words (clear_canvas sid' code).
Proof.
  intros w Hw. unfold clear_canvas, bind at 1, get_rooms.
  destruct (Dict.get code (game_rooms w)) as [room|] eqn:Hget;
    [|keep_rooms Hw].
  destruct (negb _); keep_rooms Hw.
Qed.

Lemma send_message_keeps (sid' code message : string) :
  keeps_words (send_message sid' code message).
Proof.
  intros w Hw. unfold send_message, bind at 1, get_rooms.
  destruct (negb _); [keep_rooms Hw|].
  destruct (find _ _); keep_rooms Hw.
Qed.

Lemma send_guess_keeps (sid' code text : string) :
  keeps_words (send_guess sid' code text).
Proof.
  intros w Hw.
  cbv beta iota zeta delta [send_guess bind get_rooms store put_rooms emit
                            sio now or_raise ret raise].
  destruct (Dict.get code (game_rooms w)) as [room|] eqn:Hget;
    [|keep_rooms Hw].
  destruct (opt_is _ _); [keep_rooms Hw|].
  destruct (mem_sid _ _); [keep_rooms Hw|].
  destruct (find _ _) as [player|]; [|keep_rooms Hw].
  destruct (current_word room) as [word|] eqn:Hword; [|keep_rooms Hw].
  destruct (is_correct _ _); [|keep_rooms Hw].
  cbn [clock game_rooms sio_log tasks rng draws Upd.set_players players
       Upd.set_guessed_players guessed_players round_start_time].
  destruct (round_start_time room) as [start|]; [|keep_rooms Hw].
  destruct (_ =? _); [|keep_rooms Hw].
  apply end_round_keeps. keep_rooms Hw.
Qed.

Lemma handle_keeps (i : Input) : keeps_words (handle i).
Proof.
  destruct i; cbn [handle];
    auto using connect_keeps, disconnect_keeps, create_room_keeps,
      join_room_keeps, start_game_keeps, draw_stroke_keeps,
      clear_canvas_keeps, send_guess_keeps, send_message_keeps.
  intros w Hw. unfold bind, take_task.
  destruct (nth_error (tasks w) n) as [t|]; [|exact Hw].
  destruct (Qle_bool (wake_time t) (clock w)); [|exact Hw].
  destruct t; cbn [resume];
    [apply round_timer_keeps | apply end_round_resumed_keeps]; exact Hw.
Qed.

Lemma step_keeps (w : World) (ti : Q * Input) :
  words_from_bank w -> words_from_bank (step w ti).
Proof.
  intros Hw. unfold step, bind, set_clock. apply handle_keeps. exact Hw.
Qed.

(** In every run of the server the secret of every room is a word of the
    bank. *)
Lemma run_words_from_bank (r : nat -> nat) (trace : list (Q * Input)) :
  words_from_bank (run (boot r) trace).
Proof.
  unfold run. generalize (boot r) (Forall_nil _ : words_from_bank (boot r)).
  induction trace as [|ti trace IH]; intros w Hw; cbn; [exact Hw|].
  apply IH. now apply step_keeps.
Qed.

(** ** Rooms of a run *)

Lemma add_score_names (s : string) (n : Z) (ps : list Player) :
  map username (add_score s n ps) = map username ps.
Proof.
  induction ps as [|p ps IH]; cbn; [reflexivity|].
  destruct (has_sid s p); cbn; congruence.
Qed.

Lemma add_score_hosts (s : string) (n : Z) (ps : list Player) :
  map is_host (add_score s n ps) = map is_host ps.
Proof.
  induction ps as [|p ps IH]; cbn; [reflexivity|].
  destruct (has_sid s p); cbn; congruence.
Qed.

(** The awards of [end_round] change scores only. *)
Lemma awards_keep (room : Room) (f : Player -> string) :
  (forall s n ps, map f (add_score s n ps) = map f ps) ->
  map f (award_drawer room (award_guessers room)) = map f (players room).
Proof.
  intros Hf. unfold award_drawer, award_guessers.
  assert (Hfold : forall gs l,
             map f (fold_left (fun ps s => add_score s 100 ps) gs l) = map f l).
  { induction gs as [|g gs IH]; intros l; cbn; [reflexivity|].
    now rewrite IH, Hf. }
  destruct (len (guessed_players room) >? 0); [|apply Hfold].
  destruct (current_drawer_sid room); [|apply Hfold].
  now rewrite Hf, Hfold.
Qed.

Lemma awards_keep_hosts (room : Room) :
  map is_host (award_drawer room (award_guessers room))
  = map is_host (players room).
Proof.
  unfold award_drawer, award_guessers.
  assert (Hfold : forall gs l,
             map is_host (fold_left (fun ps s => add_score s 100 ps) gs l)
             = map is_host l).
  { induction gs as [|g gs IH]; intros l; cbn; [reflexivity|].
    now rewrite IH, add_score_hosts. }
  destruct (len (guessed_players room) >? 0); [|apply Hfold].
  destruct (current_drawer_sid room); [|apply Hfold].
  now rewrite add_score_hosts, Hfold.
Qed.

Lemma same_seats_refl (r : Room) : same_seats r r.
Proof. constructor; reflexivity. Qed.

(** [end_round] writes the room back with the same seats; the drawer index
    and the round stay non-negative. *)
Lemma end_round_seats (w : World) (code : string) (room : Room) :
  Dict.get code (game_rooms w) = Some room ->
  exists room',
    game_rooms (world_of (end_round code w))
    = Dict.set code room' (game_rooms w)
    /\ same_seats room room'
    /\ (0 <= current_drawer_index room -> 0 <= current_drawer_index room')
    /\ (0 <= current_round room -> 0 <= current_round room').
Proof.
  intros Hget.
  cbv beta iota delta [end_round bind get_rooms store put_rooms emit sio now
                       spawn or_raise ret raise].
  rewrite Hget.
  cbn [clock game_rooms sio_log tasks rng draws Upd.set_players players
       current_word current_drawer_index].
  set (ps := award_drawer room (award_guessers room)).
  assert (Hsids : map sid ps = map sid (players room))
    by (apply awards_keep, add_score_sids).
  assert (Hnames : map username ps = map username (players room))
    by (apply awards_keep, add_score_names).
  assert (Hhosts : map is_host ps = map is_host (players room))
    by apply awards_keep_hosts.
  unfold py_mod. destruct (Z.eqb_spec (len ps) 0) as [Hempty|Hsome].
  { eexists. cbn. split; [reflexivity|].
    split; [constructor; cbn; auto|]. split; auto. }
  cbn [world_of].
  assert (Hrange : 0 <= (current_drawer_index room + 1) mod len ps < len ps).
  { apply Z.mod_pos_bound. unfold len in Hsome |- *. lia. }
  cbn [Upd.set_current_drawer_index current_drawer_index].
  destruct ((current_drawer_index room + 1) mod len ps =? 0);
    match goal with
    | |- context [if ?c >? ?m then end_game code else _] => destruct (c >? m)
    end;
    try (erewrite end_game_ok by (cbn; apply get_set_same));
    eexists; cbn; rewrite !set_set;
    (split; [reflexivity|]);
    (split; [constructor; cbn; rewrite ?map_map; cbn; auto|]);
    split; intros; cbn; lia.
Qed.

Lemma get_none_keys (k : string) (d : Dict.t) :
  Dict.get k d = None <-> ~ In k (Dict.keys d).
Proof.
  induction d as [|[k' r'] d IH]; cbn; [tauto|].
  destruct (String.eqb_spec k k') as [->|Hne].
  - split; [discriminate | intros H; exfalso; auto].
  - rewrite IH. split; [intros H [E|E]; [congruence | auto] | tauto].
Qed.

Lemma keys_set (k : string) (r : Room) (d : Dict.t) :
  Dict.keys (Dict.set k r d)
  = if Dict.mem k d then Dict.keys d else Dict.keys d ++ [k].
Proof.
  unfold Dict.mem, Dict.keys.
  induction d as [|[k' r'] d IH]; cbn; [reflexivity|].
  destruct (String.eqb_spec k k') as [->|Hne]; cbn; [reflexivity|].
  rewrite IH. now destruct (Dict.get k d).
Qed.

Lemma keys_del (k : string) (d : Dict.t) :
  NoDup (Dict.keys d) -> NoDup (Dict.keys (Dict.del k d))
  /\ forall k', In k' (Dict.keys (Dict.del k d)) -> In k' (Dict.keys d).
Proof.
  induction d as [|[k' r'] d IH]; cbn; [tauto|].
  intros Hnd. inversion Hnd as [|? ? Hnotin Hrest]; subst.
  destruct (String.eqb k k'); cbn.
  - split; [exact Hrest | tauto].
  - destruct (IH Hrest) as [Hnd' Hsub]. split.
    + constructor; [intros Hin; apply Hnotin, Hsub, Hin | exact Hnd'].
    + intros k0 [E|Hin]; auto.
Qed.

Lemma get_del_same (k : string) (d : Dict.t) :
  NoDup (Dict.keys d) -> Dict.get k (Dict.del k d) = None.
Proof.
  induction d as [|[k' r'] d IH]; cbn; [reflexivity|].
  intros Hnd. inversion Hnd as [|? ? Hnotin Hrest]; subst.
  destruct (String.eqb_spec k k') as [->|Hne]; cbn.
  - now apply get_none_keys.
  - destruct (String.eqb_spec k k'); [congruence | auto].
Qed.

Lemma get_del_other (k k' : string) (d : Dict.t) :
  k <> k' -> Dict.get k' (Dict.del k d) = Dict.get k' d.
Proof.
  intros Hne. induction d as [|[k0 r0] d IH]; cbn; [reflexivity|].
  destruct (String.eqb_spec k k0) as [->|]; cbn.
  - destruct (String.eqb_spec k' k0); congruence.
  - now rewrite IH.
Qed.

Lemma del_set (k : string) (r : Room) (d : Dict.t) :
  Dict.mem k d = true -> Dict.del k (Dict.set k r d) = Dict.del k d.
Proof.
  unfold Dict.mem. induction d as [|[k' r'] d IH]; cbn; [discriminate|].
  destruct (String.eqb k k') eqn:E; cbn; rewrite E; [reflexivity|].
  intros H. now rewrite IH.
Qed.

Lemma sound_set (k : string) (r : Room) (d : Dict.t) :
  sound_rooms d -> room_inv k r -> sound_rooms (Dict.set k r d).
Proof.
  intros [Hnd Hall] Hr. split.
  - rewrite keys_set. unfold Dict.mem.
    destruct (Dict.get k d) eqn:Hget; [exact Hnd|].
    apply NoDup_app; [exact Hnd | repeat constructor; auto |].
    intros x Hx [<-|[]]. now apply get_none_keys in Hget.
  - clear Hnd. induction Hall as [|[k' r'] d Hr' Hd IH]; cbn.
    + constructor; [exact Hr | constructor].
    + destruct (String.eqb_spec k k') as [->|]; constructor; auto.
Qed.

Lemma sound_del (k : string) (d : Dict.t) :
  sound_rooms d -> sound_rooms (Dict.del k d).
Proof.
  intros [Hnd Hall]. split; [now apply keys_del|].
  clear Hnd. induction Hall as [|[k' r'] d Hr' Hd IH]; cbn.
  - constructor.
  - destruct (String.eqb k k'); [exact Hd | constructor; auto].
Qed.

Lemma sound_get (k : string) (r : Room) (d : Dict.t) :
  sound_rooms d -> Dict.get k d = Some r -> room_inv k r.
Proof.
  intros [_ Hall] Hget. apply get_In in Hget.
  rewrite Forall_forall in Hall. exact (Hall _ Hget).
Qed.

Lemma hosts_by_map (l l' : list Player) :
  map is_host l' = map is_host l ->
  List.length (filter is_host l') = List.length (filter is_host l).
Proof.
  revert l'. induction l as [|p l IH]; intros [|p' l']; cbn;
    try discriminate; [reflexivity|].
  intros [= Hp Hl]. rewrite Hp. destruct (is_host p); cbn; auto.
Qed.

Lemma room_inv_seats (k : string) (r r' : Room) :
  room_inv k r -> same_seats r r' ->
  0 <= current_drawer_index r' -> 0 <= current_round r' ->
  room_inv k r'.
Proof.
  intros Hr Hs Hidx Hround. destruct Hr, Hs.
  assert (Hlen : List.length (players r') = List.length (players r)).
  { rewrite <- (length_map sid (players r')), <- (length_map sid (players r)).
    congruence. }
  constructor.
  - congruence.
  - intros Hnil. rewrite Hnil in Hlen. destruct (players r); [auto | discriminate].
  - unfold len in *. lia.
  - congruence.
  - congruence.
  - rewrite (hosts_by_map (players r) (players r')); assumption.
  - congruence.
  - intros s Hs. rewrite seats_guessed0. apply inv_drawer_no_guess0. congruence.
  - rewrite seats_word0, seats_start0. assumption.
  - exact Hidx.
  - exact Hround.
Qed.

Lemma mem_sid_false (s : string) (l : list string) :
  mem_sid s l = false <-> ~ In s l.
Proof.
  unfold mem_sid. induction l as [|x l IH]; cbn; [tauto|].
  destruct (String.eqb_spec s x) as [->|Hne]; cbn.
  - split; [discriminate | intros H; exfalso; auto].
  - rewrite IH. split; [intros H [E|E]; [congruence | auto] | tauto].
Qed.

Lemma opt_is_true (o : option string) (s : string) :
  opt_is o s = true <-> o = Some s.
Proof.
  destruct o as [x|]; cbn; [|split; discriminate].
  destruct (String.eqb_spec x s); split; congruence.
Qed.

Lemma hosts_filter (f : Player -> bool) (l : list Player) :
  (List.length (filter is_host (filter f l))
   <= List.length (filter is_host l))%nat.
Proof.
  induction l as [|p l IH]; cbn; [lia|].
  destruct (f p), (is_host p) eqn:E; cbn; rewrite ?E; cbn; lia.
Qed.

(** Solves [room_inv] for a room that differs from a sound one in fields
    the invariant does not read, or reads through [players] only. *)
Ltac inv_from Hr :=
  let H := fresh in
  pose proof Hr as H; destruct H;
  constructor; cbn; auto.

Lemma start_new_round_sound (code : string) :
  keeps_sound (start_new_round code).
Proof.
  intros w Hw.
  destruct (Dict.get code (game_rooms w)) as [room|] eqn:Hget.
  - destruct (py_getitem (players room) (current_drawer_index room))
      as [drawer|] eqn:Hidx.
    + rewrite (start_new_round_ok _ _ _ _ Hget Hidx). cbn.
      apply sound_set; [exact Hw|].
      inv_from (sound_get _ _ _ Hw Hget).
      * constructor.
      * discriminate.
    + now rewrite (start_new_round_raises _ _ _ Hget Hidx).
  - now rewrite (start_new_round_absent _ _ Hget).
Qed.

Lemma end_game_sound (code : string) : keeps_sound (end_game code).
Proof.
  intros w Hw.
  destruct (Dict.get code (game_rooms w)) as [room|] eqn:Hget.
  - rewrite (end_game_ok _ _ _ Hget). cbn.
    apply sound_set; [exact Hw|].
    apply (room_inv_seats code room); [exact (sound_get _ _ _ Hw Hget) | | cbn; lia ..].
    constructor; cbn; rewrite ?map_map; reflexivity.
  - now rewrite (end_game_absent _ _ Hget).
Qed.

Lemma end_round_sound (code : string) : keeps_sound (end_round code).
Proof.
  intros w Hw.
  destruct (Dict.get code (game_rooms w)) as [room|] eqn:Hget.
  - destruct (end_round_seats w code room Hget)
      as (room' & Hrooms & Hseats & Hidx & Hround).
    pose proof (sound_get _ _ _ Hw Hget) as Hr.
    unfold sound. rewrite Hrooms.
    apply sound_set; [exact Hw|].
    apply (room_inv_seats code room); auto.
    + apply Hidx. now destruct Hr.
    + apply Hround. now destruct Hr.
  - unfold end_round, bind, get_rooms. now rewrite Hget.
Qed.

Lemma round_timer_sound (code : string) : keeps_sound (round_timer code).
Proof.
  intros w Hw. unfold round_timer, bind, get_rooms.
  destruct (Dict.mem code (game_rooms w)); [now apply end_round_sound | exact Hw].
Qed.

Lemma end_round_resumed_sound (code : string) :
  keeps_sound (end_round_resumed code).
Proof.
  intros w Hw. unfold end_round_resumed, bind, get_rooms.
  destruct (Dict.mem code (game_rooms w));
    [now apply start_new_round_sound | exact Hw].
Qed.

Lemma create_room_sound (sid' code username' : string) :
  keeps_sound (create_room sid' code username').
Proof.
  intros w Hw. unfold create_room, bind at 1, get_rooms.
  destruct (Dict.mem code (game_rooms w)); [exact Hw|].
  cbn. apply sound_set; [exact Hw|].
  constructor; cbn; try discriminate; try lia; auto; constructor.
Qed.

Lemma join_room_sound (sid' code username' : string) :
  keeps_sound (join_room sid' code username').
Proof.
  intros w Hw. unfold join_room, bind at 1, get_rooms.
  destruct (Dict.get code (game_rooms w)) as [room|] eqn:Hget; [|exact Hw].
  destruct (Z.geb_spec (len (players room)) (max_players room)) as [|Hfree];
    [exact Hw|].
  destruct (game_started room); [exact Hw|].
  cbn. apply sound_set; [exact Hw|].
  inv_from (sound_get _ _ _ Hw Hget).
  - intros Hnil. apply app_eq_nil in Hnil. destruct Hnil; discriminate.
  - unfold len in *. rewrite length_app. cbn. lia.
  - rewrite filter_app, length_app. cbn. lia.
Qed.

Lemma start_game_sound (sid' code : string) :
  keeps_sound (start_game sid' code).
Proof.
  intros w Hw. unfold start_game, bind at 1, get_rooms.
  destruct (Dict.get code (game_rooms w)) as [room|] eqn:Hget; [|exact Hw].
  destruct (negb _); [exact Hw|].
  destruct (len (players room) <? 2); [exact Hw|].
  cbv beta iota delta [bind store put_rooms emit sio].
  apply start_new_round_sound. unfold sound. cbn.
  apply sound_set; [exact Hw|].
  inv_from (sound_get _ _ _ Hw Hget). lia.
Qed.

Lemma disconnect_room_sound (sid' code : string) :
  keeps_sound (disconnect_room sid' code).
Proof.
  intros w Hw. unfold disconnect_room, bind at 1, get_rooms.
  destruct (Dict.get code (game_rooms w)) as [room|] eqn:Hget; [|exact Hw].
  pose proof (sound_get _ _ _ Hw Hget) as Hr.
  cbv beta iota zeta delta [bind store put_rooms emit sio del_room ret].
  cbn [players Upd.set_players current_drawer_sid game_started game_rooms].
  set (remaining := filter (fun p => negb (String.eqb (sid p) sid'))
                           (players room)).
  assert (Hinv : remaining <> [] ->
                 room_inv code (Upd.set_players remaining room)).
  { intros Hsome. inv_from Hr.
    - pose proof (filter_length_le
                    (fun p => negb (String.eqb (sid p) sid')) (players room)).
      fold remaining in H. unfold len in *. lia.
    - etransitivity; [apply hosts_filter | assumption]. }
  destruct (Z.ltb_spec (len remaining) (len (players room))) as [Hless|Hsame].
  - destruct (Z.eqb_spec (len remaining) 0) as [Hzero|Hpos].
    + cbn. unfold sound. cbn.
      rewrite del_set by (unfold Dict.mem; now rewrite Hget).
      now apply sound_del.
    + assert (Hsome : remaining <> []).
      { intros E. rewrite E in Hpos. now apply Hpos. }
      destruct (_ && _).
      * apply start_new_round_sound. unfold sound. cbn.
        apply sound_set; auto.
      * unfold sound. cbn. apply sound_set; auto.
  - cbn. unfold sound. cbn. apply sound_set; [exact Hw|]. apply Hinv.
    intros E. rewrite E in Hsame. destruct Hr as [_ Hne _ _ _ _ _ _ _ _ _].
    unfold len in Hsame. cbn in Hsame.
    destruct (players room); [now apply Hne | cbn in Hsame; lia].
Qed.

Lemma for_each_sound {A : Type} (l : list A) (body : A -> M unit) :
  (forall x, keeps_sound (body x)) -> keeps_sound (for_each l body).
Proof.
  intros Hbody. induction l as [|x l IH]; intros w Hw; cbn; [exact Hw|].
  unfold bind. specialize (Hbody x w Hw).
  destruct (body x w) as [[] w'|e w']; cbn in Hbody; [now apply IH | exact Hbody].
Qed.

Lemma disconnect_sound (sid' : string) : keeps_sound (disconnect sid').
Proof.
  intros w Hw. unfold disconnect, bind at 1, get_rooms.
  apply for_each_sound; [|exact Hw].
  intros code. apply disconnect_room_sound.
Qed.

Lemma draw_stroke_sound (sid' code : string) (stroke_data : Stroke) :
  keeps_sound (draw_stroke sid' code stroke_data).
Proof.
  intros w Hw. unfold draw_stroke, bind at 1, get_rooms.
  destruct (Dict.get code (game_rooms w)) as [room|] eqn:Hget; [|exact Hw].
  destruct (negb _); [exact Hw|].
  unfold bind, store, put_rooms.
  apply for_each_sound.
  - intros p w' Hw'. destruct (negb _); exact Hw'.
  - unfold sound. cbn. apply sound_set; [exact Hw|].
    inv_from (sound_get _ _ _ Hw Hget).
Qed.

Lemma clear_canvas_sound (sid' code : string) :
  keeps_sound (clear_canvas sid' code).
Proof.
  intros w Hw. unfold clear_canvas, bind at 1, get_rooms.
  destruct (Dict.get code (game_rooms w)) as [room|] eqn:Hget; [|exact Hw].
  destruct (negb _); [exact Hw|].
  cbn. unfold sound. cbn. apply sound_set; [exact Hw|].
  inv_from (sound_get _ _ _ Hw Hget).
Qed.

Lemma send_message_sound (sid' code message : string) :
  keeps_sound (send_message sid' code message).
Proof.
  intros w Hw. unfold send_message, bind at 1, get_rooms.
  destruct (negb _); [exact Hw|].
  destruct (find _ _); exact Hw.
Qed.

Lemma send_guess_sound (sid' code text : string) :
  keeps_sound (send_guess sid' code text).
Proof.
  intros w Hw.
  cbv beta iota zeta delta [send_guess bind get_rooms store put_rooms emit
                            sio now or_raise ret raise].
  destruct (Dict.get code (game_rooms w)) as [room|] eqn:Hget; [|exact Hw].
  pose proof (sound_get _ _ _ Hw Hget) as Hr.
  destruct (opt_is _ _) eqn:Hdrawer; [exact Hw|].
  destruct (mem_sid _ _) eqn:Hguessed; [exact Hw|].
  destruct (find _ _) as [player|]; [|exact Hw].
  destruct (current_word room) as [word|] eqn:Hword; [|exact Hw].
  destruct (is_correct _ _); [|exact Hw].
  cbn [clock game_rooms sio_log tasks rng draws Upd.set_players players
       Upd.set_guessed_players guessed_players round_start_time].
  assert (Hinv1 : room_inv code
                    (Upd.set_guessed_players (guessed_players room ++ [sid'])
                                             room)).
  { inv_from Hr.
    - apply NoDup_app; [assumption | repeat constructor; auto |].
      intros x Hx [<-|[]]. now apply mem_sid_false in Hguessed.
    - intros s Hs Hin. apply in_app_or in Hin. destruct Hin as [Hin|[<-|[]]].
      + now apply (inv_drawer_no_guess0 s).
      + apply opt_is_true in Hs. congruence. }
  destruct (round_start_time room) as [start|].
  2:{ cbn. unfold sound. cbn. apply sound_set; assumption. }
  assert (Hinv2 : forall pts,
             room_inv code
               (Upd.set_players (add_score sid' pts (players room))
                  (Upd.set_guessed_players (guessed_players room ++ [sid'])
                                           room))).
  { intros pts.
    apply (room_inv_seats code _ _ Hinv1); [|cbn; now destruct Hr ..].
    constructor; cbn; auto using add_score_sids, add_score_names,
                                 add_score_hosts. }
  destruct (_ =? _).
  - apply end_round_sound. unfold sound. cbn.
    apply sound_set; [apply sound_set|]; first [exact Hw | exact Hinv1 | apply Hinv2].
  - cbn. unfold sound. cbn.
    apply sound_set; [apply sound_set|]; first [exact Hw | exact Hinv1 | apply Hinv2].
Qed.

Lemma handle_sound (i : Input) : keeps_sound (handle i).
Proof.
  destruct i; cbn [handle];
    auto using disconnect_sound, create_room_sound,
      join_room_sound, start_game_sound, draw_stroke_sound,
      clear_canvas_sound, send_guess_sound, send_message_sound.
  - intros w Hw. exact Hw.
  - intros w Hw. unfold bind, take_task.
    destruct (nth_error (tasks w) n) as [t|]; [|exact Hw].
    destruct (Qle_bool (wake_time t) (clock w)); [|exact Hw].
    destruct t; cbn [resume];
      [apply round_timer_sound | apply end_round_resumed_sound]; exact Hw.
Qed.

Lemma step_sound (w : World) (ti : Q * Input) : sound w -> sound (step w ti).
Proof.
  intros Hw. unfold step, bind, set_clock. apply handle_sound. exact Hw.
Qed.

(** The rooms of every run are sound. *)
Lemma run_sound (r : nat -> nat) (trace : list (Q * Input)) :
  sound (run (boot r) trace).
Proof.
  assert (Hboot : sound (boot r)) by (split; constructor).
  unfold run. revert Hboot. generalize (boot r).
  induction trace as [|ti trace IH]; intros w Hw; cbn; [exact Hw|].
  apply IH. now apply step_sound.
Qed.

(** * Further properties of the handlers *)

(** ** Creating a room *)

(** X1. [create_room] with a code that is not registered registers, after
    the rooms there are, a room with the caller as its only player and
    host, score 0, 8 seats, 3 rounds, not started and without drawer, word
    or strokes; the other rooms stay, and the caller enters the Socket.IO
    room and is sent [room_created]. With a code in use nothing changes and
    the caller is sent one [error]. *)
Theorem create_room_registers (w : World) (sid' code username' : string) :
  (Dict.get code (game_rooms w) = None ->
   exists w',
     create_room sid' code username' w = Ok tt w'
     /\ Dict.get code (game_rooms w')
        = Some (mkRoom code [mkPlayer sid' username' 0 true] 8 false 0 3 0
                       None None [] [] None)
     /\ Dict.keys (game_rooms w') = Dict.keys (game_rooms w) ++ [code]
     /\ (forall c, c <> code ->
           Dict.get c (game_rooms w') = Dict.get c (game_rooms w))
     /\ sio_log w'
        = sio_log w
          ++ [EnterRoom sid' code;
              Emit (Ev.room_created code [mkPlayer sid' username' 0 true])
                   (ToSid sid')]
     /\ tasks w' = tasks w)
  /\ (Dict.get code (game_rooms w) <> None ->
      create_room sid' code username' w
      = Ok tt (extend w (game_rooms w)
                 [Emit (Ev.error "Room already exists") (ToSid sid')] [] 0)).
Proof.
  split.
  - intros Hnone. unfold create_room, bind at 1, get_rooms, Dict.mem.
    rewrite Hnone. eexists. split; [reflexivity|]. cbn.
    split; [apply get_set_same|].
    split; [rewrite keys_set; unfold Dict.mem; now rewrite Hnone|].
    split; [intros c Hc; apply get_set_other; congruence|].
    split; [now rewrite <- app_assoc | reflexivity].
  - intros Hsome. unfold create_room, bind at 1, get_rooms, Dict.mem.
    destruct (Dict.get code (game_rooms w)); [|congruence].
    unfold extend, emit, sio. now rewrite app_nil_r.
Qed.

(** A fresh code in the lobby world, and the code ABCD that is in use. *)
Lemma create_room_registers_witness :
  (Dict.get "WXYZ" (game_rooms Scenario.lobby) = None
   /\ exists w',
        create_room "sidD" "WXYZ" "Dave" Scenario.lobby = Ok tt w'
        /\ Dict.keys (game_rooms w') = ["ABCD"; "WXYZ"])
  /\ (Dict.get "ABCD" (game_rooms Scenario.lobby) <> None
      /\ create_room "sidD" "ABCD" "Dave" Scenario.lobby
         = Ok tt (extend Scenario.lobby (game_rooms Scenario.lobby)
                    [Emit (Ev.error "Room already exists") (ToSid "sidD")]
                    [] 0)).
Proof.
  assert (Hfresh : Dict.get "WXYZ" (game_rooms Scenario.lobby) = None)
    by reflexivity.
  assert (Hused : Dict.get "ABCD" (game_rooms Scenario.lobby) <> None)
    by discriminate.
  destruct (create_room_registers Scenario.lobby "sidD" "WXYZ" "Dave")
    as [Hnew _].
  destruct (create_room_registers Scenario.lobby "sidD" "ABCD" "Dave")
    as [_ Hold].
  split; (split; [assumption|]).
  - destruct (Hnew Hfresh) as (w' & Hrun & _ & Hkeys & _).
    exists w'. split; [exact Hrun | exact Hkeys].
  - exact (Hold Hused).
Defined.

(** ** Drawing *)

(** X2. [draw_stroke] does nothing at all unless the room exists and the
    sender is its current drawer. For the drawer the stroke is appended to
    the strokes of the room and [stroke_drawn] is sent, in roster order, to
    each player whose sid is not the drawer's, and to nobody else; the
    players, the round and the sleeping coroutines stay. *)
Theorem draw_stroke_relays (w : World) (sid' code : string)
    (stroke_data : Stroke) :
  ((Dict.get code (game_rooms w) = None
    \/ exists room, Dict.get code (game_rooms w) = Some room
                    /\ current_drawer_sid room <> Some sid') ->
   draw_stroke sid' code stroke_data w = Ok tt w)
  /\ (forall room,
        Dict.get code (game_rooms w) = Some room ->
        current_drawer_sid room = Some sid' ->
        draw_stroke sid' code stroke_data w
        = Ok tt
             (extend w
                (Dict.set code
                   (Upd.set_strokes (strokes room ++ [stroke_data]) room)
                   (game_rooms w))
                (map (fun p => Emit (Ev.stroke_drawn stroke_data)
                                    (ToSid (sid p)))
                     (filter (fun p => negb (String.eqb (sid p) sid'))
                             (players room)))
                [] 0)
        /\ ~ In (Emit (Ev.stroke_drawn stroke_data) (ToSid sid'))
                (map (fun p => Emit (Ev.stroke_drawn stroke_data)
                                    (ToSid (sid p)))
                     (filter (fun p => negb (String.eqb (sid p) sid'))
                             (players room)))).
Proof.
  split.
  - unfold draw_stroke, bind at 1, get_rooms.
    intros [Hnone | (room & Hget & Hother)].
    + now rewrite Hnone.
    + rewrite Hget. destruct (opt_is (current_drawer_sid room) sid') eqn:E;
        [|reflexivity].
      apply opt_is_true in E. contradiction.
  - intros room Hget Hdrawer.
    apply opt_is_true in Hdrawer.
    split.
    + unfold draw_stroke, bind at 1, get_rooms.
      rewrite Hget, Hdrawer. cbn [negb].
      unfold bind at 1, store, put_rooms. unfold emit.
      rewrite (for_each_emit
                 (fun p => negb (String.eqb (sid p) sid'))
                 (fun p => Emit (Ev.stroke_drawn stroke_data) (ToSid (sid p)))).
      unfold extend. cbn. now rewrite app_nil_r.
    + intros Hin. apply in_map_iff in Hin. destruct Hin as (p & [= Hp] & Hf).
      apply filter_In in Hf. destruct Hf as [_ Hf].
      rewrite Hp, String.eqb_refl in Hf. discriminate.
Qed.

(** Alice draws in the room of three; Bob, who does not draw, is ignored. *)
Lemma draw_stroke_relays_witness :
  (Dict.get "ABCD" (game_rooms Scenario.three_playing)
   = Some Scenario.room_three_playing
   /\ current_drawer_sid Scenario.room_three_playing <> Some "sidB"
   /\ draw_stroke "sidB" "ABCD" (mkStroke [(1, 2); (3, 4)] "#000000" 3)
                  Scenario.three_playing
      = Ok tt Scenario.three_playing)
  /\ (current_drawer_sid Scenario.room_three_playing = Some "sidA"
      /\ sio_log (world_of (draw_stroke "sidA" "ABCD"
                              (mkStroke [(1, 2); (3, 4)] "#000000" 3)
                              Scenario.three_playing))
         = sio_log Scenario.three_playing
           ++ [Emit (Ev.stroke_drawn (mkStroke [(1, 2); (3, 4)] "#000000" 3))
                    (ToSid "sidB");
               Emit (Ev.stroke_drawn (mkStroke [(1, 2); (3, 4)] "#000000" 3))
                    (ToSid "sidC")]).
Proof.
  assert (Hget : Dict.get "ABCD" (game_rooms Scenario.three_playing)
                 = Some Scenario.room_three_playing) by reflexivity.
  assert (Hbob : current_drawer_sid Scenario.room_three_playing <> Some "sidB")
    by discriminate.
  split.
  - split; [exact Hget|]. split; [exact Hbob|].
    apply (draw_stroke_relays Scenario.three_playing "sidB" "ABCD").
    right. exists Scenario.room_three_playing. split; assumption.
  - split; [reflexivity|].
    destruct (draw_stroke_relays Scenario.three_playing "sidA" "ABCD"
                (mkStroke [(1, 2); (3, 4)] "#000000" 3)) as [_ Hdraw].
    destruct (Hdraw Scenario.room_three_playing Hget eq_refl) as [Hrun _].
    rewrite Hrun. reflexivity.
Defined.

(** X3. [clear_canvas] does nothing at all unless the room exists and the
    sender is its current drawer. For the drawer the strokes of the room
    become empty, whatever was drawn, and [canvas_cleared] goes to the
    room: a stroke drawn and then cleared leaves no stroke, and the players
    are as before. *)
Theorem clear_canvas_empties (w : World) (sid' code : string) :
  ((Dict.get code (game_rooms w) = None
    \/ exists room, Dict.get code (game_rooms w) = Some room
                    /\ current_drawer_sid room <> Some sid') ->
   clear_canvas sid' code w = Ok tt w)
  /\ (forall room,
        Dict.get code (game_rooms w) = Some room ->
        current_drawer_sid room = Some sid' ->
        clear_canvas sid' code w
        = Ok tt
             (extend w
                (Dict.set code (Upd.set_strokes [] room) (game_rooms w))
                [Emit Ev.canvas_cleared (ToRoom code)] [] 0)
        /\ forall stroke_data,
             exists room',
               Dict.get code
                 (game_rooms
                    (world_of
                       (clear_canvas sid' code
                          (world_of (draw_stroke sid' code stroke_data w)))))
               = Some room'
               /\ strokes room' = []
               /\ players room' = players room
               /\ current_drawer_sid room' = Some sid').
Proof.
  assert (Hclear : forall w0 room,
             Dict.get code (game_rooms w0) = Some room ->
             current_drawer_sid room = Some sid' ->
             clear_canvas sid' code w0
             = Ok tt
                  (extend w0
                     (Dict.set code (Upd.set_strokes [] room) (game_rooms w0))
                     [Emit Ev.canvas_cleared (ToRoom code)] [] 0)).
  { intros w0 room Hget Hdrawer. apply opt_is_true in Hdrawer.
    unfold clear_canvas, bind at 1, get_rooms. rewrite Hget, Hdrawer.
    cbn. unfold extend. now rewrite app_nil_r. }
  split.
  - unfold clear_canvas, bind at 1, get_rooms.
    intros [Hnone | (room & Hget & Hother)].
    + now rewrite Hnone.
    + rewrite Hget. destruct (opt_is (current_drawer_sid room) sid') eqn:E;
        [|reflexivity].
      apply opt_is_true in E. contradiction.
  - intros room Hget Hdrawer. split; [now apply Hclear|].
    intros stroke_data.
    assert (Hdraw : draw_stroke sid' code stroke_data w
                    = Ok tt
                         (extend w
                            (Dict.set code
                               (Upd.set_strokes (strokes room ++ [stroke_data])
                                                room)
                               (game_rooms w))
                            (map (fun p => Emit (Ev.stroke_drawn stroke_data)
                                                (ToSid (sid p)))
                                 (filter
                                    (fun p => negb (String.eqb (sid p) sid'))
                                    (players room)))
                            [] 0)).
    { pose proof Hdrawer as Hd. apply opt_is_true in Hd.
      unfold draw_stroke, bind at 1, get_rooms. rewrite Hget, Hd. cbn [negb].
      unfold bind at 1, store, put_rooms. unfold emit.
      rewrite (for_each_emit
                 (fun p => negb (String.eqb (sid p) sid'))
                 (fun p => Emit (Ev.stroke_drawn stroke_data) (ToSid (sid p)))).
      unfold extend. cbn. now rewrite app_nil_r. }
    rewrite Hdraw. cbn [world_of].
    erewrite Hclear; [| cbn; apply get_set_same | exact Hdrawer].
    eexists. cbn. rewrite set_set. split; [apply get_set_same|].
    repeat split. exact Hdrawer.
Qed.

(** Alice, who draws in the room of three, draws a stroke and clears. *)
Lemma clear_canvas_empties_witness :
  Dict.get "ABCD" (game_rooms Scenario.three_playing)
  = Some Scenario.room_three_playing
  /\ current_drawer_sid Scenario.room_three_playing = Some "sidA"
  /\ exists room',
       Dict.get "ABCD"
         (game_rooms
            (world_of
               (clear_canvas "sidA" "ABCD"
                  (world_of (draw_stroke "sidA" "ABCD"
                               (mkStroke [(1, 2)] "#ff0000" 5)
                               Scenario.three_playing)))))
       = Some room'
       /\ strokes room' = []
       /\ players room' = players Scenario.room_three_playing
       /\ current_drawer_sid room' = Some "sidA".
Proof.
  split; [reflexivity|]. split; [reflexivity|].
  destruct (clear_canvas_empties Scenario.three_playing "sidA" "ABCD")
    as [_ Hdrawer].
  destruct (Hdrawer Scenario.room_three_playing eq_refl eq_refl) as [_ Hboth].
  exact (Hboth (mkStroke [(1, 2)] "#ff0000" 5)).
Defined.

(** ** Guesses that are not judged *)

Lemma mem_sid_true (s : string) (l : list string) :
  mem_sid s l = true <-> In s l.
Proof.
  pose proof (mem_sid_false s l) as H.
  destruct (mem_sid s l); split; intros; try reflexivity; try discriminate.
  - destruct (in_dec string_dec s l); [assumption|].
    apply H in n. discriminate.
  - exfalso. now apply H.
Qed.

Lemma find_sid_none (s : string) (ps : list Player) :
  find (has_sid s) ps = None <-> forall p, In p ps -> sid p <> s.
Proof.
  split.
  - intros Hnone p Hp Hsid. pose proof (find_none _ _ Hnone p Hp) as H.
    unfold has_sid in H. rewrite Hsid, String.eqb_refl in H. discriminate.
  - intros Hall. induction ps as [|p ps IH]; cbn; [reflexivity|].
    unfold has_sid at 1. destruct (String.eqb_spec (sid p) s) as [E|_].
    + exfalso. apply (Hall p); [now left | exact E].
    + apply IH. intros q Hq. apply Hall. now right.
Qed.

Lemma send_guess_skips (w : World) (sid' code text : string) :
  (Dict.get code (game_rooms w) = None
   \/ exists room,
        Dict.get code (game_rooms w) = Some room
        /\ (current_drawer_sid room = Some sid'
            \/ In sid' (guessed_players room)
            \/ forall p, In p (players room) -> sid p <> sid')) ->
  send_guess sid' code text w = Ok tt w.
Proof.
  cbv beta iota zeta delta [send_guess bind get_rooms ret].
  intros [Hnone | (room & Hget & Hwhy)].
  - now rewrite Hnone.
  - rewrite Hget.
    destruct (opt_is (current_drawer_sid room) sid') eqn:Hd; [reflexivity|].
    destruct (mem_sid sid' (guessed_players room)) eqn:Hg; [reflexivity|].
    destruct Hwhy as [Hdrawer | [Hin | Hout]].
    + apply opt_is_true in Hdrawer. congruence.
    + apply mem_sid_true in Hin. congruence.
    + apply find_sid_none in Hout. now rewrite Hout.
Qed.

(** X4. [send_guess] does nothing at all, whatever the text, when the room
    does not exist, when the sender is the current drawer, when the sender
    is already among the guessers of the round, or when no player of the
    room has the sender's sid. *)
Theorem send_guess_ignores (w : World) (sid' code text : string) :
  (Dict.get code (game_rooms w) = None
   \/ exists room,
        Dict.get code (game_rooms w) = Some room
        /\ (current_drawer_sid room = Some sid'
            \/ In sid' (guessed_players room)
            \/ forall p, In p (players room) -> sid p <> sid')) ->
  send_guess sid' code text w = Ok tt w.
Proof. exact (send_guess_skips w sid' code text). Qed.

(** Alice guesses while she draws, Bob guesses again, a stranger guesses. *)
Lemma send_guess_ignores_witness :
  Dict.get "ABCD" (game_rooms Scenario.three_playing)
  = Some Scenario.room_three_playing
  /\ current_drawer_sid Scenario.room_three_playing = Some "sidA"
  /\ send_guess "sidA" "ABCD" "cat" Scenario.three_playing
     = Ok tt Scenario.three_playing
  /\ In "sidB" (guessed_players Scenario.room_three_playing)
  /\ send_guess "sidB" "ABCD" "cat" Scenario.three_playing
     = Ok tt Scenario.three_playing
  /\ send_guess "sidZ" "ABCD" "cat" Scenario.three_playing
     = Ok tt Scenario.three_playing.
Proof.
  assert (Hget : Dict.get "ABCD" (game_rooms Scenario.three_playing)
                 = Some Scenario.room_three_playing) by reflexivity.
  assert (Hbob : In "sidB" (guessed_players Scenario.room_three_playing))
    by (left; reflexivity).
  split; [exact Hget|]. split; [reflexivity|].
  split; [|split; [exact Hbob|split]].
  - apply send_guess_ignores. right.
    exists Scenario.room_three_playing. split; [exact Hget|]. now left.
  - apply send_guess_ignores. right.
    exists Scenario.room_three_playing. split; [exact Hget|]. right. now left.
  - apply send_guess_ignores. right.
    exists Scenario.room_three_playing. split; [exact Hget|]. right. right.
    intros p [<-|[<-|[<-|[]]]]; discriminate.
Defined.

(** X5. A guess sent to a room that has no secret yet, by a player of the
    room who is neither the drawer nor among the guessers, raises
    [AttributeError] at [room['current_word'].lower()]; nothing has changed
    by then and nothing is sent. *)
Theorem send_guess_without_word_raises (w : World) (sid' code text : string)
    (room : Room) :
  Dict.get code (game_rooms w) = Some room ->
  current_word room = None ->
  current_drawer_sid room <> Some sid' ->
  ~ In sid' (guessed_players room) ->
  (exists p, In p (players room) /\ sid p = sid') ->
  send_guess sid' code text w = Raise AttributeError w.
Proof.
  intros Hget Hword Hdrawer Hguessed (p & Hp & Hsid).
  cbv beta iota zeta delta [send_guess bind get_rooms ret or_raise raise].
  rewrite Hget.
  destruct (opt_is (current_drawer_sid room) sid') eqn:Hd.
  { apply opt_is_true in Hd. contradiction. }
  apply mem_sid_false in Hguessed. rewrite Hguessed.
  destruct (find (has_sid sid') (players room)) as [player|] eqn:Hfind.
  - now rewrite Hword.
  - exfalso. apply (proj1 (find_sid_none sid' (players room)) Hfind p Hp Hsid).
Qed.

(** Bob guesses in the lobby, before the game is started. *)
Lemma send_guess_without_word_raises_witness :
  Dict.get "ABCD" (game_rooms Scenario.lobby) = Some Scenario.room_lobby
  /\ current_word Scenario.room_lobby = None
  /\ send_guess "sidB" "ABCD" "cat" Scenario.lobby
     = Raise AttributeError Scenario.lobby.
Proof.
  split; [reflexivity|]. split; [reflexivity|].
  apply (send_guess_without_word_raises Scenario.lobby "sidB" "ABCD" "cat"
           Scenario.room_lobby); try reflexivity.
  - discriminate.
  - intros [].
  - exists Scenario.bob. split; [right; left|]; reflexivity.
Defined.

(** ** The end of a round, in full *)

(** What [end_round] does to a room that has a player: it returns, after
    [round_end] and either the end of the game or the wait for the next
    round. *)
Lemma end_round_ok (w : World) (code : string) (room : Room) :
  Dict.get code (game_rooms w) = Some room ->
  players room <> [] ->
  end_round code w
  = Ok tt
       (if current_round (round_closed room) >? max_rounds room then
          extend w
            (Dict.set code (game_reset (round_closed room)) (game_rooms w))
            [Emit (Ev.round_end (current_word room)
                                (players (round_closed room)))
                  (ToRoom code);
             Emit (Ev.game_end
                     (py_sorted score true (players (round_closed room))))
                  (ToRoom code)]
            [] 0
        else
          extend w (Dict.set code (round_closed room) (game_rooms w))
            [Emit (Ev.round_end (current_word room)
                                (players (round_closed room)))
                  (ToRoom code)]
            [NextRound code (clock w + 5)] 0).
Proof.
  intros Hget Hsome.
  cbv beta iota delta [end_round bind get_rooms store put_rooms emit sio now
                       spawn or_raise ret raise].
  rewrite Hget.
  cbn [clock game_rooms sio_log tasks rng draws Upd.set_players players
       current_word current_drawer_index].
  assert (Hlen : len (award_drawer room (award_guessers room))
                 = len (players room)).
  { unfold len. now rewrite award_drawer_length, award_guessers_length. }
  rewrite Hlen. unfold py_mod.
  destruct (Z.eqb_spec (len (players room)) 0) as [Hzero|_].
  { exfalso. unfold len in Hzero. destruct (players room); [auto | discriminate]. }
  cbn [Upd.set_current_drawer_index current_drawer_index].
  fold (next_index room).
  assert (Hplayers : players (round_closed room)
                     = award_drawer room (award_guessers room)).
  { unfold round_closed. cbv zeta. destruct (next_index room =? 0); reflexivity. }
  assert (Hmax : forall r, max_rounds
                   (if next_index room =? 0
                    then Upd.set_current_round (current_round room + 1) r
                    else r) = max_rounds r).
  { intros r. destruct (next_index room =? 0); reflexivity. }
  rewrite Hmax. cbn [max_rounds Upd.set_current_drawer_index Upd.set_players].
  change (if next_index room =? 0
          then Upd.set_current_round
                 (current_round
                    (Upd.set_current_drawer_index (next_index room)
                       (Upd.set_players
                          (award_drawer room (award_guessers room)) room)) + 1)
                 (Upd.set_current_drawer_index (next_index room)
                    (Upd.set_players (award_drawer room (award_guessers room))
                                     room))
          else Upd.set_current_drawer_index (next_index room)
                 (Upd.set_players (award_drawer room (award_guessers room))
                                  room))
    with (round_closed room).
  rewrite Hplayers.
  destruct (current_round (round_closed room) >? max_rounds room).
  - erewrite end_game_ok by (cbn; apply get_set_same).
    unfold extend, game_reset. cbn. rewrite !set_set, Hplayers.
    now rewrite <- !app_assoc, ?app_nil_r.
  - unfold extend. cbn. now rewrite !set_set.
Qed.




Lemma round_closed_fields (r : Room) :
  current_drawer_index (round_closed r) = next_index r
  /\ current_round (round_closed r)
     = (if next_index r =? 0 then current_round r + 1 else current_round r)
  /\ players (round_closed r) = award_drawer r (award_guessers r)
  /\ max_rounds (round_closed r) = max_rounds r
  /\ game_started (round_closed r) = game_started r
  /\ current_word (round_closed r) = current_word r.
Proof.
  unfold round_closed. cbv zeta. destruct (next_index r =? 0); cbn; tauto.
Qed.




Lemma py_getitem_in_range {A : Type} (l : list A) (i : Z) :
  0 <= i < len l ->
  exists x, py_getitem l i = Some x /\ nth_error l (Z.to_nat i) = Some x.
Proof.
  intros Hi. unfold py_getitem. fold (len l).
  destruct (Z.leb_spec 0 i); [|lia]. destruct (Z.ltb_spec i (len l)); [|lia].
  cbn [andb].
  destruct (nth_error l (Z.to_nat i)) as [x|] eqn:E; [eauto|].
  apply nth_error_None in E. unfold len in Hi. lia.
Qed.

Lemma next_index_in_range (r : Room) :
  players r <> [] -> 0 <= next_index r < len (players r).
Proof.
  intros Hsome. apply Z.mod_pos_bound. unfold len.
  destruct (players r); [contradiction | cbn; lia].
Qed.

(** X7. When a round ends in a room that has players and the game goes on,
    [end_round] sends [round_end], moves the drawer index one seat on, back
    to the first seat after the last, counts one round more exactly when it
    came back to the first seat, and returns, leaving the rest of the
    coroutine asleep for 5 seconds. When that wakes up, at whatever time and
    after whatever else happened, in a room that still has the sids of its
    players in the same seats and the drawer index [end_round] left, the
    next round opens: the player on that seat draws, the guessers and the
    strokes are empty, the round starts at that time, the new drawer is
    sent [new_round] with the round the room then counts, and a deadline
    timer is set 60 seconds later. *)
Theorem end_round_passes_the_pen (w : World) (code : string) (room : Room) :
  let seat := (current_drawer_index room + 1) mod len (players room) in
  let round :=
    if seat =? 0 then current_round room + 1 else current_round room in
  Dict.get code (game_rooms w) = Some room ->
  players room <> [] ->
  round <= max_rounds room ->
  exists w1 room1,
    end_round code w = Ok tt w1
    /\ tasks w1 = tasks w ++ [NextRound code (clock w + 5)]
    /\ sio_log w1
       = sio_log w
         ++ [Emit (Ev.round_end (current_word room)
                     (award_drawer room (award_guessers room)))
                  (ToRoom code)]
    /\ Dict.get code (game_rooms w1) = Some room1
    /\ current_drawer_index room1 = seat
    /\ current_round room1 = round
    /\ map sid (players room1) = map sid (players room)
    /\ forall (w' : World) (room' : Room) (t : Q),
         Dict.get code (game_rooms w') = Some room' ->
         map sid (players room') = map sid (players room) ->
         current_drawer_index room' = seat ->
         exists w2 room2 drawer rest,
           (set_clock t ;; end_round_resumed code) w' = Ok tt w2
           /\ Dict.get code (game_rooms w2) = Some room2
           /\ current_drawer_index room2 = seat
           /\ current_round room2 = current_round room'
           /\ players room2 = players room'
           /\ nth_error (players room') (Z.to_nat seat) = Some drawer
           /\ nth_error (map sid (players room)) (Z.to_nat seat)
              = Some (sid drawer)
           /\ current_drawer_sid room2 = Some (sid drawer)
           /\ guessed_players room2 = []
           /\ strokes room2 = []
           /\ round_start_time room2 = Some t
           /\ sio_log w2
              = sio_log w'
                ++ Emit (Ev.new_round (current_round room') (username drawer)
                           (sid drawer) (next_word w')
                           (PyStr.len (next_word w')))
                        (ToSid (sid drawer))
                   :: rest
           /\ tasks w2 = tasks w' ++ [RoundTimer code (t + 60)].
Proof.
  intros seat round Hget Hsome Hgoes.
  destruct (round_closed_fields room)
    as (Hidx & Hround & Hplayers & Hmax & _ & _).
  fold (next_index room) in seat. fold seat in Hround. fold round in Hround.
  rewrite (end_round_ok w code room Hget Hsome).
  destruct (Z.gtb_spec (current_round (round_closed room)) (max_rounds room))
    as [Hover|_]; [lia|].
  eexists _, (round_closed room). split; [reflexivity|].
  split; [reflexivity|].
  split; [unfold extend; cbn [sio_log]; now rewrite Hplayers|].
  split; [cbn [game_rooms extend]; apply get_set_same|].
  split; [exact Hidx|]. split; [exact Hround|].
  split; [rewrite Hplayers; apply (awards_keep room sid add_score_sids)|].
  intros w' room' t Hget' Hsids Hseat'.
  assert (Hseat : 0 <= current_drawer_index room' < len (players room')).
  { rewrite Hseat'. unfold len.
    rewrite <- (length_map sid (players room')), Hsids, length_map.
    now apply next_index_in_range. }
  destruct (py_getitem_in_range _ _ Hseat) as (drawer & Hitem & Hnth).
  rewrite Hseat' in Hnth.
  assert (Hresume : (set_clock t ;; end_round_resumed code) w'
                    = start_new_round code (world_of (set_clock t w'))).
  { unfold bind at 1, set_clock. unfold end_round_resumed, bind at 1, get_rooms.
    cbn [game_rooms world_of]. unfold Dict.mem. now rewrite Hget'. }
  rewrite Hresume.
  rewrite (start_new_round_ok (world_of (set_clock t w')) code room' drawer
             Hget' Hitem).
  eexists _, _, drawer, _. split; [reflexivity|].
  split; [cbn [game_rooms extend]; apply get_set_same|].
  split; [exact Hseat'|]. split; [reflexivity|]. split; [reflexivity|].
  split; [exact Hnth|].
  split; [now rewrite <- Hsids, nth_error_map, Hnth|].
  repeat (split; [reflexivity|]).
  split; reflexivity.
Qed.

(** The first round of Alice, Bob and Carol times out; Bob guesses late,
    while the next round waits, and still the pen passes to him. *)
Lemma end_round_passes_the_pen_witness :
  Dict.get "ABCD" (game_rooms Scenario.three_started)
  = Some Scenario.room_three_started
  /\ players Scenario.room_three_started <> []
  /\ 1 <= max_rounds Scenario.room_three_started
  /\ exists w1 room1,
       end_round "ABCD" Scenario.three_started = Ok tt w1
       /\ Dict.get "ABCD" (game_rooms w1) = Some room1
       /\ current_drawer_index room1 = 1
       /\ current_round room1 = 1
       /\ (exists w2 room2,
             (set_clock 67%Q ;; end_round_resumed "ABCD") w1 = Ok tt w2
             /\ Dict.get "ABCD" (game_rooms w2) = Some room2
             /\ current_drawer_index room2 = 1
             /\ current_round room2 = 1
             /\ current_drawer_sid room2 = Some "sidB")
       /\ exists room' w2 room2,
            let w' := world_of ((set_clock 64%Q ;;
                                 send_guess "sidB" "ABCD" "cat") w1) in
            Dict.get "ABCD" (game_rooms w') = Some room'
            /\ guessed_players room' = ["sidB"]
            /\ (set_clock 67%Q ;; end_round_resumed "ABCD") w' = Ok tt w2
            /\ Dict.get "ABCD" (game_rooms w2) = Some room2
            /\ current_drawer_sid room2 = Some "sidB"
            /\ guessed_players room2 = [].
Proof.
  assert (Hsome : players Scenario.room_three_started <> []) by discriminate.
  assert (Hgoes : 1 <= max_rounds Scenario.room_three_started)
    by (vm_compute; discriminate).
  split; [reflexivity|]. split; [exact Hsome|]. split; [exact Hgoes|].
  destruct (end_round_passes_the_pen Scenario.three_started "ABCD"
              Scenario.room_three_started eq_refl Hsome Hgoes)
    as (w1 & room1 & Hend & _ & _ & Hget1 & Hidx1 & Hround1 & Hsids1 & Hnext).
  exists w1, room1.
  split; [exact Hend|]. split; [exact Hget1|].
  split; [exact Hidx1|]. split; [exact Hround1|].
  split.
  - destruct (Hnext w1 room1 67%Q Hget1 Hsids1 Hidx1)
      as (w2 & room2 & drawer & rest & Hrun & Hget2 & Hidx2 & Hround2 & _
          & _ & Hsid & Hdrawer & _).
    exists w2, room2. split; [exact Hrun|]. split; [exact Hget2|].
    split; [exact Hidx2|]. split; [now rewrite Hround2|].
    rewrite Hdrawer. symmetry. exact Hsid.
  - assert (Hw1 : w1 = world_of (end_round "ABCD" Scenario.three_started))
      by now rewrite Hend.
    set (w' := world_of ((set_clock 64%Q ;; send_guess "sidB" "ABCD" "cat")
                           w1)).
    assert (Hroom : exists room',
               Dict.get "ABCD" (game_rooms w') = Some room'
               /\ guessed_players room' = ["sidB"]
               /\ map sid (players room')
                  = map sid (players Scenario.room_three_started)
               /\ current_drawer_index room' = 1).
    { subst w'. rewrite Hw1. eexists. vm_compute. repeat split; reflexivity. }
    destruct Hroom as (room' & Hget' & Hguessed' & Hsids' & Hidx').
    destruct (Hnext w' room' 67%Q Hget' Hsids' Hidx')
      as (w2 & room2 & drawer & rest & Hrun & Hget2 & _ & _ & _
          & _ & Hsid & Hdrawer & Hguessed & _).
    exists room', w2, room2. cbv zeta. fold w'.
    split; [exact Hget'|]. split; [exact Hguessed'|].
    split; [exact Hrun|]. split; [exact Hget2|].
    split; [|exact Hguessed].
    rewrite Hdrawer. symmetry. exact Hsid.
Defined.

(** X8. When a round ends in a room that has players and the round counter
    passes [max_rounds], [end_round] ends the game at once: [round_end] is
    followed by [game_end] with the players by descending score after the
    awards of the last round, no next round is scheduled, and the room is
    back in the lobby with scores 0, round 0 and drawer index 0. The secret
    and the drawer sid of the last round stay in the room. *)
Theorem end_round_ends_game (w : World) (code : string) (room : Room) :
  let seat := (current_drawer_index room + 1) mod len (players room) in
  let round :=
    if seat =? 0 then current_round room + 1 else current_round room in
  Dict.get code (game_rooms w) = Some room ->
  players room <> [] ->
  round > max_rounds room ->
  exists w1 room1 board,
    end_round code w = Ok tt w1
    /\ sio_log w1
       = sio_log w
         ++ [Emit (Ev.round_end (current_word room)
                     (award_drawer room (award_guessers room)))
                  (ToRoom code);
             Emit (Ev.game_end board) (ToRoom code)]
    /\ Permutation board (award_drawer room (award_guessers room))
    /\ StronglySorted (fun a b => score b <= score a) board
    /\ tasks w1 = tasks w
    /\ Dict.get code (game_rooms w1) = Some room1
    /\ game_started room1 = false
    /\ current_round room1 = 0
    /\ current_drawer_index room1 = 0
    /\ Forall (fun p => score p = 0) (players room1)
    /\ map sid (players room1) = map sid (players room)
    /\ current_word room1 = current_word room
    /\ current_drawer_sid room1 = current_drawer_sid room.
Proof.
  intros seat round Hget Hsome Hover.
  destruct (round_closed_fields room)
    as (Hidx & Hround & Hplayers & Hmax & _ & Hword).
  fold (next_index room) in seat. fold seat in Hround. fold round in Hround.
  destruct (py_sorted_reverse score (award_drawer room (award_guessers room)))
    as (Hperm & Hsorted & _).
  rewrite (end_round_ok w code room Hget Hsome).
  destruct (Z.gtb_spec (current_round (round_closed room)) (max_rounds room))
    as [_|Hno]; [|lia].
  eexists _, _, _. split; [reflexivity|].
  split; [unfold extend; cbn [sio_log]; rewrite Hplayers; reflexivity|].
  split; [exact Hperm|]. split; [exact Hsorted|].
  split; [unfold extend; cbn [tasks]; apply app_nil_r|].
  split; [cbn [game_rooms extend]; apply get_set_same|].
  repeat (split; [reflexivity|]).
  split; [cbn; apply Forall_map, Forall_forall; reflexivity|].
  split.
  { cbn. rewrite map_map. cbn. rewrite Hplayers.
    apply (awards_keep room sid add_score_sids). }
  split; [exact Hword|].
  unfold round_closed. cbv zeta. destruct (next_index room =? 0); reflexivity.
Qed.

(** The deadline of the last round of Alice and Bob passes. *)
Lemma end_round_ends_game_witness :
  Dict.get "ABCD" (game_rooms Scenario.last_round)
  = Some Scenario.room_last_round
  /\ players Scenario.room_last_round <> []
  /\ 4 > max_rounds Scenario.room_last_round
  /\ exists w1 room1 board,
       end_round "ABCD" Scenario.last_round = Ok tt w1
       /\ sio_log w1
          = sio_log Scenario.last_round
            ++ [Emit (Ev.round_end (Some "cat") [Scenario.alice; Scenario.bob])
                     (ToRoom "ABCD");
                Emit (Ev.game_end board) (ToRoom "ABCD")]
       /\ tasks w1 = tasks Scenario.last_round
       /\ Dict.get "ABCD" (game_rooms w1) = Some room1
       /\ game_started room1 = false
       /\ current_word room1 = Some "cat".
Proof.
  assert (Hsome : players Scenario.room_last_round <> []) by discriminate.
  assert (Hover : 4 > max_rounds Scenario.room_last_round) by reflexivity.
  split; [reflexivity|]. split; [exact Hsome|]. split; [exact Hover|].
  destruct (end_round_ends_game Scenario.last_round "ABCD"
              Scenario.room_last_round eq_refl Hsome Hover)
    as (w1 & room1 & board & Hend & Hlog & _ & _ & Htasks & Hget & Hst & _
        & _ & _ & _ & Hword & _).
  exists w1, room1, board.
  split; [exact Hend|]. split; [exact Hlog|]. split; [exact Htasks|].
  split; [exact Hget|]. split; [exact Hst | exact Hword].
Defined.

(** ** Every run of the server *)

(** X9. In every run, whatever the events and their order: no two rooms
    are registered under one code; a room is registered under its own
    [room_code]; it has at least one player and at most 8, which is its
    [max_players]; it plays 3 rounds; it has at most one host; and its
    drawer index and round counter are not negative. *)
Theorem run_rooms_well_formed (r : nat -> nat) (trace : list (Q * Input)) :
  NoDup (Dict.keys (game_rooms (run (boot r) trace)))
  /\ forall code room,
       Dict.get code (game_rooms (run (boot r) trace)) = Some room ->
       room_code room = code
       /\ 1 <= len (players room) <= 8
       /\ max_players room = 8
       /\ max_rounds room = 3
       /\ (List.length (filter is_host (players room)) <= 1)%nat
       /\ 0 <= current_drawer_index room
       /\ 0 <= current_round room.
Proof.
  destruct (run_sound r trace) as [Hnd Hall]. split; [exact Hnd|].
  intros code room Hget.
  destruct (sound_get _ _ _ (conj Hnd Hall) Hget).
  repeat split; try assumption; try lia.
  unfold len. destruct (players room); [contradiction | cbn; lia].
Qed.

(** The room of three in the middle of its first round. *)
Lemma run_rooms_well_formed_witness :
  Dict.get "ABCD" (game_rooms Scenario.three_playing)
  = Some Scenario.room_three_playing
  /\ 1 <= len (players Scenario.room_three_playing) <= 8
  /\ (List.length (filter is_host (players Scenario.room_three_playing))
      <= 1)%nat.
Proof.
  split; [reflexivity|].
  destruct (run_rooms_well_formed Scenario.first_word
              [ (0, InCreateRoom "sidA" "ABCD" "Alice");
                (1, InJoinRoom "sidB" "ABCD" "Bob");
                (1, InJoinRoom "sidC" "ABCD" "Carol");
                (2, InStartGame "sidA" "ABCD");
                (4, InSendGuess "sidB" "ABCD" "cat") ]%Q) as [_ Hrooms].
  destruct (Hrooms "ABCD" Scenario.room_three_playing eq_refl)
    as (_ & Hlen & _ & _ & Hhosts & _).
  split; [exact Hlen | exact Hhosts].
Defined.

(** X10. In every run, in every room: nobody is among the guessers of the
    round twice, the current drawer is not among them, and a room that has
    a secret has the start time of its round. *)
Theorem run_guessers_sound (r : nat -> nat) (trace : list (Q * Input))
    (code : string) (room : Room) :
  Dict.get code (game_rooms (run (boot r) trace)) = Some room ->
  NoDup (guessed_players room)
  /\ (forall s, current_drawer_sid room = Some s ->
        ~ In s (guessed_players room))
  /\ (current_word room <> None -> round_start_time room <> None).
Proof.
  intros Hget. destruct (sound_get _ _ _ (run_sound r trace) Hget).
  repeat split; assumption.
Qed.

Lemma run_guessers_sound_witness :
  Dict.get "ABCD" (game_rooms Scenario.three_playing)
  = Some Scenario.room_three_playing
  /\ NoDup (guessed_players Scenario.room_three_playing)
  /\ ~ In "sidA" (guessed_players Scenario.room_three_playing).
Proof.
  split; [reflexivity|].
  destruct (run_guessers_sound Scenario.first_word
              [ (0, InCreateRoom "sidA" "ABCD" "Alice");
                (1, InJoinRoom "sidB" "ABCD" "Bob");
                (1, InJoinRoom "sidC" "ABCD" "Carol");
                (2, InStartGame "sidA" "ABCD");
                (4, InSendGuess "sidB" "ABCD" "cat") ]%Q
              "ABCD" Scenario.room_three_playing eq_refl)
    as (Hnd & Hdrawer & _).
  split; [exact Hnd | exact (Hdrawer "sidA" eq_refl)].
Defined.




(** ** Leaving *)

Lemma for_each_fixed {A : Type} (l : list A) (body : A -> M unit) (w : World) :
  (forall x, body x w = Ok tt w) -> for_each l body w = Ok tt w.
Proof.
  intros Hbody. induction l as [|x l IH]; cbn; [reflexivity|].
  unfold bind. now rewrite Hbody.
Qed.

(** The rooms after the loop body of [disconnect] ran for a room, whether
    it returned or raised: the room is deleted, or it is written back with
    the players of another sid. *)
Lemma disconnect_room_rooms (w : World) (sid' code : string) (room : Room) :
  let remaining :=
    filter (fun p => negb (String.eqb (sid p) sid')) (players room) in
  Dict.get code (game_rooms w) = Some room ->
  (remaining = []
   /\ game_rooms (world_of (disconnect_room sid' code w))
      = Dict.del code (game_rooms w))
  \/ exists room',
       game_rooms (world_of (disconnect_room sid' code w))
       = Dict.set code room' (game_rooms w)
       /\ players room' = remaining
       /\ map is_host (players room') = map is_host remaining.
Proof.
  intros remaining Hget.
  remember (disconnect_room sid' code w) as res eqn:Hres.
  unfold disconnect_room, bind at 1, get_rooms in Hres. rewrite Hget in Hres.
  cbv beta iota zeta delta [bind store put_rooms emit sio del_room ret]
    in Hres.
  cbn [players Upd.set_players current_drawer_sid game_started game_rooms
       sio_log tasks clock rng draws] in Hres.
  fold remaining in Hres.
  destruct (len remaining <? len (players room)).
  - destruct (Z.eqb_spec (len remaining) 0) as [Hzero|Hpos].
    + left. split.
      * unfold len in Hzero. destruct remaining; [reflexivity | discriminate].
      * rewrite Hres. cbn. apply del_set. unfold Dict.mem. now rewrite Hget.
    + right.
      destruct (opt_is (current_drawer_sid room) sid' && game_started room).
      * match type of Hres with
        | _ = start_new_round code ?w2 => set (w2' := w2) in Hres
        end.
        assert (Hget2 : Dict.get code (game_rooms w2')
                        = Some (Upd.set_players remaining room))
          by (subst w2'; cbn; apply get_set_same).
        destruct (py_getitem (players (Upd.set_players remaining room))
                    (current_drawer_index (Upd.set_players remaining room)))
          as [drawer|] eqn:Hidx.
        -- rewrite (start_new_round_ok _ _ _ _ Hget2 Hidx) in Hres.
           eexists. rewrite Hres. subst w2'. cbn. rewrite set_set.
           split; [reflexivity|]. split; reflexivity.
        -- rewrite (start_new_round_raises _ _ _ Hget2 Hidx) in Hres.
           eexists. rewrite Hres. subst w2'. cbn.
           split; [reflexivity|]. split; reflexivity.
      * eexists. rewrite Hres. cbn. split; [reflexivity|]. split; reflexivity.
  - right. eexists. rewrite Hres. cbn.
    split; [reflexivity|]. split; reflexivity.
Qed.

Lemma disconnect_room_stranger (w : World) (sid' code : string) :
  absent_from sid' (game_rooms w) -> disconnect_room sid' code w = Ok tt w.
Proof.
  intros Habsent. unfold disconnect_room, bind at 1, get_rooms.
  destruct (Dict.get code (game_rooms w)) as [room|] eqn:Hget; [|reflexivity].
  cbv beta iota zeta delta [bind store put_rooms].
  cbn [players Upd.set_players].
  rewrite filter_all.
  - rewrite Z.ltb_irrefl.
    replace (Upd.set_players (players room) room) with room
      by now destruct room.
    rewrite (set_get_id _ _ _ Hget). now destruct w.
  - intros p Hp. apply negb_true_iff, String.eqb_neq.
    exact (Habsent code room p (get_In _ _ _ Hget) Hp).
Qed.

(** X12. The disconnection of a connection that is a player of no room
    changes nothing and sends nothing. *)
Theorem disconnect_stranger (w : World) (sid' : string) :
  absent_from sid' (game_rooms w) -> disconnect sid' w = Ok tt w.
Proof.
  intros Habsent. unfold disconnect, bind at 1, get_rooms.
  apply for_each_fixed. intros code. now apply disconnect_room_stranger.
Qed.

(** A connection that never joined leaves, while three play. *)
Lemma disconnect_stranger_witness :
  absent_from "sidZ" (game_rooms Scenario.three_playing)
  /\ disconnect "sidZ" Scenario.three_playing = Ok tt Scenario.three_playing.
Proof.
  assert (Hrooms : game_rooms Scenario.three_playing
                   = [("ABCD", Scenario.room_three_playing)])
    by (vm_compute; reflexivity).
  assert (Habsent : absent_from "sidZ" (game_rooms Scenario.three_playing)).
  { rewrite Hrooms. intros c r p [[= <- <-]|[]] [<-|[<-|[<-|[]]]]; discriminate. }
  split; [exact Habsent | exact (disconnect_stranger _ _ Habsent)].
Defined.

(** X13. When every player of a room has the sid that disconnects, the
    room is deleted: its code is free again, the other rooms stay, and
    nothing is sent. The sleeping coroutines of the room stay scheduled;
    its deadline timer, when it wakes up, finds no room and does nothing. *)
Theorem disconnect_last_player (w : World) (sid' code : string) (room : Room) :
  NoDup (Dict.keys (game_rooms w)) ->
  Dict.get code (game_rooms w) = Some room ->
  players room <> [] ->
  (forall p, In p (players room) -> sid p = sid') ->
  exists w',
    disconnect_room sid' code w = Ok tt w'
    /\ Dict.get code (game_rooms w') = None
    /\ (forall c, c <> code ->
          Dict.get c (game_rooms w') = Dict.get c (game_rooms w))
    /\ sio_log w' = sio_log w
    /\ tasks w' = tasks w
    /\ round_timer code w' = Ok tt w'.
Proof.
  intros Hnd Hget Hsome Hall.
  assert (Hrun : disconnect_room sid' code w
                 = Ok tt (mkWorld (Dict.del code (game_rooms w)) (sio_log w)
                                  (tasks w) (clock w) (rng w) (draws w))).
  { unfold disconnect_room, bind at 1, get_rooms. rewrite Hget.
    cbv beta iota zeta delta [bind store put_rooms del_room].
    cbn [players Upd.set_players game_rooms sio_log tasks clock rng draws].
    rewrite filter_none.
    - assert (Hless : (len (@nil Player) <? len (players room)) = true).
      { apply Z.ltb_lt. unfold len.
        destruct (players room); [contradiction | cbn; lia]. }
      rewrite Hless.
      cbn [len List.length Z.of_nat Z.eqb game_rooms sio_log tasks clock rng
           draws].
      rewrite del_set by (unfold Dict.mem; now rewrite Hget). reflexivity.
    - intros p Hp. rewrite (Hall p Hp), String.eqb_refl. reflexivity. }
  eexists. split; [exact Hrun|]. cbn [game_rooms sio_log tasks].
  split; [now apply get_del_same|].
  split; [intros c Hc; apply get_del_other; congruence|].
  split; [reflexivity|]. split; [reflexivity|].
  apply round_timer_absent. cbn [game_rooms]. now apply get_del_same.
Qed.

(** Dave, alone in WXYZ, leaves. *)
Lemma disconnect_last_player_witness :
  NoDup (Dict.keys (game_rooms Scenario.two_rooms))
  /\ exists w',
       disconnect_room "sidD" "WXYZ" Scenario.two_rooms = Ok tt w'
       /\ Dict.get "WXYZ" (game_rooms w') = None
       /\ Dict.get "ABCD" (game_rooms w')
          = Dict.get "ABCD" (game_rooms Scenario.two_rooms).
Proof.
  assert (Hnd : NoDup (Dict.keys (game_rooms Scenario.two_rooms))).
  { vm_compute. constructor; [intros [E|[]]; discriminate|].
    constructor; [intros [] | constructor]. }
  split; [exact Hnd|].
  destruct (disconnect_last_player Scenario.two_rooms "sidD" "WXYZ"
              (mkRoom "WXYZ" [mkPlayer "sidD" "Dave" 0 true] 8 false 0 3 0
                      None None [] [] None) Hnd eq_refl)
    as (w' & Hrun & Hgone & Hothers & _).
  - discriminate.
  - intros p [<-|[]]. reflexivity.
  - exists w'. split; [exact Hrun|]. split; [exact Hgone|].
    apply Hothers. discriminate.
Defined.

Lemma in_get (k : string) (r : Room) (d : Dict.t) :
  NoDup (Dict.keys d) -> In (k, r) d -> Dict.get k d = Some r.
Proof.
  induction d as [|[k' r'] d IH]; cbn; [contradiction|].
  intros Hnd [[= -> ->]|Hin].
  - now rewrite String.eqb_refl.
  - inversion Hnd as [|? ? Hnotin Hrest]; subst.
    destruct (String.eqb_spec k k') as [->|_]; [|now apply IH].
    exfalso. apply Hnotin. apply (in_map fst) in Hin. exact Hin.
Qed.

Lemma remaining_clean (sid' : string) (ps : list Player) (p : Player) :
  In p (filter (fun p => negb (String.eqb (sid p) sid')) ps) -> sid p <> sid'.
Proof.
  intros Hp. apply filter_In in Hp. destruct Hp as [_ Hp].
  now apply negb_true_iff, String.eqb_neq in Hp.
Qed.

(** One turn of the loop of [disconnect] that returns: the room it worked
    on holds no player of the sid any more, and the other rooms are as they
    were. *)
Lemma disconnect_room_cleans (w w1 : World) (sid' c : string) :
  NoDup (Dict.keys (game_rooms w)) ->
  disconnect_room sid' c w = Ok tt w1 ->
  NoDup (Dict.keys (game_rooms w1))
  /\ incl (Dict.keys (game_rooms w1)) (Dict.keys (game_rooms w))
  /\ (forall r p, Dict.get c (game_rooms w1) = Some r ->
        In p (players r) -> sid p <> sid')
  /\ (forall c', c' <> c ->
        Dict.get c' (game_rooms w1) = Dict.get c' (game_rooms w)).
Proof.
  intros Hnd Hrun.
  destruct (Dict.get c (game_rooms w)) as [room|] eqn:Hget.
  - pose proof (disconnect_room_rooms w sid' c room Hget) as Hrooms.
    rewrite Hrun in Hrooms. cbn [world_of] in Hrooms.
    destruct Hrooms as [[_ Hdel] | (room' & Hset & Hplayers & _)].
    + rewrite Hdel. destruct (keys_del c _ Hnd) as [Hnd' Hsub].
      split; [exact Hnd'|]. split; [exact Hsub|].
      split; [intros r p Hr; rewrite get_del_same in Hr by exact Hnd;
              discriminate|].
      intros c' Hc. apply get_del_other. congruence.
    + rewrite Hset.
      assert (Hkeys : Dict.keys (Dict.set c room' (game_rooms w))
                      = Dict.keys (game_rooms w)).
      { rewrite keys_set. unfold Dict.mem. now rewrite Hget. }
      rewrite Hkeys. split; [exact Hnd|]. split; [apply incl_refl|].
      split.
      * intros r p Hr Hp. rewrite get_set_same in Hr. injection Hr as <-.
        rewrite Hplayers in Hp. exact (remaining_clean _ _ _ Hp).
      * intros c' Hc. apply get_set_other. congruence.
  - unfold disconnect_room, bind, get_rooms in Hrun. rewrite Hget in Hrun.
    injection Hrun as <-.
    split; [exact Hnd|]. split; [apply incl_refl|].
    split; [intros r p Hr; congruence | reflexivity].
Qed.

Lemma disconnect_loop_cleans (sid' : string) (l : list string) :
  forall w w',
    NoDup (Dict.keys (game_rooms w)) ->
    for_each l (disconnect_room sid') w = Ok tt w' ->
    NoDup (Dict.keys (game_rooms w'))
    /\ incl (Dict.keys (game_rooms w')) (Dict.keys (game_rooms w))
    /\ (forall c r p, In c l -> Dict.get c (game_rooms w') = Some r ->
          In p (players r) -> sid p <> sid')
    /\ (forall c, ~ In c l ->
          Dict.get c (game_rooms w') = Dict.get c (game_rooms w)).
Proof.
  induction l as [|c l IH]; intros w w' Hnd Hrun; cbn in Hrun.
  - injection Hrun as <-. split; [exact Hnd|]. split; [apply incl_refl|].
    split; [intros c r p []|reflexivity].
  - unfold bind in Hrun.
    destruct (disconnect_room sid' c w) as [[] w1|e w1] eqn:Hstep;
      [|discriminate].
    destruct (disconnect_room_cleans w w1 sid' c Hnd Hstep)
      as (Hnd1 & Hsub1 & Hclean1 & Hother1).
    destruct (IH w1 w' Hnd1 Hrun) as (Hnd' & Hsub' & Hclean' & Hother').
    split; [exact Hnd'|].
    split; [intros k Hk; apply Hsub1, Hsub', Hk|].
    split.
    + intros c0 r p Hc0 Hr Hp.
      destruct (in_dec string_dec c0 l) as [Hin|Hout].
      * exact (Hclean' c0 r p Hin Hr Hp).
      * destruct Hc0 as [<-|Hin]; [|contradiction].
        rewrite (Hother' c Hout) in Hr. exact (Hclean1 r p Hr Hp).
    + intros c0 Hc0. rewrite Hother' by (intros Hin; apply Hc0; now right).
      apply Hother1. intros <-. apply Hc0. now left.
Qed.

Lemma for_each_app {A : Type} (l1 l2 : list A) (body : A -> M unit)
    (w w1 : World) :
  for_each l1 body w = Ok tt w1 ->
  for_each (l1 ++ l2) body w = for_each l2 body w1.
Proof.
  revert w. induction l1 as [|x l1 IH]; intros w Hrun; cbn in Hrun |- *.
  - now injection Hrun as <-.
  - unfold bind in Hrun |- *.
    destruct (body x w) as [[] w0|e w0]; [now apply IH | discriminate].
Qed.

(** One turn of the loop of [disconnect], whether it returns or raises: it
    adds calls to [sio], none of them [round_end], and sleeping coroutines;
    the clock and the entries of the other rooms stay. *)
Lemma disconnect_room_turn (w : World) (sid' c : string) :
  exists calls ts,
    sio_log (world_of (disconnect_room sid' c w)) = sio_log w ++ calls
    /\ Forall (fun x => is_round_end x = false) calls
    /\ tasks (world_of (disconnect_room sid' c w)) = tasks w ++ ts
    /\ clock (world_of (disconnect_room sid' c w)) = clock w
    /\ forall c', c' <> c ->
         Dict.get c' (game_rooms (world_of (disconnect_room sid' c w)))
         = Dict.get c' (game_rooms w).
Proof.
  remember (disconnect_room sid' c w) as res eqn:Hres.
  unfold disconnect_room, bind at 1, get_rooms in Hres.
  destruct (Dict.get c (game_rooms w)) as [room|] eqn:Hget.
  2:{ rewrite Hres. exists [], []. cbn. rewrite !app_nil_r.
      repeat split; auto. }
  cbv beta iota zeta delta [bind store put_rooms emit sio del_room ret]
    in Hres.
  cbn [players Upd.set_players current_drawer_sid game_started game_rooms
       sio_log tasks clock rng draws] in Hres.
  set (remaining := filter (fun p => negb (String.eqb (sid p) sid'))
                           (players room)) in Hres.
  destruct (len remaining <? len (players room)).
  - destruct (len remaining =? 0).
    + rewrite Hres. exists [], []. cbn. rewrite !app_nil_r.
      repeat split; auto. intros c' Hc.
      rewrite get_del_other, get_set_other by congruence. reflexivity.
    + destruct (opt_is (current_drawer_sid room) sid' && game_started room).
      * match type of Hres with
        | _ = start_new_round c ?w2 => set (w2' := w2) in Hres
        end.
        assert (Hget2 : Dict.get c (game_rooms w2')
                        = Some (Upd.set_players remaining room))
          by (subst w2'; cbn; apply get_set_same).
        destruct (py_getitem (players (Upd.set_players remaining room))
                    (current_drawer_index (Upd.set_players remaining room)))
          as [drawer|] eqn:Hidx.
        -- rewrite (start_new_round_ok _ _ _ _ Hget2 Hidx) in Hres.
           rewrite Hres. subst w2'. cbn. rewrite <- !app_assoc.
           eexists _, _. split; [reflexivity|].
           split; [|split; [reflexivity|split; [reflexivity|]]].
           ++ constructor; [reflexivity|]. constructor; [reflexivity|].
              apply Forall_forall. intros x Hx. apply in_map_iff in Hx.
              destruct Hx as (q & <- & _). reflexivity.
           ++ intros c' Hc. rewrite !get_set_other by congruence. reflexivity.
        -- rewrite (start_new_round_raises _ _ _ Hget2 Hidx) in Hres.
           rewrite Hres. subst w2'. cbn.
           eexists _, []. split; [reflexivity|]. rewrite app_nil_r.
           split; [|split; [reflexivity|split; [reflexivity|]]].
           ++ constructor; [reflexivity | constructor].
           ++ intros c' Hc. rewrite get_set_other by congruence. reflexivity.
      * rewrite Hres. cbn. eexists _, []. split; [reflexivity|].
        rewrite app_nil_r.
        split; [|split; [reflexivity|split; [reflexivity|]]].
        -- constructor; [reflexivity | constructor].
        -- intros c' Hc. rewrite get_set_other by congruence. reflexivity.
  - rewrite Hres. cbn. exists [], []. rewrite !app_nil_r.
    repeat split; auto. intros c' Hc.
    rewrite get_set_other by congruence. reflexivity.
Qed.

(** The same for the turns of a list of rooms, up to the first that raises. *)
Lemma disconnect_loop_turns (sid' : string) (l : list string) :
  forall w, exists calls ts,
    sio_log (world_of (for_each l (disconnect_room sid') w))
    = sio_log w ++ calls
    /\ Forall (fun x => is_round_end x = false) calls
    /\ tasks (world_of (for_each l (disconnect_room sid') w)) = tasks w ++ ts
    /\ clock (world_of (for_each l (disconnect_room sid') w)) = clock w
    /\ forall c', ~ In c' l ->
         Dict.get c' (game_rooms (world_of (for_each l (disconnect_room sid') w)))
         = Dict.get c' (game_rooms w).
Proof.
  induction l as [|c l IH]; intros w.
  - exists [], []. cbn. rewrite !app_nil_r. repeat split; auto.
  - destruct (disconnect_room_turn w sid' c)
      as (calls1 & ts1 & Hlog1 & Hno1 & Htasks1 & Hclock1 & Hother1).
    cbn [for_each]. unfold bind.
    destruct (disconnect_room sid' c w) as [[] w1|e w1]; cbn [world_of] in *.
    + destruct (IH w1) as (calls2 & ts2 & Hlog2 & Hno2 & Htasks2 & Hclock2
                           & Hother2).
      exists (calls1 ++ calls2), (ts1 ++ ts2).
      rewrite Hlog2, Hlog1, Htasks2, Htasks1, Hclock2, Hclock1, !app_assoc.
      split; [reflexivity|]. split; [now apply Forall_app|].
      split; [reflexivity|]. split; [reflexivity|].
      intros c' Hc. rewrite Hother2 by (intros Hin; apply Hc; now right).
      apply Hother1. intros ->. apply Hc. now left.
    + exists calls1, ts1. repeat split; auto.
      intros c' Hc. apply Hother1. intros ->. apply Hc. now left.
Qed.

(** C2, as amended. [disconnect] takes the rooms in the order of their
    registration and stops at the first turn that raises. When the drawer
    of a started game disconnects, the turns of the rooms registered before
    return, other players remain in the room and the drawer index still
    selects one of them, the turn of the room returns: the others are told
    with [player_left] and a new round starts at once with that player
    drawing. No [end_round] takes place: [disconnect] sends no [round_end],
    the players that remain keep their scores, and neither
    [current_drawer_index] nor [current_round] moves; a new deadline timer
    is scheduled. The handler then goes on with the rooms registered after,
    whose turns leave this room as it is. *)
Theorem drawer_disconnect_starts_new_round (w w1 : World) (sid' code : string)
    (before after : list string) (room : Room) (drawer : Player) :
  let remaining :=
    filter (fun p => negb (String.eqb (sid p) sid')) (players room) in
  let w' := world_of (disconnect sid' w) in
  NoDup (Dict.keys (game_rooms w)) ->
  Dict.keys (game_rooms w) = before ++ code :: after ->
  for_each before (disconnect_room sid') w = Ok tt w1 ->
  Dict.get code (game_rooms w) = Some room ->
  game_started room = true ->
  current_drawer_sid room = Some sid' ->
  (exists p, In p (players room) /\ sid p = sid') ->
  remaining <> [] ->
  py_getitem remaining (current_drawer_index room) = Some drawer ->
  exists w2 room' pre rest post ts ts',
    disconnect_room sid' code w1 = Ok tt w2
    /\ disconnect sid' w = for_each after (disconnect_room sid') w2
    /\ Dict.get code (game_rooms w') = Some room'
    /\ players room' = remaining
    /\ current_drawer_index room' = current_drawer_index room
    /\ current_round room' = current_round room
    /\ current_drawer_sid room' = Some (sid drawer)
    /\ guessed_players room' = []
    /\ sio_log w'
       = sio_log w
         ++ pre
         ++ Emit (Ev.player_left code remaining) (ToRoom code)
            :: Emit (Ev.new_round (current_round room) (username drawer)
                       (sid drawer) (next_word w1) (PyStr.len (next_word w1)))
                    (ToSid (sid drawer))
            :: rest ++ post
    /\ Forall (fun c => is_round_end c = false) (pre ++ rest ++ post)
    /\ tasks w' = tasks w ++ ts ++ RoundTimer code (clock w + 60) :: ts'.
Proof.
  intros remaining w' Hnd Hkeys Hbefore Hget Hstarted Hdrawer Hmember Hsome
         Hidx.
  assert (Hout : ~ In code before /\ ~ In code after).
  { rewrite Hkeys in Hnd. apply NoDup_remove_2 in Hnd.
    split; intros Hin; apply Hnd, in_or_app; [now left | now right]. }
  destruct Hout as [Hout1 Hout2].
  destruct (disconnect_loop_turns sid' before w)
    as (pre & ts & Hlog1 & Hno1 & Htasks1 & Hclock1 & Hother1).
  rewrite Hbefore in Hlog1, Htasks1, Hclock1, Hother1.
  cbn [world_of] in Hlog1, Htasks1, Hclock1, Hother1.
  assert (Hget1 : Dict.get code (game_rooms w1) = Some room)
    by (rewrite Hother1 by exact Hout1; exact Hget).
  destruct (disconnect_room_drawer w1 sid' code room drawer Hget1 Hstarted
              Hdrawer Hmember Hsome Hidx)
    as (w2 & room' & rest & Hturn & Hget2 & Hplayers & Hindex & Hround
        & Hsid & Hguessed & Hlog2 & Hno2 & Htasks2).
  assert (Hrun : disconnect sid' w = for_each after (disconnect_room sid') w2).
  { unfold disconnect, bind at 1, get_rooms. rewrite Hkeys.
    rewrite (for_each_app _ _ _ _ _ Hbefore). cbn [for_each].
    unfold bind at 1. now rewrite Hturn. }
  destruct (disconnect_loop_turns sid' after w2)
    as (post & ts' & Hlog3 & Hno3 & Htasks3 & _ & Hother3).
  exists w2, room', pre, rest, post, ts, ts'.
  split; [exact Hturn|]. split; [exact Hrun|].
  unfold w'. rewrite Hrun.
  split; [rewrite Hother3 by exact Hout2; exact Hget2|].
  repeat (split; [assumption|]).
  split; [|split].
  - rewrite Hlog3, Hlog2, Hlog1, <- !app_assoc. reflexivity.
  - apply Forall_app. split; [exact Hno1|].
    apply Forall_app. split; assumption.
  - rewrite Htasks3, Htasks2, Htasks1, Hclock1, <- !app_assoc. reflexivity.
Qed.

(** Alice leaves ABCD while she draws; Dave sits in WXYZ, registered
    before, and Erin in MNOP, registered after. *)
Lemma drawer_disconnect_starts_new_round_witness :
  let w := Scenario.three_rooms in
  NoDup (Dict.keys (game_rooms w))
  /\ Dict.keys (game_rooms w) = ["WXYZ"] ++ "ABCD" :: ["MNOP"]
  /\ for_each ["WXYZ"] (disconnect_room "sidA") w = Ok tt w
  /\ Dict.get "ABCD" (game_rooms w) = Some Scenario.room_three_playing
  /\ exists w2 room' pre rest post ts ts',
       disconnect_room "sidA" "ABCD" w = Ok tt w2
       /\ disconnect "sidA" w = for_each ["MNOP"] (disconnect_room "sidA") w2
       /\ Dict.get "ABCD" (game_rooms (world_of (disconnect "sidA" w)))
          = Some room'
       /\ players room' = [mkPlayer "sidB" "Bob" 196 false; Scenario.carol]
       /\ current_drawer_index room' = 0
       /\ current_round room' = 1
       /\ current_drawer_sid room' = Some "sidB"
       /\ guessed_players room' = []
       /\ sio_log (world_of (disconnect "sidA" w))
          = sio_log w
            ++ pre
            ++ Emit (Ev.player_left "ABCD"
                       [mkPlayer "sidB" "Bob" 196 false; Scenario.carol])
                    (ToRoom "ABCD")
               :: Emit (Ev.new_round 1 "Bob" "sidB" "cat" 3) (ToSid "sidB")
               :: rest ++ post
       /\ Forall (fun c => is_round_end c = false) (pre ++ rest ++ post)
       /\ tasks (world_of (disconnect "sidA" w))
          = tasks w ++ ts ++ RoundTimer "ABCD" (4 + 60) :: ts'.
Proof.
  intros w.
  assert (Hkeys : Dict.keys (game_rooms w) = ["WXYZ"] ++ "ABCD" :: ["MNOP"])
    by (vm_compute; reflexivity).
  assert (Hnd : NoDup (Dict.keys (game_rooms w))).
  { rewrite Hkeys. repeat constructor; cbn; intuition discriminate. }
  assert (Hbefore : for_each ["WXYZ"] (disconnect_room "sidA") w = Ok tt w)
    by (vm_compute; reflexivity).
  assert (Hget : Dict.get "ABCD" (game_rooms w)
                 = Some Scenario.room_three_playing)
    by (vm_compute; reflexivity).
  split; [exact Hnd|]. split; [exact Hkeys|]. split; [exact Hbefore|].
  split; [exact Hget|].
  apply (drawer_disconnect_starts_new_round
           w w "sidA" "ABCD" ["WXYZ"] ["MNOP"] Scenario.room_three_playing
           (mkPlayer "sidB" "Bob" 196 false) Hnd Hkeys Hbefore Hget);
    try reflexivity.
  - exists Scenario.alice. split; [left|]; reflexivity.
  - discriminate.
Defined.

(** The loop stops at the first turn that raises. Xena draws in ABCD on seat
    1 and in WXYZ on seat 0, and disconnects: the turn of ABCD removes her,
    sends [player_left] and raises [IndexError], seat 1 being past the one
    player left; the turn of WXYZ never runs, and Xena stays its player and
    its drawer. *)
Lemma disconnect_stops_at_first_raise :
  option_map (fun r => (map sid (players r), current_drawer_index r,
                        current_drawer_sid r, game_started r))
             (Dict.get "WXYZ" (game_rooms Scenario.xena_draws_twice))
  = Some (["sidX"; "sidY"], 0, Some "sidX", true)
  /\ option_map (fun r => (map sid (players r), current_drawer_index r,
                           current_drawer_sid r))
                (Dict.get "ABCD" (game_rooms Scenario.xena_draws_twice))
     = Some (["sidA"; "sidX"], 1, Some "sidX")
  /\ (exists w', disconnect "sidX" (world_of (set_clock 80%Q
                                               Scenario.xena_draws_twice))
                 = Raise IndexError w')
  /\ option_map (fun r => map sid (players r))
                (Dict.get "ABCD" (game_rooms Scenario.xena_left))
     = Some ["sidA"]
  /\ Dict.get "WXYZ" (game_rooms Scenario.xena_left)
     = Dict.get "WXYZ" (game_rooms Scenario.xena_draws_twice)
  /\ skipn (List.length (sio_log Scenario.xena_draws_twice))
           (sio_log Scenario.xena_left)
     = [Emit (Ev.player_left "ABCD" [mkPlayer "sidA" "Alice" 0 true])
             (ToRoom "ABCD")]
  /\ tasks Scenario.xena_left = tasks Scenario.xena_draws_twice.
Proof.
  vm_compute.
  repeat split; try reflexivity. eexists. reflexivity.
Qed.

(** X14. When distinct codes name the rooms and [disconnect] returns, no
    room holds a player of the sid that disconnected any more, and no room
    was added. *)
Theorem disconnect_removes_everywhere (w w' : World) (sid' : string) :
  NoDup (Dict.keys (game_rooms w)) ->
  disconnect sid' w = Ok tt w' ->
  absent_from sid' (game_rooms w')
  /\ incl (Dict.keys (game_rooms w')) (Dict.keys (game_rooms w)).
Proof.
  intros Hnd Hrun. unfold disconnect, bind at 1, get_rooms in Hrun.
  destruct (disconnect_loop_cleans sid' _ w w' Hnd Hrun)
    as (Hnd' & Hsub & Hclean & _).
  split; [|exact Hsub].
  intros c r p Hr Hp.
  apply (Hclean c r p); [|now apply in_get|exact Hp].
  apply Hsub. apply (in_map fst) in Hr. exact Hr.
Qed.

(** Alice leaves the room of three while she draws. *)
Lemma disconnect_removes_everywhere_witness :
  NoDup (Dict.keys (game_rooms Scenario.three_playing))
  /\ exists w',
       disconnect "sidA" Scenario.three_playing = Ok tt w'
       /\ absent_from "sidA" (game_rooms w').
Proof.
  assert (Hnd : NoDup (Dict.keys (game_rooms Scenario.three_playing))).
  { vm_compute. constructor; [intros [] | constructor]. }
  split; [exact Hnd|].
  exists (world_of (disconnect "sidA" Scenario.three_playing)).
  assert (Hrun : disconnect "sidA" Scenario.three_playing
                 = Ok tt (world_of (disconnect "sidA" Scenario.three_playing)))
    by (vm_compute; reflexivity).
  split; [exact Hrun|].
  exact (proj1 (disconnect_removes_everywhere _ _ _ Hnd Hrun)).
Defined.



(** ** Normalising a guess *)

Lemma lower_char_twice (c : ascii) :
  PyStr.lower_char (PyStr.lower_char c) = PyStr.lower_char c.
Proof. destruct c as [[] [] [] [] [] [] [] []]; reflexivity. Qed.

Lemma is_space_lower_char (c : ascii) :
  PyStr.is_space (PyStr.lower_char c) = PyStr.is_space c.
Proof. destruct c as [[] [] [] [] [] [] [] []]; reflexivity. Qed.

Lemma lower_twice (s : string) : PyStr.lower (PyStr.lower s) = PyStr.lower s.
Proof.
  induction s as [|c s IH]; cbn; [reflexivity|].
  now rewrite lower_char_twice, IH.
Qed.

Lemma lstrip_lower (s : string) :
  PyStr.lstrip (PyStr.lower s) = PyStr.lower (PyStr.lstrip s).
Proof.
  induction s as [|c s IH]; cbn; [reflexivity|].
  rewrite is_space_lower_char. now destruct (PyStr.is_space c).
Qed.

Lemma rstrip_lower (s : string) :
  PyStr.rstrip (PyStr.lower s) = PyStr.lower (PyStr.rstrip s).
Proof.
  induction s as [|c s IH]; cbn; [reflexivity|].
  rewrite IH, is_space_lower_char.
  destruct (PyStr.rstrip s); cbn; [|reflexivity].
  now destruct (PyStr.is_space c).
Qed.

Lemma lstrip_twice (s : string) :
  PyStr.lstrip (PyStr.lstrip s) = PyStr.lstrip s.
Proof.
  induction s as [|c s IH]; cbn; [reflexivity|].
  destruct (PyStr.is_space c) eqn:E; [exact IH|]. cbn. now rewrite E.
Qed.

Lemma rstrip_cons (c : ascii) (s : string) :
  PyStr.rstrip (String c s)
  = match PyStr.rstrip s with
    | EmptyString =>
        if PyStr.is_space c then EmptyString else String c EmptyString
    | String a u => String c (String a u)
    end.
Proof. cbn [PyStr.rstrip]. now destruct (PyStr.rstrip s). Qed.

Lemma rstrip_twice (s : string) :
  PyStr.rstrip (PyStr.rstrip s) = PyStr.rstrip s.
Proof.
  induction s as [|c s IH]; [reflexivity|].
  rewrite (rstrip_cons c s).
  destruct (PyStr.rstrip s) as [|a u] eqn:E.
  - destruct (PyStr.is_space c) eqn:Ec; [reflexivity|].
    rewrite rstrip_cons. cbn [PyStr.rstrip]. now rewrite Ec.
  - rewrite rstrip_cons, IH. reflexivity.
Qed.

(** What [lstrip] returns does not start with white space, and [rstrip]
    keeps such a start. *)
Lemma lstrip_rstrip_lstrip (s : string) :
  PyStr.lstrip (PyStr.rstrip (PyStr.lstrip s)) = PyStr.rstrip (PyStr.lstrip s).
Proof.
  induction s as [|c s IH]; cbn; [reflexivity|].
  destruct (PyStr.is_space c) eqn:E; [exact IH|].
  cbn. destruct (PyStr.rstrip s); rewrite ?E; cbn; now rewrite E.
Qed.

Lemma strip_twice (s : string) : PyStr.strip (PyStr.strip s) = PyStr.strip s.
Proof.
  unfold PyStr.strip. now rewrite lstrip_rstrip_lstrip, rstrip_twice.
Qed.

Lemma strip_lower (s : string) :
  PyStr.strip (PyStr.lower s) = PyStr.lower (PyStr.strip s).
Proof. unfold PyStr.strip. now rewrite lstrip_lower, rstrip_lower. Qed.

(** X16. Normalising a guess twice is normalising it once, and text that
    is already lowercase or already stripped normalises the same way; so
    [send_guess] treats a text and its normal form alike: sending back the
    text that was relayed as chat is judged as the first guess was. *)
Theorem normalize_idempotent (text : string) :
  normalize (normalize text) = normalize text
  /\ normalize (PyStr.lower text) = normalize text
  /\ normalize (PyStr.strip text) = normalize text
  /\ forall w sid' code,
       send_guess sid' code (normalize text) w = send_guess sid' code text w.
Proof.
  assert (Htwice : normalize (normalize text) = normalize text).
  { unfold normalize. rewrite <- (strip_lower (PyStr.lower text)).
    now rewrite lower_twice, strip_twice. }
  split; [exact Htwice|].
  split; [unfold normalize; now rewrite lower_twice|].
  split; [unfold normalize; now rewrite <- strip_lower, strip_twice|].
  intros w sid' code. unfold send_guess. cbv zeta.
  fold (normalize (normalize text)). fold (normalize text).
  now rewrite Htwice.
Qed.

(** ** Points inside the round *)

Lemma py_int_below (x : Q) (n : Z) :
  0 < n -> (x < inject_Z n)%Q -> py_int x < n.
Proof.
  intros Hn Hx. destruct (Qlt_le_dec x 0) as [Hneg|Hpos].
  - pose proof (py_int_mono x 0 (Qlt_le_weak _ _ Hneg)) as Hle.
    change (py_int 0) with 0 in Hle. lia.
  - rewrite py_int_nonneg by exact Hpos.
    rewrite Zlt_Qlt. eapply Qle_lt_trans; [apply Qfloor_le | exact Hx].
Qed.

(** X17. A correct guess made between the start of the round and its
    deadline 60 seconds later earns between 80 and 200 points. The floor of
    50 points is reached from 75 seconds on and not before: a guess made
    earlier than 75 seconds after the start earns more than 50 points. *)
Theorem guess_points_within_round (e : Q) :
  ((0 <= e)%Q -> guess_points e <= 200)
  /\ ((e <= 60)%Q -> 80 <= guess_points e)
  /\ ((75 <= e)%Q -> guess_points e = 50)
  /\ ((e < 75)%Q -> 50 < guess_points e).
Proof.
  split; [|split; [|split]].
  - intros He. apply (guess_points_mono 0 e He).
  - intros He. apply (guess_points_mono e 60 He).
  - intros He. pose proof (guess_points_mono 75 e He) as Hle.
    change (guess_points 75) with 50 in Hle.
    unfold guess_points in *. lia.
  - intros He.
    assert (Hlt : py_int (e * 2) < 150).
    { apply py_int_below; [lia|].
      change (inject_Z 150) with (75 * 2)%Q.
      apply Qmult_lt_compat_r; [reflexivity | exact He]. }
    unfold guess_points. lia.
Qed.

Lemma guess_points_within_round_witness :
  (0 <= 58)%Q /\ (58 <= 60)%Q /\ 80 <= guess_points 58 <= 200
  /\ (75 <= 90)%Q /\ guess_points 90 = 50
  /\ (749 # 10 < 75)%Q /\ 50 < guess_points (749 # 10)
  /\ guess_points (749 # 10) = 51.
Proof.
  assert (H0 : (0 <= 58)%Q) by (unfold Qle; cbn; lia).
  assert (H1 : (58 <= 60)%Q) by (unfold Qle; cbn; lia).
  assert (H2 : (75 <= 90)%Q) by (unfold Qle; cbn; lia).
  assert (H3 : (749 # 10 < 75)%Q) by (unfold Qlt; cbn; lia).
  destruct (guess_points_within_round 58) as (Hup & Hlow & _).
  destruct (guess_points_within_round 90) as (_ & _ & Hfloor & _).
  destruct (guess_points_within_round (749 # 10)) as (_ & _ & _ & Hmore).
  split; [exact H0|]. split; [exact H1|].
  split; [split; [exact (Hlow H1) | exact (Hup H0)]|].
  split; [exact H2|]. split; [exact (Hfloor H2)|].
  split; [exact H3|]. split; [exact (Hmore H3) | reflexivity].
Defined.

(** ** A second guess *)



(** ** Chat that is not relayed *)



(** ** The listing of the rooms *)

(** X18. [GET /api/rooms] changes nothing. In every run its listing has one
    entry for each room, in the order the rooms were created, under codes
    that are all different; every entry reports between 1 and 8 players
    and 8 seats; and the entry of a registered room reports its number of
    players and whether its game has started. *)
Theorem api_rooms_lists_every_room (r : nat -> nat) (trace : list (Q * Input)) :
  let w := run (boot r) trace in
  exists infos,
    Api.get_rooms w = Ok infos w
    /\ map Api.info_room_code infos = Dict.keys (game_rooms w)
    /\ NoDup (map Api.info_room_code infos)
    /\ Forall (fun i => 1 <= Api.info_players i <= Api.info_max_players i
                        /\ Api.info_max_players i = 8) infos
    /\ forall code room,
         Dict.get code (game_rooms w) = Some room ->
         In (Api.mkRoomInfo code (len (players room)) 8 (game_started room))
            infos.
Proof.
  intros w. destruct (run_sound r trace) as [Hnd Hall]. fold w in Hnd, Hall.
  eexists. split; [reflexivity|].
  split.
  { rewrite map_map. unfold Dict.keys. apply map_ext. now intros [c rm]. }
  split.
  { rewrite map_map.
    erewrite map_ext; [exact Hnd|]. now intros [c rm]. }
  split.
  { apply Forall_map. eapply Forall_impl; [|exact Hall].
    intros [c rm] Hr. cbn in Hr |- *. destruct Hr.
    split; [split|]; try assumption.
    unfold len. destruct (players rm); [contradiction | cbn; lia]. }
  intros code room Hget.
  pose proof (sound_get _ _ _ (conj Hnd Hall) Hget) as Hr.
  apply get_In in Hget.
  apply in_map_iff. exists (code, room). split; [|exact Hget].
  cbn. destruct Hr. congruence.
Qed.

(** The listing while ABCD and WXYZ are open. *)
Lemma api_rooms_lists_every_room_witness :
  let w :=
    run (boot Scenario.first_word)
        [ (0, InCreateRoom "sidA" "ABCD" "Alice");
          (1, InJoinRoom "sidB" "ABCD" "Bob");
          (2, InCreateRoom "sidD" "WXYZ" "Dave") ]%Q in
  Dict.get "WXYZ" (game_rooms w)
  = Some (mkRoom "WXYZ" [mkPlayer "sidD" "Dave" 0 true] 8 false 0 3 0 None
                 None [] [] None)
  /\ exists infos,
       Api.get_rooms w = Ok infos w
       /\ map Api.info_room_code infos = Dict.keys (game_rooms w)
       /\ In (Api.mkRoomInfo "WXYZ" 1 8 false) infos.
Proof.
  intros w.
  assert (Hget : Dict.get "WXYZ" (game_rooms w)
                 = Some (mkRoom "WXYZ" [mkPlayer "sidD" "Dave" 0 true] 8 false
                                0 3 0 None None [] [] None))
    by (vm_compute; reflexivity).
  split; [exact Hget|].
  destruct (api_rooms_lists_every_room Scenario.first_word
              [ (0, InCreateRoom "sidA" "ABCD" "Alice");
                (1, InJoinRoom "sidB" "ABCD" "Bob");
                (2, InCreateRoom "sidD" "WXYZ" "Dave") ]%Q)
    as (infos & Hrun & Hcodes & _ & _ & Hin).
  fold w in Hrun, Hcodes, Hin.
  exists infos. split; [exact Hrun|]. split; [exact Hcodes|].
  exact (Hin "WXYZ" _ Hget).
Defined.

(** ** The secret *)

(** X21. In every run, the secret of a room, when it has one, is a word of
    the word bank, so the mask sent for it is never empty. *)
Theorem run_secret_from_bank (r : nat -> nat) (trace : list (Q * Input))
    (code : string) (room : Room) (word : string) :
  Dict.get code (game_rooms (run (boot r) trace)) = Some room ->
  current_word room = Some word ->
  In word WORD_BANK /\ (0 < String.length (masked word))%nat.
Proof.
  intros Hget Hword.
  assert (Hin : In word WORD_BANK)
    by exact (rooms_get _ _ _ _ (run_words_from_bank r trace) Hget word Hword).
  split; [exact Hin|]. rewrite masked_length.
  assert (Hall : forallb (fun s => Nat.ltb 0 (String.length s)) WORD_BANK = true)
    by (vm_compute; reflexivity).
  rewrite forallb_forall in Hall. now apply Nat.ltb_lt, Hall.
Qed.

Lemma run_secret_from_bank_witness :
  Dict.get "ABCD" (game_rooms Scenario.playing) = Some Scenario.room_playing
  /\ In "cat" WORD_BANK.
Proof.
  split; [reflexivity|].
  exact (proj1 (run_secret_from_bank Scenario.first_word
                  [ (0, InCreateRoom "sidA" "ABCD" "Alice");
                    (1, InJoinRoom "sidB" "ABCD" "Bob");
                    (2, InStartGame "sidA" "ABCD") ]%Q
                  "ABCD" Scenario.room_playing "cat" eq_refl eq_refl)).
Defined.
